(** * homebridge-switchbot: device state synchronisation

    A shallow embedding of the accessory classes [Contact] (contact.ts),
    [Fan] (fan.ts), [RobotVacuumCleaner] (robotvacuumcleaner.ts) and of
    [Others.pushChanges] (other.ts), together with the RxJS operators
    their constructors wire up, and the properties of the synchronisation
    pipeline that hold (or fail) on them.

    Conventions.
    - An accessory object is a record of its mutable fields.  A method is
      an [action]: a function on the pair of the object and the trace of
      externally visible effects it has produced so far (HomeKit
      characteristic updates, HTTP requests, BLE commands, timers armed).
    - JavaScript values are first-order: [jsval].  Comparison is [===],
      conditions use JavaScript truthiness, [Number(...)] is [ToNumber].
    - What the network answers is an input of the method that asks. *)

From Stdlib Require Import Bool ZArith QArith String List Lia.
Import ListNotations.
Open Scope string_scope.
Open Scope list_scope.
Open Scope Z_scope.

(* ================================================================== *)
(** ** JavaScript values *)

Module JS.

(** IEEE doubles, seen as the rationals they denote plus the three
    special values.  Only comparison and equality are used on them. *)
Inductive number :=
| NaN
| NegInfinity
| PosInfinity
| Fin (q : Q).

Inductive jsval :=
| JUndefined
| JNull
| JBool (b : bool)
| JNum (n : number)
| JStr (s : string).

Definition num (z : Z) : jsval := JNum (Fin (inject_Z z)).
Definition str (s : string) : jsval := JStr s.

(** [a === b] on numbers: NaN is different from everything. *)
Definition number_eq (a b : number) : bool :=
  match a, b with
  | Fin p, Fin q => Qeq_bool p q
  | NegInfinity, NegInfinity => true
  | PosInfinity, PosInfinity => true
  | _, _ => false
  end.

(** [a < b] on numbers: false as soon as one side is NaN. *)
Definition number_lt (a b : number) : bool :=
  match a, b with
  | NaN, _ | _, NaN => false
  | Fin p, Fin q => negb (Qle_bool q p)
  | NegInfinity, NegInfinity => false
  | NegInfinity, _ => true
  | _, NegInfinity => false
  | PosInfinity, _ => false
  | Fin _, PosInfinity => true
  end.

(** [Number.isNaN] *)
Definition isNaN (a : number) : bool :=
  match a with NaN => true | _ => false end.

(** [a === b] *)
Definition strict_eq (a b : jsval) : bool :=
  match a, b with
  | JUndefined, JUndefined => true
  | JNull, JNull => true
  | JBool x, JBool y => Bool.eqb x y
  | JNum x, JNum y => number_eq x y
  | JStr x, JStr y => String.eqb x y
  | _, _ => false
  end.

(** ToBoolean: what [if (v)], [!v], [v ? a : b] and [Boolean(v)] test. *)
Definition truthy (v : jsval) : bool :=
  match v with
  | JUndefined | JNull => false
  | JBool b => b
  | JNum NaN => false
  | JNum (Fin q) => negb (Qeq_bool q 0)
  | JNum _ => true
  | JStr s => negb (String.eqb s "")
  end.

(** [a || b] *)
Definition or_else (a b : jsval) : jsval := if truthy a then a else b.

Section ToNumber.
  (** The engine's StringToNumber (ECMA-262, 7.1.4.1.1) is not part of
      this repository; [Number] is embedded relative to it. *)
Variable StringToNumber : string -> number.

(** [Number(v)] *)
Definition ToNumber (v : jsval) : number :=
    match v with
    | JUndefined => NaN
    | JNull => Fin 0
    | JBool true => Fin 1
    | JBool false => Fin 0
    | JNum n => n
    | JStr s => StringToNumber s
    end.
End ToNumber.

(** A StringToNumber for running examples: it reads the strings made of
    decimal digits only and the empty string, and answers NaN on every
    other string.  No theorem below depends on it. *)
Definition digit_of (c : Ascii.ascii) : option Z :=
  let n := Z.of_nat (Ascii.nat_of_ascii c) in
  if (48 <=? n) && (n <=? 57) then Some (n - 48) else None.

Fixpoint digits_value (acc : Z) (s : string) : option Z :=
  match s with
  | EmptyString => Some acc
  | String c r =>
      match digit_of c with
      | Some d => digits_value (10 * acc + d) r
      | None => None
      end
  end.

Definition digitsToNumber (s : string) : number :=
  match digits_value 0 s with
  | Some z => Fin (inject_Z z)
  | None => NaN
  end.

End JS.
Import JS.

(* ================================================================== *)
(** ** HAP characteristic constants (hap-nodejs) *)

Module HAP.
Definition Active_INACTIVE := num 0.
Definition Active_ACTIVE := num 1.
Definition SwingMode_SWING_DISABLED := num 0.
Definition SwingMode_SWING_ENABLED := num 1.
Definition ChargingState_NOT_CHARGING := num 0.
Definition ChargingState_CHARGING := num 1.
Definition StatusLowBattery_BATTERY_LEVEL_NORMAL := num 0.
Definition StatusLowBattery_BATTERY_LEVEL_LOW := num 1.
Definition ContactSensorState_CONTACT_DETECTED := num 0.
Definition ContactSensorState_CONTACT_NOT_DETECTED := num 1.
End HAP.

(* ================================================================== *)
(** ** Inputs from the transports *)

(** settings.ts, [serviceData]: what a BLE advertisement carries. *)
Record serviceData := {
  sd_state : jsval;
  sd_doorState : jsval;
  sd_movement : jsval;
  sd_lightLevel : jsval;
  sd_battery : jsval
}.

(** settings.ts, [deviceStatus.body]: the fields the parsers read. *)
Record statusBody := {
  power : jsval;
  oscillation : jsval;
  fanSpeed : jsval;
  chargingStatus : jsval;
  battery : jsval;
  version : jsval;
  openState : jsval;
  moveDetected : jsval;
  brightness : jsval
}.

(** settings.ts, [deviceStatus]: the JSON document of an OpenAPI answer. *)
Record deviceStatus := {
  ds_statusCode : jsval;
  body : statusBody
}.

(** The outcome of awaiting an HTTP call and [body.json()]. *)
Inductive reply :=
| Replied (statusCode : Z) (deviceStatus : deviceStatus)
| Threw (message : string).

(** The payload handed to [platform.webhookEventHandler[deviceId]]. *)
Record webhookContext := {
  wh_version : jsval;
  wh_battery : jsval;
  wh_powerState : jsval;
  wh_oscillation : jsval;
  wh_chargingStatus : jsval;
  wh_fanSpeed : jsval;
  wh_onlineStatus : jsval;
  wh_detectionState : jsval;
  wh_brightness : jsval;
  wh_openState : jsval
}.

(** What [platform.connectBLE()] resolves to: [undefined], [false], or a
    node-switchbot driver; of a driver, the methods read
    [switchbot.onadvertisement.serviceData] once the scan is over. *)
Inductive driver :=
| DriverUndefined
| DriverFalse
| Driver (serviceData : option serviceData).

(** The outcome of the BLE promise chain
    [discover(...).then(retryBLE(turnOn | turnOff))]: resolved or
    rejected.  [retryBLE] (device.ts) may repeat the command up to
    [maxRetryBLE()] times; the trace records the command once. *)
Inductive bleOutcome :=
| BleResolved
| BleRejected (message : string).

(* ================================================================== *)
(** ** Effects *)

Module Characteristic.
Inductive t :=
| Active | SwingMode | RotationSpeed
| BatteryLevel | StatusLowBattery | ChargingState
| ContactSensorState | MotionDetected | CurrentAmbientLightLevel
| On | Brightness.
End Characteristic.

Module Method.
Inductive t :=
| refreshStatus | BLERefreshStatus | openAPIRefreshStatus
| BLEparseStatus | openAPIparseStatus | webhookEventHandler
| pushChanges | BLEpushChanges | openAPIpushChanges
| openAPIpushBrightnessChanges
| updateHomeKitCharacteristics | offlineOff | apiError.

Definition eqb (a b : t) : bool :=
    match a, b with
    | refreshStatus, refreshStatus
    | BLERefreshStatus, BLERefreshStatus
    | openAPIRefreshStatus, openAPIRefreshStatus
    | BLEparseStatus, BLEparseStatus
    | openAPIparseStatus, openAPIparseStatus
    | webhookEventHandler, webhookEventHandler
    | pushChanges, pushChanges
    | BLEpushChanges, BLEpushChanges
    | openAPIpushChanges, openAPIpushChanges
    | openAPIpushBrightnessChanges, openAPIpushBrightnessChanges
    | updateHomeKitCharacteristics, updateHomeKitCharacteristics
    | offlineOff, offlineOff
    | apiError, apiError => true
    | _, _ => false
    end.
End Method.

Inductive effect :=
| Call (m : Method.t)
  (* a method of the accessory is entered *)
| UpdateCharacteristic (c : Characteristic.t) (v : jsval)
  (* Service.updateCharacteristic(c, v) *)
| UpdateCharacteristicError (c : Characteristic.t) (message : string)
  (* Service.updateCharacteristic(c, e) with a caught exception e *)
| FirmwareRevision (v : jsval)
  (* AccessoryInformation FirmwareRevision set from the reported version v *)
| StatusCode (v : jsval)
  (* deviceBase.statusCode(v) *)
| GetStatus
  (* platform.retryRequest(..., `${Devices}/${deviceId}/status`, ...) *)
| PostCommand (command parameter commandType : string)
  (* request(`${Devices}/${deviceId}/commands`, {method: 'POST', body}) *)
| BleScan
  (* switchbot.startScan / wait / stopScan *)
| BleTurnOn
| BleTurnOff
| SubscribeTake1 (period : Z).
  (* interval(period).pipe(skipWhile(inProgress)).pipe(take(1))
       .subscribe(refreshStatus) *)

Definition is_call (m : Method.t) (e : effect) : bool :=
  match e with
  | Call m' => Method.eqb m m'
  | _ => false
  end.

(** A command handed to a transport. *)
Definition is_dispatch (e : effect) : bool :=
  match e with
  | PostCommand _ _ _ | BleTurnOn | BleTurnOff => true
  | _ => false
  end.

(** A value pushed to the HomeKit registry. *)
Definition is_publish (e : effect) : bool :=
  match e with
  | UpdateCharacteristic _ _ => true
  | _ => false
  end.

Definition calls (m : Method.t) (tr : list effect) : nat :=
  length (filter (is_call m) tr).

Definition dispatches (tr : list effect) : list effect :=
  filter is_dispatch tr.

(** Objects with their trace, and the actions on them. *)
Section Actions.
Context {O : Type}.

Definition world := (O * list effect)%type.
Definition action := world -> world.

Definition emit (e : effect) : action :=
  fun w => (fst w, snd w ++ [e]).

Definition assign (f : O -> O) : action :=
  fun w => (f (fst w), snd w).

Definition skip : action := fun w => w.

Definition seq (a b : action) : action := fun w => b (a w).

End Actions.
Arguments world O : clear implicits.
Arguments action O : clear implicits.

Declare Scope action_scope.
Delimit Scope action_scope with act.
Notation "a ;; b" := (seq a b) (at level 61, right associativity) : action_scope.
Open Scope action_scope.

(** The dual status check every OpenAPI call site repeats:
    [(statusCode === 200 || statusCode === 100) &&
     (deviceStatus.statusCode === 200 || deviceStatus.statusCode === 100)] *)
Definition dualStatusOk (statusCode : Z) (ds : deviceStatus) : bool :=
  ((statusCode =? 200) || (statusCode =? 100)) &&
  (strict_eq (ds_statusCode ds) (num 200) || strict_eq (ds_statusCode ds) (num 100)).

(** Modelled from the spec: [deviceBase.statusCode] (device.ts) is not
    under src/.  The spec says of it only that the numeric vendor status
    "is mapped to a classified error"; the call is recorded in the trace.
    It is a method of the base class shared by all accessories and has no
    access to the capability fields its subclasses declare private. *)
Definition statusCode {O : Type} (v : jsval) : action O :=
  emit (StatusCode v).

(** The firmware block every [openAPIparseStatus] ends with:
    [if (deviceStatus.body.version) { ... FirmwareRevision ... }] *)
Definition firmwareVersion {O : Type} (b : statusBody) : action O :=
  if truthy (version b) then emit (FirmwareRevision (version b)) else skip.

(* ================================================================== *)
(** ** contact.ts *)

Module Contact.

(** What the methods read of [this.device], [this.BLE], [this.OpenAPI]
    and [platform.config.credentials]. *)
Record config := {
  hide_motionsensor : bool;
  hide_lightsensor : bool;
  set_minLux : jsval;
  set_maxLux : jsval;
  offline : bool;
  enableCloudService : bool;
  BLE : bool;
  OpenAPI : bool;
  connectionType : string;
  token : bool
}.

(** [this.ContactSensor], [this.MotionSensor], [this.LightSensor],
    [this.Battery] and the keys of [accessory.context] the class uses. *)
Record t := {
  ContactSensorState : jsval;
  MotionDetected : jsval;
  CurrentAmbientLightLevel : jsval;
  BatteryLevel : jsval;
  StatusLowBattery : jsval;
  context_ContactSensorState : jsval;
  context_MotionDetected : jsval;
  context_CurrentAmbientLightLevel : jsval;
  context_BatteryLevel : jsval;
  context_StatusLowBattery : jsval
}.

Definition set_ContactSensorState (v : jsval) (o : t) : t :=
  {| ContactSensorState := v;
     MotionDetected := MotionDetected o;
     CurrentAmbientLightLevel := CurrentAmbientLightLevel o;
     BatteryLevel := BatteryLevel o;
     StatusLowBattery := StatusLowBattery o;
     context_ContactSensorState := context_ContactSensorState o;
     context_MotionDetected := context_MotionDetected o;
     context_CurrentAmbientLightLevel := context_CurrentAmbientLightLevel o;
     context_BatteryLevel := context_BatteryLevel o;
     context_StatusLowBattery := context_StatusLowBattery o |}.

Definition set_MotionDetected (v : jsval) (o : t) : t :=
  {| ContactSensorState := ContactSensorState o;
     MotionDetected := v;
     CurrentAmbientLightLevel := CurrentAmbientLightLevel o;
     BatteryLevel := BatteryLevel o;
     StatusLowBattery := StatusLowBattery o;
     context_ContactSensorState := context_ContactSensorState o;
     context_MotionDetected := context_MotionDetected o;
     context_CurrentAmbientLightLevel := context_CurrentAmbientLightLevel o;
     context_BatteryLevel := context_BatteryLevel o;
     context_StatusLowBattery := context_StatusLowBattery o |}.

Definition set_CurrentAmbientLightLevel (v : jsval) (o : t) : t :=
  {| ContactSensorState := ContactSensorState o;
     MotionDetected := MotionDetected o;
     CurrentAmbientLightLevel := v;
     BatteryLevel := BatteryLevel o;
     StatusLowBattery := StatusLowBattery o;
     context_ContactSensorState := context_ContactSensorState o;
     context_MotionDetected := context_MotionDetected o;
     context_CurrentAmbientLightLevel := context_CurrentAmbientLightLevel o;
     context_BatteryLevel := context_BatteryLevel o;
     context_StatusLowBattery := context_StatusLowBattery o |}.

Definition set_BatteryLevel (v : jsval) (o : t) : t :=
  {| ContactSensorState := ContactSensorState o;
     MotionDetected := MotionDetected o;
     CurrentAmbientLightLevel := CurrentAmbientLightLevel o;
     BatteryLevel := v;
     StatusLowBattery := StatusLowBattery o;
     context_ContactSensorState := context_ContactSensorState o;
     context_MotionDetected := context_MotionDetected o;
     context_CurrentAmbientLightLevel := context_CurrentAmbientLightLevel o;
     context_BatteryLevel := context_BatteryLevel o;
     context_StatusLowBattery := context_StatusLowBattery o |}.

Definition set_StatusLowBattery (v : jsval) (o : t) : t :=
  {| ContactSensorState := ContactSensorState o;
     MotionDetected := MotionDetected o;
     CurrentAmbientLightLevel := CurrentAmbientLightLevel o;
     BatteryLevel := BatteryLevel o;
     StatusLowBattery := v;
     context_ContactSensorState := context_ContactSensorState o;
     context_MotionDetected := context_MotionDetected o;
     context_CurrentAmbientLightLevel := context_CurrentAmbientLightLevel o;
     context_BatteryLevel := context_BatteryLevel o;
     context_StatusLowBattery := context_StatusLowBattery o |}.

Definition set_context_ContactSensorState (v : jsval) (o : t) : t :=
  {| ContactSensorState := ContactSensorState o;
     MotionDetected := MotionDetected o;
     CurrentAmbientLightLevel := CurrentAmbientLightLevel o;
     BatteryLevel := BatteryLevel o;
     StatusLowBattery := StatusLowBattery o;
     context_ContactSensorState := v;
     context_MotionDetected := context_MotionDetected o;
     context_CurrentAmbientLightLevel := context_CurrentAmbientLightLevel o;
     context_BatteryLevel := context_BatteryLevel o;
     context_StatusLowBattery := context_StatusLowBattery o |}.

Definition set_context_MotionDetected (v : jsval) (o : t) : t :=
  {| ContactSensorState := ContactSensorState o;
     MotionDetected := MotionDetected o;
     CurrentAmbientLightLevel := CurrentAmbientLightLevel o;
     BatteryLevel := BatteryLevel o;
     StatusLowBattery := StatusLowBattery o;
     context_ContactSensorState := context_ContactSensorState o;
     context_MotionDetected := v;
     context_CurrentAmbientLightLevel := context_CurrentAmbientLightLevel o;
     context_BatteryLevel := context_BatteryLevel o;
     context_StatusLowBattery := context_StatusLowBattery o |}.

Definition set_context_CurrentAmbientLightLevel (v : jsval) (o : t) : t :=
  {| ContactSensorState := ContactSensorState o;
     MotionDetected := MotionDetected o;
     CurrentAmbientLightLevel := CurrentAmbientLightLevel o;
     BatteryLevel := BatteryLevel o;
     StatusLowBattery := StatusLowBattery o;
     context_ContactSensorState := context_ContactSensorState o;
     context_MotionDetected := context_MotionDetected o;
     context_CurrentAmbientLightLevel := v;
     context_BatteryLevel := context_BatteryLevel o;
     context_StatusLowBattery := context_StatusLowBattery o |}.

Definition set_context_BatteryLevel (v : jsval) (o : t) : t :=
  {| ContactSensorState := ContactSensorState o;
     MotionDetected := MotionDetected o;
     CurrentAmbientLightLevel := CurrentAmbientLightLevel o;
     BatteryLevel := BatteryLevel o;
     StatusLowBattery := StatusLowBattery o;
     context_ContactSensorState := context_ContactSensorState o;
     context_MotionDetected := context_MotionDetected o;
     context_CurrentAmbientLightLevel := context_CurrentAmbientLightLevel o;
     context_BatteryLevel := v;
     context_StatusLowBattery := context_StatusLowBattery o |}.

Definition set_context_StatusLowBattery (v : jsval) (o : t) : t :=
  {| ContactSensorState := ContactSensorState o;
     MotionDetected := MotionDetected o;
     CurrentAmbientLightLevel := CurrentAmbientLightLevel o;
     BatteryLevel := BatteryLevel o;
     StatusLowBattery := StatusLowBattery o;
     context_ContactSensorState := context_ContactSensorState o;
     context_MotionDetected := context_MotionDetected o;
     context_CurrentAmbientLightLevel := context_CurrentAmbientLightLevel o;
     context_BatteryLevel := context_BatteryLevel o;
     context_StatusLowBattery := v |}.

Section Methods.
Variable StringToNumber : string -> number.
Variable cfg : config.

(** [minLux()] and [maxLux()] *)
Definition minLux : jsval :=
  if truthy (set_minLux cfg) then set_minLux cfg else num 1.

Definition maxLux : jsval :=
  if truthy (set_maxLux cfg) then set_maxLux cfg else num 6001.

(** The battery block shared by both parsers.  The guard
    [if (battery === undefined) { battery === 100; }] holds a
    comparison, not an assignment: its value is dropped and [battery]
    is read unchanged by [Number(battery)]. *)
Definition parseBattery (battery : jsval) : action t :=
  let battery :=
    if strict_eq battery JUndefined
    then (let _ := strict_eq battery (num 100) in battery)
    else battery in
  let level := ToNumber StringToNumber battery in
  assign (set_BatteryLevel (JNum level)) ;;
  (if number_lt level (Fin 10)
   then assign (set_StatusLowBattery HAP.StatusLowBattery_BATTERY_LEVEL_LOW)
   else assign (set_StatusLowBattery HAP.StatusLowBattery_BATTERY_LEVEL_NORMAL)).

(** [BLEparseStatus(serviceData)] *)
Definition BLEparseStatus (sd : serviceData) : action t :=
  emit (Call Method.BLEparseStatus) ;;
  (* Door State *)
  (if strict_eq (sd_doorState sd) (str "open") || strict_eq (sd_doorState sd) (num 1)
   then assign (set_ContactSensorState HAP.ContactSensorState_CONTACT_NOT_DETECTED)
   else if strict_eq (sd_doorState sd) (str "close") || strict_eq (sd_doorState sd) (num 0)
   then assign (set_ContactSensorState HAP.ContactSensorState_CONTACT_DETECTED)
   else skip) ;;
  (* Movement *)
  (if negb (hide_motionsensor cfg)
   then assign (set_MotionDetected (JBool (truthy (sd_movement sd))))
   else skip) ;;
  (* Light Level *)
  (if negb (hide_lightsensor cfg)
   then (if strict_eq (sd_lightLevel sd) (JBool true)
         then assign (set_CurrentAmbientLightLevel minLux)
         else assign (set_CurrentAmbientLightLevel maxLux))
   else skip) ;;
  (* Battery *)
  parseBattery (sd_battery sd).

(** [openAPIparseStatus(deviceStatus)], up to its first [await]: the
    contact and motion blocks. *)
Definition openAPIparseStatus_head (ds : deviceStatus) : action t :=
  emit (Call Method.openAPIparseStatus) ;;
  (* Contact State *)
  (if strict_eq (openState (body ds)) (str "open")
   then assign (set_ContactSensorState HAP.ContactSensorState_CONTACT_NOT_DETECTED)
   else if strict_eq (openState (body ds)) (str "close")
   then assign (set_ContactSensorState HAP.ContactSensorState_CONTACT_DETECTED)
   else skip) ;;
  (* Motion State *)
  (if negb (hide_motionsensor cfg)
   then assign (set_MotionDetected (moveDetected (body ds)))
   else skip).

(** The light block, entered only when the light sensor is shown; it
    starts with [await this.minLux()]. *)
Definition openAPIparseStatus_light (ds : deviceStatus) : action t :=
  if strict_eq (brightness (body ds)) (str "dim")
  then assign (set_CurrentAmbientLightLevel minLux)
  else assign (set_CurrentAmbientLightLevel maxLux).

(** The battery and firmware blocks. *)
Definition openAPIparseStatus_tail (ds : deviceStatus) : action t :=
  parseBattery (battery (body ds)) ;;
  firmwareVersion (body ds).

(** [await openAPIparseStatus(deviceStatus)]: the whole method. *)
Definition openAPIparseStatus (ds : deviceStatus) : action t :=
  openAPIparseStatus_head ds ;;
  (if negb (hide_lightsensor cfg) then openAPIparseStatus_light ds else skip) ;;
  openAPIparseStatus_tail ds.

(** [updateHomeKitCharacteristics()] *)
Definition publish (c : Characteristic.t) (get : t -> jsval)
    (set_context : jsval -> t -> t) : action t :=
  fun w =>
    let v := get (fst w) in
    if strict_eq v JUndefined then w
    else (assign (set_context v) ;; emit (UpdateCharacteristic c v)) w.

Definition updateHomeKitCharacteristics : action t :=
  emit (Call Method.updateHomeKitCharacteristics) ;;
  publish Characteristic.ContactSensorState ContactSensorState
    set_context_ContactSensorState ;;
  (if negb (hide_motionsensor cfg)
   then publish Characteristic.MotionDetected MotionDetected
          set_context_MotionDetected
   else skip) ;;
  (if negb (hide_lightsensor cfg)
   then publish Characteristic.CurrentAmbientLightLevel CurrentAmbientLightLevel
          set_context_CurrentAmbientLightLevel
   else skip) ;;
  publish Characteristic.BatteryLevel BatteryLevel set_context_BatteryLevel ;;
  publish Characteristic.StatusLowBattery StatusLowBattery
    set_context_StatusLowBattery.

(** [offlineOff()] *)
Definition offlineOff : action t :=
  emit (Call Method.offlineOff) ;;
  (if offline cfg
   then emit (UpdateCharacteristic Characteristic.ContactSensorState
                HAP.ContactSensorState_CONTACT_DETECTED) ;;
        (if negb (hide_motionsensor cfg)
         then emit (UpdateCharacteristic Characteristic.MotionDetected (JBool false))
         else skip) ;;
        (if negb (hide_lightsensor cfg)
         then emit (UpdateCharacteristic Characteristic.CurrentAmbientLightLevel (num 100))
         else skip)
   else skip).

(** [apiError(e)] *)
Definition apiError (e : string) : action t :=
  emit (Call Method.apiError) ;;
  emit (UpdateCharacteristicError Characteristic.ContactSensorState e) ;;
  (if negb (hide_motionsensor cfg)
   then emit (UpdateCharacteristicError Characteristic.MotionDetected e)
   else skip) ;;
  (if negb (hide_lightsensor cfg)
   then emit (UpdateCharacteristicError Characteristic.CurrentAmbientLightLevel e)
   else skip) ;;
  emit (UpdateCharacteristicError Characteristic.BatteryLevel e) ;;
  emit (UpdateCharacteristicError Characteristic.StatusLowBattery e).

(** [openAPIRefreshStatus()], given what the request resolves to.
    [this.openAPIparseStatus(deviceStatus)] is called without [await]:
    it runs up to its first [await] (the one of the light block, when
    the light sensor is shown), then [updateHomeKitCharacteristics()]
    runs, and the rest of the parser runs once the caller has
    returned. *)
Definition openAPIRefreshStatus (r : reply) : action t :=
  emit (Call Method.openAPIRefreshStatus) ;;
  emit GetStatus ;;
  match r with
  | Replied sc ds =>
      if dualStatusOk sc ds then
        openAPIparseStatus_head ds ;;
        (if negb (hide_lightsensor cfg)
         then updateHomeKitCharacteristics ;;
              openAPIparseStatus_light ds ;;
              openAPIparseStatus_tail ds
         else openAPIparseStatus_tail ds ;;
              updateHomeKitCharacteristics)
      else
        statusCode (num sc) ;;
        statusCode (ds_statusCode ds) ;;
        (if strict_eq (ds_statusCode ds) (num 161) || strict_eq (ds_statusCode ds) (num 171)
         then offlineOff
         else skip)
  | Threw e => apiError e
  end.

(** [BLERefreshConnection(switchbot)] *)
Definition BLERefreshConnection (r : reply) : action t :=
  if token cfg && String.eqb (connectionType cfg) "BLE/OpenAPI"
  then openAPIRefreshStatus r
  else skip.

(** [BLERefreshStatus()].  The scan runs in a detached block, which
    ends with [BLEparseStatus(switchbot.onadvertisement.serviceData)] and
    [updateHomeKitCharacteristics()]; the block is abandoned where it
    throws (no driver to scan with, no service data to read).  Only when
    [connectBLE()] gave [undefined] does [BLERefreshConnection] fall back
    to OpenAPI. *)
Definition BLERefreshStatus (switchbot : driver) (r : reply) : action t :=
  emit (Call Method.BLERefreshStatus) ;;
  match switchbot with
  | Driver (Some sd) =>
      emit BleScan ;; BLEparseStatus sd ;; updateHomeKitCharacteristics
  | Driver None => emit BleScan ;; emit (Call Method.BLEparseStatus)
  | DriverFalse => skip
  | DriverUndefined => BLERefreshConnection r
  end.

(** [refreshStatus()] *)
Definition refreshStatus (switchbot : driver) (r : reply) : action t :=
  emit (Call Method.refreshStatus) ;;
  if negb (enableCloudService cfg) && OpenAPI cfg then skip
  else if BLE cfg then BLERefreshStatus switchbot r
  else if OpenAPI cfg then openAPIRefreshStatus r
  else offlineOff.

(** The handler registered in [platform.webhookEventHandler]. *)
Definition webhookEventHandler (context : webhookContext) : action t :=
  emit (Call Method.webhookEventHandler) ;;
  assign (set_ContactSensorState
            (if strict_eq (wh_openState context) (str "open") then num 1 else num 0)) ;;
  (if negb (hide_motionsensor cfg)
   then assign (set_MotionDetected
                  (if strict_eq (wh_detectionState context) (str "DETECTED")
                   then JBool true else JBool false))
   else skip) ;;
  (if negb (hide_lightsensor cfg)
   then assign (set_CurrentAmbientLightLevel
                  (if strict_eq (wh_brightness context) (str "bright")
                   then maxLux else minLux))
   else skip) ;;
  updateHomeKitCharacteristics.

End Methods.

End Contact.

(* ================================================================== *)
(** ** RxJS operators used by the constructors (rxjs 7) *)

Module Rx.

(** [skipWhile(predicate)].  The operator keeps one latch, [taking],
    initially false, and forwards a value exactly when
    [taking || (taking = !predicate(value))]: values are dropped while
    the predicate holds, and from the first value on which it fails
    every value is forwarded, the predicate being consulted no more.
    The result is both the new latch and whether the value passes. *)
Definition skipWhile (taking predicate : bool) : bool :=
  taking || negb predicate.

(** [debounceTime(dueTime)].  Each [next] at time [now] replaces the
    pending emission by one due at [now + dueTime]; the emission is
    made when its due time is reached with no [next] in between. *)
Definition debounce_next (dueTime now : Z) : option Z :=
  Some (now + dueTime).

Definition debounce_due (pending : option Z) (now : Z) : bool :=
  match pending with
  | Some due => due <=? now
  | None => false
  end.

End Rx.

(** What the outside world answers, as a function of the time it is
    asked. *)
Record environment := {
  connectBLE : Z -> driver;      (* platform.connectBLE() *)
  statusReply : Z -> reply;      (* GET .../status *)
  commandReply : Z -> reply;     (* POST .../commands *)
  bleReply : Z -> bleOutcome     (* discover / turnOn / turnOff *)
}.

(* ================================================================== *)
(** ** fan.ts *)

Module Fan.

Record config := {
  offline : bool;
  enableCloudService : bool;
  BLE : bool;
  OpenAPI : bool;
  connectionType : string;
  token : bool;
  deviceRefreshRate : Z;       (* seconds *)
  pushRate_ms : Z              (* platform.config.options.pushRate * 1000 *)
}.

Record t := {
  Active : jsval;
  SwingMode : jsval;
  RotationSpeed : jsval;
  BatteryLevel : jsval;
  StatusLowBattery : jsval;
  ChargingState : jsval;
  context_Active : jsval;
  context_SwingMode : jsval;
  context_RotationSpeed : jsval;
  context_BatteryLevel : jsval;
  context_StatusLowBattery : jsval;
  context_ChargingState : jsval;
  plugUpdateInProgress : bool
}.

Definition set_Active (v : jsval) (o : t) : t :=
  {| Active := v;
     SwingMode := SwingMode o;
     RotationSpeed := RotationSpeed o;
     BatteryLevel := BatteryLevel o;
     StatusLowBattery := StatusLowBattery o;
     ChargingState := ChargingState o;
     context_Active := context_Active o;
     context_SwingMode := context_SwingMode o;
     context_RotationSpeed := context_RotationSpeed o;
     context_BatteryLevel := context_BatteryLevel o;
     context_StatusLowBattery := context_StatusLowBattery o;
     context_ChargingState := context_ChargingState o;
     plugUpdateInProgress := plugUpdateInProgress o |}.

Definition set_SwingMode (v : jsval) (o : t) : t :=
  {| Active := Active o;
     SwingMode := v;
     RotationSpeed := RotationSpeed o;
     BatteryLevel := BatteryLevel o;
     StatusLowBattery := StatusLowBattery o;
     ChargingState := ChargingState o;
     context_Active := context_Active o;
     context_SwingMode := context_SwingMode o;
     context_RotationSpeed := context_RotationSpeed o;
     context_BatteryLevel := context_BatteryLevel o;
     context_StatusLowBattery := context_StatusLowBattery o;
     context_ChargingState := context_ChargingState o;
     plugUpdateInProgress := plugUpdateInProgress o |}.

Definition set_RotationSpeed (v : jsval) (o : t) : t :=
  {| Active := Active o;
     SwingMode := SwingMode o;
     RotationSpeed := v;
     BatteryLevel := BatteryLevel o;
     StatusLowBattery := StatusLowBattery o;
     ChargingState := ChargingState o;
     context_Active := context_Active o;
     context_SwingMode := context_SwingMode o;
     context_RotationSpeed := context_RotationSpeed o;
     context_BatteryLevel := context_BatteryLevel o;
     context_StatusLowBattery := context_StatusLowBattery o;
     context_ChargingState := context_ChargingState o;
     plugUpdateInProgress := plugUpdateInProgress o |}.

Definition set_BatteryLevel (v : jsval) (o : t) : t :=
  {| Active := Active o;
     SwingMode := SwingMode o;
     RotationSpeed := RotationSpeed o;
     BatteryLevel := v;
     StatusLowBattery := StatusLowBattery o;
     ChargingState := ChargingState o;
     context_Active := context_Active o;
     context_SwingMode := context_SwingMode o;
     context_RotationSpeed := context_RotationSpeed o;
     context_BatteryLevel := context_BatteryLevel o;
     context_StatusLowBattery := context_StatusLowBattery o;
     context_ChargingState := context_ChargingState o;
     plugUpdateInProgress := plugUpdateInProgress o |}.

Definition set_StatusLowBattery (v : jsval) (o : t) : t :=
  {| Active := Active o;
     SwingMode := SwingMode o;
     RotationSpeed := RotationSpeed o;
     BatteryLevel := BatteryLevel o;
     StatusLowBattery := v;
     ChargingState := ChargingState o;
     context_Active := context_Active o;
     context_SwingMode := context_SwingMode o;
     context_RotationSpeed := context_RotationSpeed o;
     context_BatteryLevel := context_BatteryLevel o;
     context_StatusLowBattery := context_StatusLowBattery o;
     context_ChargingState := context_ChargingState o;
     plugUpdateInProgress := plugUpdateInProgress o |}.

Definition set_ChargingState (v : jsval) (o : t) : t :=
  {| Active := Active o;
     SwingMode := SwingMode o;
     RotationSpeed := RotationSpeed o;
     BatteryLevel := BatteryLevel o;
     StatusLowBattery := StatusLowBattery o;
     ChargingState := v;
     context_Active := context_Active o;
     context_SwingMode := context_SwingMode o;
     context_RotationSpeed := context_RotationSpeed o;
     context_BatteryLevel := context_BatteryLevel o;
     context_StatusLowBattery := context_StatusLowBattery o;
     context_ChargingState := context_ChargingState o;
     plugUpdateInProgress := plugUpdateInProgress o |}.

Definition set_context_Active (v : jsval) (o : t) : t :=
  {| Active := Active o;
     SwingMode := SwingMode o;
     RotationSpeed := RotationSpeed o;
     BatteryLevel := BatteryLevel o;
     StatusLowBattery := StatusLowBattery o;
     ChargingState := ChargingState o;
     context_Active := v;
     context_SwingMode := context_SwingMode o;
     context_RotationSpeed := context_RotationSpeed o;
     context_BatteryLevel := context_BatteryLevel o;
     context_StatusLowBattery := context_StatusLowBattery o;
     context_ChargingState := context_ChargingState o;
     plugUpdateInProgress := plugUpdateInProgress o |}.

Definition set_context_SwingMode (v : jsval) (o : t) : t :=
  {| Active := Active o;
     SwingMode := SwingMode o;
     RotationSpeed := RotationSpeed o;
     BatteryLevel := BatteryLevel o;
     StatusLowBattery := StatusLowBattery o;
     ChargingState := ChargingState o;
     context_Active := context_Active o;
     context_SwingMode := v;
     context_RotationSpeed := context_RotationSpeed o;
     context_BatteryLevel := context_BatteryLevel o;
     context_StatusLowBattery := context_StatusLowBattery o;
     context_ChargingState := context_ChargingState o;
     plugUpdateInProgress := plugUpdateInProgress o |}.

Definition set_context_RotationSpeed (v : jsval) (o : t) : t :=
  {| Active := Active o;
     SwingMode := SwingMode o;
     RotationSpeed := RotationSpeed o;
     BatteryLevel := BatteryLevel o;
     StatusLowBattery := StatusLowBattery o;
     ChargingState := ChargingState o;
     context_Active := context_Active o;
     context_SwingMode := context_SwingMode o;
     context_RotationSpeed := v;
     context_BatteryLevel := context_BatteryLevel o;
     context_StatusLowBattery := context_StatusLowBattery o;
     context_ChargingState := context_ChargingState o;
     plugUpdateInProgress := plugUpdateInProgress o |}.

Definition set_context_BatteryLevel (v : jsval) (o : t) : t :=
  {| Active := Active o;
     SwingMode := SwingMode o;
     RotationSpeed := RotationSpeed o;
     BatteryLevel := BatteryLevel o;
     StatusLowBattery := StatusLowBattery o;
     ChargingState := ChargingState o;
     context_Active := context_Active o;
     context_SwingMode := context_SwingMode o;
     context_RotationSpeed := context_RotationSpeed o;
     context_BatteryLevel := v;
     context_StatusLowBattery := context_StatusLowBattery o;
     context_ChargingState := context_ChargingState o;
     plugUpdateInProgress := plugUpdateInProgress o |}.

Definition set_context_StatusLowBattery (v : jsval) (o : t) : t :=
  {| Active := Active o;
     SwingMode := SwingMode o;
     RotationSpeed := RotationSpeed o;
     BatteryLevel := BatteryLevel o;
     StatusLowBattery := StatusLowBattery o;
     ChargingState := ChargingState o;
     context_Active := context_Active o;
     context_SwingMode := context_SwingMode o;
     context_RotationSpeed := context_RotationSpeed o;
     context_BatteryLevel := context_BatteryLevel o;
     context_StatusLowBattery := v;
     context_ChargingState := context_ChargingState o;
     plugUpdateInProgress := plugUpdateInProgress o |}.

Definition set_context_ChargingState (v : jsval) (o : t) : t :=
  {| Active := Active o;
     SwingMode := SwingMode o;
     RotationSpeed := RotationSpeed o;
     BatteryLevel := BatteryLevel o;
     StatusLowBattery := StatusLowBattery o;
     ChargingState := ChargingState o;
     context_Active := context_Active o;
     context_SwingMode := context_SwingMode o;
     context_RotationSpeed := context_RotationSpeed o;
     context_BatteryLevel := context_BatteryLevel o;
     context_StatusLowBattery := context_StatusLowBattery o;
     context_ChargingState := v;
     plugUpdateInProgress := plugUpdateInProgress o |}.

Definition set_plugUpdateInProgress (v : bool) (o : t) : t :=
    {| Active := Active o;
       SwingMode := SwingMode o;
       RotationSpeed := RotationSpeed o;
       BatteryLevel := BatteryLevel o;
       StatusLowBattery := StatusLowBattery o;
       ChargingState := ChargingState o;
       context_Active := context_Active o;
       context_SwingMode := context_SwingMode o;
       context_RotationSpeed := context_RotationSpeed o;
       context_BatteryLevel := context_BatteryLevel o;
       context_StatusLowBattery := context_StatusLowBattery o;
       context_ChargingState := context_ChargingState o;
       plugUpdateInProgress := v |}.
  (** The constructor's field initialisers, from [accessory.context].
      [this.Battery.Service] is what [accessory.getService(Battery)]
      gives; the class never adds that service, and whether the
      accessory has one is an argument of
      [Fan_updateHomeKitCharacteristics_on]. *)
Definition construct (context_Active context_SwingMode context_RotationSpeed
    context_BatteryLevel context_StatusLowBattery context_ChargingState : jsval) : t :=
  {| Active := or_else context_Active HAP.Active_INACTIVE;
     SwingMode := or_else context_SwingMode HAP.SwingMode_SWING_DISABLED;
     RotationSpeed := or_else context_RotationSpeed (num 0);
     BatteryLevel := or_else context_BatteryLevel (num 100);
     StatusLowBattery :=
       or_else context_StatusLowBattery HAP.StatusLowBattery_BATTERY_LEVEL_NORMAL;
     ChargingState := or_else context_ChargingState HAP.ChargingState_NOT_CHARGING;
     context_Active := context_Active;
     context_SwingMode := context_SwingMode;
     context_RotationSpeed := context_RotationSpeed;
     context_BatteryLevel := context_BatteryLevel;
     context_StatusLowBattery := context_StatusLowBattery;
     context_ChargingState := context_ChargingState;
     plugUpdateInProgress := false |}.

Section Methods.
Variable StringToNumber : string -> number.
Variable cfg : config.

(** [BLEparseStatus(serviceData)] *)
Definition BLEparseStatus (sd : serviceData) : action t :=
  emit (Call Method.BLEparseStatus) ;;
  (if strict_eq (sd_state sd) (str "on")
   then assign (set_Active (JBool true))
   else assign (set_Active (JBool false))).

(** [openAPIparseStatus(deviceStatus)] *)
Definition openAPIparseStatus (ds : deviceStatus) : action t :=
  emit (Call Method.openAPIparseStatus) ;;
  (* Active *)
  assign (set_Active (if strict_eq (power (body ds)) (str "on")
                      then HAP.Active_ACTIVE else HAP.Active_INACTIVE)) ;;
  (* SwingMode *)
  assign (set_SwingMode (if strict_eq (oscillation (body ds)) (str "on")
                         then HAP.SwingMode_SWING_ENABLED
                         else HAP.SwingMode_SWING_DISABLED)) ;;
  (* RotationSpeed *)
  assign (set_RotationSpeed (fanSpeed (body ds))) ;;
  (* ChargingState *)
  assign (set_ChargingState (if strict_eq (chargingStatus (body ds)) (str "charging")
                             then HAP.ChargingState_CHARGING
                             else HAP.ChargingState_NOT_CHARGING)) ;;
  (* BatteryLevel *)
  (let level := ToNumber StringToNumber (battery (body ds)) in
   assign (set_BatteryLevel (JNum level)) ;;
   (if number_lt level (Fin 10)
    then assign (set_StatusLowBattery HAP.StatusLowBattery_BATTERY_LEVEL_LOW)
    else assign (set_StatusLowBattery HAP.StatusLowBattery_BATTERY_LEVEL_NORMAL)) ;;
   (if isNaN level then assign (set_BatteryLevel (num 100)) else skip)) ;;
  (* Firmware Version *)
  firmwareVersion (body ds).

(** [updateHomeKitCharacteristics()] *)
Definition publish (c : Characteristic.t) (get : t -> jsval)
    (set_context : jsval -> t -> t) : action t :=
  fun w =>
    let v := get (fst w) in
    if strict_eq v JUndefined then w
    else (assign (set_context v) ;; emit (UpdateCharacteristic c v)) w.

(** On an accessory that has a Battery service; without one the first
    battery block that has a value throws, see
    [Fan_updateHomeKitCharacteristics_on]. *)
Definition updateHomeKitCharacteristics : action t :=
  emit (Call Method.updateHomeKitCharacteristics) ;;
  publish Characteristic.Active Active set_context_Active ;;
  publish Characteristic.RotationSpeed RotationSpeed set_context_RotationSpeed ;;
  publish Characteristic.SwingMode SwingMode set_context_SwingMode ;;
  publish Characteristic.BatteryLevel BatteryLevel set_context_BatteryLevel ;;
  publish Characteristic.ChargingState ChargingState set_context_ChargingState ;;
  publish Characteristic.StatusLowBattery StatusLowBattery
    set_context_StatusLowBattery.

(** [offlineOff()] *)
Definition offlineOff : action t :=
  emit (Call Method.offlineOff) ;;
  (if offline cfg
   then emit (UpdateCharacteristic Characteristic.Active HAP.Active_INACTIVE) ;;
        emit (UpdateCharacteristic Characteristic.RotationSpeed (num 0)) ;;
        emit (UpdateCharacteristic Characteristic.SwingMode
                HAP.SwingMode_SWING_DISABLED)
   else skip).

(** [apiError(e)] *)
Definition apiError (e : string) : action t :=
  emit (Call Method.apiError) ;;
  emit (UpdateCharacteristicError Characteristic.Active e) ;;
  emit (UpdateCharacteristicError Characteristic.RotationSpeed e) ;;
  emit (UpdateCharacteristicError Characteristic.SwingMode e).

(** [openAPIRefreshStatus()], given what the request resolves to.
    This parser holds no [await]: it has run to its end when
    [updateHomeKitCharacteristics()] is called. *)
Definition openAPIRefreshStatus (r : reply) : action t :=
  emit (Call Method.openAPIRefreshStatus) ;;
  emit GetStatus ;;
  match r with
  | Replied sc ds =>
      if dualStatusOk sc ds then
        openAPIparseStatus ds ;;
        updateHomeKitCharacteristics
      else
        statusCode (num sc) ;;
        statusCode (ds_statusCode ds)
  | Threw e => apiError e
  end.

(** [BLERefreshConnection(switchbot)] *)
Definition BLERefreshConnection (r : reply) : action t :=
  if token cfg && String.eqb (connectionType cfg) "BLE/OpenAPI"
  then openAPIRefreshStatus r
  else skip.

(** [BLERefreshStatus()]; see [Contact.BLERefreshStatus]. *)
Definition BLERefreshStatus (switchbot : driver) (r : reply) : action t :=
  emit (Call Method.BLERefreshStatus) ;;
  match switchbot with
  | Driver (Some sd) =>
      emit BleScan ;; BLEparseStatus sd ;; updateHomeKitCharacteristics
  | Driver None => emit BleScan ;; emit (Call Method.BLEparseStatus)
  | DriverFalse => skip
  | DriverUndefined => BLERefreshConnection r
  end.

(** [refreshStatus()] *)
Definition refreshStatus (switchbot : driver) (r : reply) : action t :=
  emit (Call Method.refreshStatus) ;;
  if negb (enableCloudService cfg) && OpenAPI cfg then skip
  else if BLE cfg then BLERefreshStatus switchbot r
  else if OpenAPI cfg && token cfg then openAPIRefreshStatus r
  else offlineOff.

(** [openAPIpushChanges()], given what the request resolves to. *)
Definition openAPIpushChanges (r : reply) : action t :=
  emit (Call Method.openAPIpushChanges) ;;
  fun w =>
    if negb (strict_eq (Active (fst w)) (context_Active (fst w))) then
      let command := if truthy (Active (fst w)) then "turnOn" else "turnOff" in
      (emit (PostCommand command "default" "command") ;;
       match r with
       | Replied sc ds =>
           if dualStatusOk sc ds then skip
           else statusCode (num sc) ;; statusCode (ds_statusCode ds)
       | Threw e => apiError e
       end) w
    else w.

(** [BLEPushConnection()] *)
Definition BLEPushConnection (r : reply) : action t :=
  if token cfg && String.eqb (connectionType cfg) "BLE/OpenAPI"
  then openAPIpushChanges r
  else skip.

(** How an awaited method call ends.  [Deferred]: it returned having
    started a promise chain that it did not await. *)
Inductive completion :=
| Normal
| Deferred
| Throws (message : string).

(** [BLEpushChanges()].  When there is a change to push, the method
    connects and calls [switchbot.discover(...)], whose promise chain
    it does not await; with no driver the call itself throws. *)
Definition BLEpushChanges (switchbot : driver) : world t -> completion * world t :=
  fun w =>
    let w := emit (Call Method.BLEpushChanges) w in
    if negb (strict_eq (Active (fst w)) (context_Active (fst w))) then
      match switchbot with
      | Driver _ => (Deferred, w)
      | _ => (Throws "TypeError", w)
      end
    else (Normal, w).

(** The promise chain [discover(...).then(...).then(...).catch(...)]
    runs when discovery completes: it sends turnOn or turnOff by the
    truthiness of [Fan.Active]; on success the second [then] assigns
    [this.Fan.Active = false]; on failure [catch] calls [apiError] and
    [BLEPushConnection]. *)
Definition BLEpushChanges_chain (b : bleOutcome) (r : reply) : action t :=
  (fun w => (if truthy (Active (fst w)) then emit BleTurnOn else emit BleTurnOff) w) ;;
  match b with
  | BleResolved => assign (set_Active (JBool false))
  | BleRejected e => apiError e ;; BLEPushConnection r
  end.

(** [pushChanges()]: the transport branch, then the one-shot
    confirmation timer
    [interval(15000).pipe(skipWhile(...)).pipe(take(1))]. *)
Definition pushChanges (switchbot : driver) (r : reply)
    : world t -> completion * world t :=
  fun w =>
    let w := emit (Call Method.pushChanges) w in
    let '(c, w) :=
      if negb (enableCloudService cfg) && OpenAPI cfg then (Normal, w)
      else if BLE cfg then BLEpushChanges switchbot w
      else if OpenAPI cfg && token cfg then (Normal, openAPIpushChanges r w)
      else (Normal, offlineOff w) in
    match c with
    | Throws e => (c, w)
    | _ => (c, emit (SubscribeTake1 15000) w)
    end.

(** [ActiveSet(value)], [RotationSpeedSet(value)], [SwingModeSet(value)]
    up to [this.doPlugUpdate.next()], which the constructor's pipeline
    takes up ([next] below). *)
Definition ActiveSet (value : jsval) : action t :=
  assign (set_Active value).

Definition RotationSpeedSet (value : jsval) : action t :=
  assign (set_RotationSpeed value).

Definition SwingModeSet (value : jsval) : action t :=
  assign (set_SwingMode value).

(** The webhook handler registered by the constructor. *)
Definition webhookEventHandler (context : webhookContext) : action t :=
  emit (Call Method.webhookEventHandler) ;;
  assign (set_Active (if strict_eq (wh_powerState context) (str "ON")
                      then HAP.Active_ACTIVE else HAP.Active_INACTIVE)) ;;
  assign (set_SwingMode (if strict_eq (wh_oscillation context) (str "on")
                         then HAP.SwingMode_SWING_ENABLED
                         else HAP.SwingMode_SWING_DISABLED)) ;;
  assign (set_RotationSpeed (wh_fanSpeed context)) ;;
  assign (set_ChargingState (if strict_eq (wh_chargingStatus context) (str "charging")
                             then HAP.ChargingState_CHARGING
                             else HAP.ChargingState_NOT_CHARGING)) ;;
  assign (set_BatteryLevel (wh_battery context)) ;;
  (if truthy (wh_version context)
   then emit (FirmwareRevision (wh_version context)) else skip) ;;
  updateHomeKitCharacteristics.

End Methods.

(** *** The constructor's subscriptions

    [interval(deviceRefreshRate * 1000).pipe(skipWhile(inProgress))
       .subscribe(refreshStatus)]
    [doPlugUpdate.pipe(tap(inProgress = true), debounceTime(pushRate * 1000))
       .subscribe(pushChanges; inProgress = false)]
    and the one-shot timers [pushChanges] subscribes.  Timer emissions
    and HomeKit calls arrive as time-stamped events; the debounced
    emission is made by the pipeline itself when its due time has
    come. *)
Record pipeline := {
  this : t;
  taking : bool;             (* latch of skipWhile on the refresh interval *)
  debounce : option Z;       (* due time of the pending debounced emission *)
  confirmations : nat        (* one-shot confirmation timers still subscribed *)
}.

Definition set_this (v : t) (p : pipeline) : pipeline :=
  {| this := v; taking := taking p; debounce := debounce p;
     confirmations := confirmations p |}.

Definition set_taking (v : bool) (p : pipeline) : pipeline :=
  {| this := this p; taking := v; debounce := debounce p;
     confirmations := confirmations p |}.

Definition set_debounce (v : option Z) (p : pipeline) : pipeline :=
  {| this := this p; taking := taking p; debounce := v;
     confirmations := confirmations p |}.

Definition set_confirmations (v : nat) (p : pipeline) : pipeline :=
  {| this := this p; taking := taking p; debounce := debounce p;
     confirmations := v |}.

Inductive event :=
| OnSet_Active (value : jsval)          (* HomeKit calls ActiveSet *)
| OnSet_RotationSpeed (value : jsval)   (* HomeKit calls RotationSpeedSet *)
| OnSet_SwingMode (value : jsval)       (* HomeKit calls SwingModeSet *)
| IntervalTick                          (* the refresh interval emits *)
| ConfirmationTick                      (* a one-shot confirmation interval emits *)
| WebhookEvent (context : webhookContext).

Section Pipeline.
Variable StringToNumber : string -> number.
Variable cfg : config.
Variable env : environment.

Definition lift (a : action t) : action pipeline :=
  fun w =>
    let w' := a (this (fst w), snd w) in
    (set_this (fst w') (fst w), snd w').

(** The pipeline as the constructor leaves it. *)
Definition subscribe (o : t) : world pipeline :=
  ({| this := o; taking := false; debounce := None; confirmations := O |}, []).

(** [this.doPlugUpdate.next()]: [tap] raises the flag at once,
    [debounceTime] re-arms. *)
Definition next (now : Z) : action pipeline :=
  lift (assign (set_plugUpdateInProgress true)) ;;
  assign (set_debounce (Rx.debounce_next (pushRate_ms cfg) now)).

(** The subscriber of the debounced subject:
    [try { await this.pushChanges() } catch (e) { this.apiError(e) }
     this.plugUpdateInProgress = false].
    A BLE promise chain left behind by [pushChanges] completes after
    the subscriber has returned. *)
Definition debounced (now : Z) : action pipeline :=
  fun w =>
    let '(c, w1) :=
      pushChanges cfg (connectBLE env now) (commandReply env now)
        (this (fst w), snd w) in
    let p := set_this (fst w1) (fst w) in
    let wp : world pipeline :=
      match c with
      | Throws e => lift (apiError e) (p, snd w1)
      | _ => (set_confirmations (S (confirmations p)) p, snd w1)
      end in
    let wp := lift (assign (set_plugUpdateInProgress false)) wp in
    match c with
    | Deferred =>
        lift (BLEpushChanges_chain cfg (bleReply env now) (commandReply env now)) wp
    | _ => wp
    end.

(** Let the debounce timer fire if it is due at [now]. *)
Definition elapse (now : Z) : action pipeline :=
  fun w =>
    match debounce (fst w) with
    | Some due =>
        if due <=? now
        then (assign (set_debounce None) ;; debounced due) w
        else w
    | None => w
    end.

(** A refresh whose request is answered at once; [Fan_async_run] lets
    the answer arrive later. *)
Definition refresh (now : Z) : action pipeline :=
  lift (refreshStatus StringToNumber cfg (connectBLE env now) (statusReply env now)).

Definition handle (now : Z) (e : event) : action pipeline :=
  match e with
  | OnSet_Active value => lift (ActiveSet value) ;; next now
  | OnSet_RotationSpeed value => lift (RotationSpeedSet value) ;; next now
  | OnSet_SwingMode value => lift (SwingModeSet value) ;; next now
  | IntervalTick =>
      fun w =>
        if Rx.skipWhile (taking (fst w)) (plugUpdateInProgress (this (fst w)))
        then (assign (set_taking true) ;; refresh now) w
        else w
  | ConfirmationTick =>
      fun w =>
        match confirmations (fst w) with
        | O => w
        | S n =>
            if Rx.skipWhile false (plugUpdateInProgress (this (fst w)))
            then (assign (set_confirmations n) ;; refresh now) w
            else w
        end
  | WebhookEvent context => lift (webhookEventHandler context)
  end.

Definition step (te : Z * event) : action pipeline :=
  elapse (fst te) ;; handle (fst te) (snd te).

Fixpoint run (events : list (Z * event)) : action pipeline :=
  match events with
  | [] => skip
  | te :: rest => step te ;; run rest
  end.

(** Let time pass until the pending debounced emission, if any, has
    been made. *)
Definition settle : action pipeline :=
  fun w =>
    match debounce (fst w) with
    | Some due => elapse due w
    | None => w
    end.

End Pipeline.

End Fan.

(* ================================================================== *)
(** ** robotvacuumcleaner.ts *)

Module RobotVacuumCleaner.

Record config := {
  offline : bool;
  enableCloudService : bool;
  OpenAPI : bool;
  token : bool
}.

Record t := {
  On : jsval;
  Brightness : jsval;
  BatteryLevel : jsval;
  StatusLowBattery : jsval;
  context_On : jsval;
  context_Brightness : jsval;
  context_BatteryLevel : jsval;
  context_StatusLowBattery : jsval;
  robotVacuumCleanerUpdateInProgress : bool
}.

Definition set_On (v : jsval) (o : t) : t :=
  {| On := v;
     Brightness := Brightness o;
     BatteryLevel := BatteryLevel o;
     StatusLowBattery := StatusLowBattery o;
     context_On := context_On o;
     context_Brightness := context_Brightness o;
     context_BatteryLevel := context_BatteryLevel o;
     context_StatusLowBattery := context_StatusLowBattery o;
     robotVacuumCleanerUpdateInProgress := robotVacuumCleanerUpdateInProgress o |}.

Definition set_Brightness (v : jsval) (o : t) : t :=
  {| On := On o;
     Brightness := v;
     BatteryLevel := BatteryLevel o;
     StatusLowBattery := StatusLowBattery o;
     context_On := context_On o;
     context_Brightness := context_Brightness o;
     context_BatteryLevel := context_BatteryLevel o;
     context_StatusLowBattery := context_StatusLowBattery o;
     robotVacuumCleanerUpdateInProgress := robotVacuumCleanerUpdateInProgress o |}.

Definition set_BatteryLevel (v : jsval) (o : t) : t :=
  {| On := On o;
     Brightness := Brightness o;
     BatteryLevel := v;
     StatusLowBattery := StatusLowBattery o;
     context_On := context_On o;
     context_Brightness := context_Brightness o;
     context_BatteryLevel := context_BatteryLevel o;
     context_StatusLowBattery := context_StatusLowBattery o;
     robotVacuumCleanerUpdateInProgress := robotVacuumCleanerUpdateInProgress o |}.

Definition set_StatusLowBattery (v : jsval) (o : t) : t :=
  {| On := On o;
     Brightness := Brightness o;
     BatteryLevel := BatteryLevel o;
     StatusLowBattery := v;
     context_On := context_On o;
     context_Brightness := context_Brightness o;
     context_BatteryLevel := context_BatteryLevel o;
     context_StatusLowBattery := context_StatusLowBattery o;
     robotVacuumCleanerUpdateInProgress := robotVacuumCleanerUpdateInProgress o |}.

Definition set_context_On (v : jsval) (o : t) : t :=
  {| On := On o;
     Brightness := Brightness o;
     BatteryLevel := BatteryLevel o;
     StatusLowBattery := StatusLowBattery o;
     context_On := v;
     context_Brightness := context_Brightness o;
     context_BatteryLevel := context_BatteryLevel o;
     context_StatusLowBattery := context_StatusLowBattery o;
     robotVacuumCleanerUpdateInProgress := robotVacuumCleanerUpdateInProgress o |}.

Definition set_context_Brightness (v : jsval) (o : t) : t :=
  {| On := On o;
     Brightness := Brightness o;
     BatteryLevel := BatteryLevel o;
     StatusLowBattery := StatusLowBattery o;
     context_On := context_On o;
     context_Brightness := v;
     context_BatteryLevel := context_BatteryLevel o;
     context_StatusLowBattery := context_StatusLowBattery o;
     robotVacuumCleanerUpdateInProgress := robotVacuumCleanerUpdateInProgress o |}.

Definition set_context_BatteryLevel (v : jsval) (o : t) : t :=
  {| On := On o;
     Brightness := Brightness o;
     BatteryLevel := BatteryLevel o;
     StatusLowBattery := StatusLowBattery o;
     context_On := context_On o;
     context_Brightness := context_Brightness o;
     context_BatteryLevel := v;
     context_StatusLowBattery := context_StatusLowBattery o;
     robotVacuumCleanerUpdateInProgress := robotVacuumCleanerUpdateInProgress o |}.

Definition set_context_StatusLowBattery (v : jsval) (o : t) : t :=
  {| On := On o;
     Brightness := Brightness o;
     BatteryLevel := BatteryLevel o;
     StatusLowBattery := StatusLowBattery o;
     context_On := context_On o;
     context_Brightness := context_Brightness o;
     context_BatteryLevel := context_BatteryLevel o;
     context_StatusLowBattery := v;
     robotVacuumCleanerUpdateInProgress := robotVacuumCleanerUpdateInProgress o |}.

Definition set_robotVacuumCleanerUpdateInProgress (v : bool) (o : t) : t :=
    {| On := On o;
       Brightness := Brightness o;
       BatteryLevel := BatteryLevel o;
       StatusLowBattery := StatusLowBattery o;
       context_On := context_On o;
       context_Brightness := context_Brightness o;
       context_BatteryLevel := context_BatteryLevel o;
       context_StatusLowBattery := context_StatusLowBattery o;
       robotVacuumCleanerUpdateInProgress := v |}.
  (** The constructor's field initialisers, from [accessory.context]. *)
Definition construct (context_On context_Brightness context_BatteryLevel
    context_StatusLowBattery : jsval) : t :=
  {| On := or_else context_On (JBool false);
     Brightness := or_else context_Brightness (num 0);
     BatteryLevel := or_else context_BatteryLevel (num 100);
     StatusLowBattery :=
       or_else context_StatusLowBattery HAP.StatusLowBattery_BATTERY_LEVEL_NORMAL;
     context_On := context_On;
     context_Brightness := context_Brightness;
     context_BatteryLevel := context_BatteryLevel;
     context_StatusLowBattery := context_StatusLowBattery;
     robotVacuumCleanerUpdateInProgress := false |}.

Section Methods.
Variable StringToNumber : string -> number.
Variable cfg : config.

(** [BLEparseStatus(serviceData)] *)
Definition BLEparseStatus (sd : serviceData) : action t :=
  emit (Call Method.BLEparseStatus) ;;
  (* Battery *)
  (let level := ToNumber StringToNumber (sd_battery sd) in
   assign (set_BatteryLevel (JNum level)) ;;
   (if number_lt level (Fin 10)
    then assign (set_StatusLowBattery HAP.StatusLowBattery_BATTERY_LEVEL_LOW)
    else assign (set_StatusLowBattery HAP.StatusLowBattery_BATTERY_LEVEL_NORMAL))) ;;
  (* State *)
  (if strict_eq (sd_state sd) (str "on")
   then assign (set_On (JBool true))
   else assign (set_On (JBool false))).

(** [openAPIparseStatus(deviceStatus)] *)
Definition openAPIparseStatus (ds : deviceStatus) : action t :=
  emit (Call Method.openAPIparseStatus) ;;
  (if strict_eq (power (body ds)) (str "on")
   then assign (set_On (JBool true))
   else assign (set_On (JBool false))) ;;
  (* BatteryLevel *)
  (let level := ToNumber StringToNumber (battery (body ds)) in
   assign (set_BatteryLevel (JNum level)) ;;
   (if number_lt level (Fin 10)
    then assign (set_StatusLowBattery HAP.StatusLowBattery_BATTERY_LEVEL_LOW)
    else assign (set_StatusLowBattery HAP.StatusLowBattery_BATTERY_LEVEL_NORMAL)) ;;
   (if isNaN level then assign (set_BatteryLevel (num 100)) else skip)) ;;
  (* Firmware Version *)
  firmwareVersion (body ds).

(** [updateHomeKitCharacteristics()] *)
Definition publish (c : Characteristic.t) (get : t -> jsval)
    (set_context : jsval -> t -> t) : action t :=
  fun w =>
    let v := get (fst w) in
    if strict_eq v JUndefined then w
    else (assign (set_context v) ;; emit (UpdateCharacteristic c v)) w.

Definition updateHomeKitCharacteristics : action t :=
  emit (Call Method.updateHomeKitCharacteristics) ;;
  publish Characteristic.On On set_context_On ;;
  publish Characteristic.Brightness Brightness set_context_Brightness ;;
  publish Characteristic.BatteryLevel BatteryLevel set_context_BatteryLevel ;;
  publish Characteristic.StatusLowBattery StatusLowBattery
    set_context_StatusLowBattery.

(** [offlineOff()] *)
Definition offlineOff : action t :=
  emit (Call Method.offlineOff) ;;
  (if offline cfg
   then emit (UpdateCharacteristic Characteristic.On (JBool false))
   else skip).

(** [apiError(e)] *)
Definition apiError (e : string) : action t :=
  emit (Call Method.apiError) ;;
  emit (UpdateCharacteristicError Characteristic.On e).

(** [openAPIRefreshStatus()], given what the request resolves to. *)
Definition openAPIRefreshStatus (r : reply) : action t :=
  emit (Call Method.openAPIRefreshStatus) ;;
  emit GetStatus ;;
  match r with
  | Replied sc ds =>
      if dualStatusOk sc ds then
        openAPIparseStatus ds ;;
        updateHomeKitCharacteristics
      else
        statusCode (num sc) ;;
        statusCode (ds_statusCode ds)
  | Threw e => apiError e
  end.

(** [refreshStatus()]; the BLE branch is commented out in the source. *)
Definition refreshStatus (r : reply) : action t :=
  emit (Call Method.refreshStatus) ;;
  if negb (enableCloudService cfg) && OpenAPI cfg then skip
  else if OpenAPI cfg && token cfg then openAPIRefreshStatus r
  else offlineOff.

(** What a POST to .../commands resolves to is handled alike by
    [openAPIpushChanges] and [openAPIpushBrightnessChanges]. *)
Definition handleCommandReply (r : reply) : action t :=
  match r with
  | Replied sc ds =>
      if dualStatusOk sc ds then skip
      else statusCode (num sc) ;; statusCode (ds_statusCode ds)
  | Threw e => apiError e
  end.

(** [commands()]: the command and its parameter. *)
Definition commands (o : t) : string * string :=
  if truthy (On o) then ("start", "default") else ("dock", "default").

(** [brightnessCommands()] *)
Definition brightnessCommands (o : t) : string * string :=
  if strict_eq (Brightness o) (num 25) then ("PowLevel", "0")
  else if strict_eq (Brightness o) (num 50) then ("PowLevel", "1")
  else if strict_eq (Brightness o) (num 75) then ("PowLevel", "2")
  else if strict_eq (Brightness o) (num 100) then ("PowLevel", "3")
  else ("dock", "default").

(** [openAPIpushChanges()] *)
Definition openAPIpushChanges (r : reply) : action t :=
  emit (Call Method.openAPIpushChanges) ;;
  fun w =>
    if negb (strict_eq (On (fst w)) (context_On (fst w))) then
      let '(command, parameter) := commands (fst w) in
      (emit (PostCommand command parameter "command") ;;
       handleCommandReply r) w
    else w.

(** [openAPIpushBrightnessChanges()] *)
Definition openAPIpushBrightnessChanges (r : reply) : action t :=
  emit (Call Method.openAPIpushBrightnessChanges) ;;
  fun w =>
    let '(command, parameter) := brightnessCommands (fst w) in
    (emit (PostCommand command parameter "command") ;;
     handleCommandReply r) w.

(** [pushChanges()]; the BLE branch is commented out in the source. *)
Definition pushChanges (r : reply) : action t :=
  emit (Call Method.pushChanges) ;;
  (if negb (enableCloudService cfg) && OpenAPI cfg then skip
   else if OpenAPI cfg && token cfg then openAPIpushChanges r
   else offlineOff) ;;
  emit (SubscribeTake1 15000).

(** [OnSet(value)] and [BrightnessSet(value)], with the [tap] of
    the pipeline that [doRobotVacuumCleanerUpdate.next()] enters. *)
Definition OnSet (value : jsval) : action t :=
  assign (set_On value) ;;
  assign (set_robotVacuumCleanerUpdateInProgress true).

Definition BrightnessSet (value : jsval) : action t :=
  assign (set_Brightness value) ;;
  assign (set_robotVacuumCleanerUpdateInProgress true).

(** The subscriber of the debounced subject.  [r1] answers the POST
    of [pushChanges], [r2] the one of
    [openAPIpushBrightnessChanges]. *)
Definition debounced (r1 r2 : reply) : action t :=
  (fun w =>
     if negb (strict_eq (On (fst w)) (context_On (fst w)))
     then pushChanges r1 w else w) ;;
  (fun w =>
     if truthy (On (fst w)) &&
        negb (strict_eq (Brightness (fst w)) (context_Brightness (fst w)))
     then openAPIpushBrightnessChanges r2 w else w) ;;
  assign (set_robotVacuumCleanerUpdateInProgress false).

(** The webhook handler registered by the constructor. *)
Definition webhookEventHandler (context : webhookContext) : action t :=
  emit (Call Method.webhookEventHandler) ;;
  assign (set_On (if strict_eq (wh_onlineStatus context) (str "online")
                  then JBool true else JBool false)) ;;
  assign (set_BatteryLevel (wh_battery context)) ;;
  updateHomeKitCharacteristics.

End Methods.

End RobotVacuumCleaner.

(* ================================================================== *)
(** ** other.ts: [Others.pushChanges] *)

Module Others.

Section PushChanges.
Context {O : Type}.
(** [this.device.connectionType], and the two methods of the class that
    [pushChanges] calls; they branch on the configured device type and
    are taken as they come. *)
Variable connectionType : string.
Variable updateHomeKitCharacteristics : action O.
Variable apiError : string -> action O.

(** [pushChanges(bodyChange)], given the command, parameter and command
    type serialised in [bodyChange] and what the request resolves to. *)
Definition pushChanges (command parameter commandType : string) (r : reply)
    : action O :=
  emit (Call Method.pushChanges) ;;
  if String.eqb connectionType "OpenAPI" then
    emit (PostCommand command parameter commandType) ;;
    match r with
    | Replied sc ds =>
        if dualStatusOk sc ds then updateHomeKitCharacteristics
        else statusCode (num sc) ;; statusCode (ds_statusCode ds)
    | Threw e => apiError e
    end
  else skip.
End PushChanges.

End Others.

(* ================================================================== *)
(** ** other.ts: the class [Others] *)

Module OthersAccessory.

(** The optional members of the class: [Switch?], [GarageDoor?], ...
    Each one, where the constructor has initialised it, holds a service
    and [On]. *)
Inductive part :=
| Switch | GarageDoor | Door | Window | WindowCovering
| Lock | Faucet | Fan | StatefulProgrammableSwitch | Outlet.

Definition part_eqb (a b : part) : bool :=
  match a, b with
  | Switch, Switch
  | GarageDoor, GarageDoor
  | Door, Door
  | Window, Window
  | WindowCovering, WindowCovering
  | Lock, Lock
  | Faucet, Faucet
  | Fan, Fan
  | StatefulProgrammableSwitch, StatefulProgrammableSwitch
  | Outlet, Outlet => true
  | _, _ => false
  end.

(** The characteristics the class updates. *)
Inductive characteristic :=
| On
| TargetDoorState | CurrentDoorState | ObstructionDetected
| TargetPosition | CurrentPosition | PositionState
| LockTargetState | LockCurrentState
| Active
| ProgrammableSwitchEvent | ProgrammableSwitchOutputState.

(** [this.<part>.Service.updateCharacteristic(c, v)], with a value or
    with a caught exception. *)
Inductive update :=
| Update (p : part) (c : characteristic) (v : jsval)
| UpdateError (p : part) (c : characteristic) (message : string).

(** The values of HAP-NodeJS for the characteristics above. *)
Definition TargetDoorState_OPEN : jsval := num 0.
Definition TargetDoorState_CLOSED : jsval := num 1.
Definition CurrentDoorState_OPEN : jsval := num 0.
Definition CurrentDoorState_CLOSED : jsval := num 1.
Definition PositionState_STOPPED : jsval := num 2.
Definition LockTargetState_UNSECURED : jsval := num 0.
Definition LockTargetState_SECURED : jsval := num 1.
Definition LockCurrentState_UNSECURED : jsval := num 0.
Definition LockCurrentState_SECURED : jsval := num 1.
Definition ProgrammableSwitchEvent_SINGLE_PRESS : jsval := num 0.

(** What the methods read of [this.device]. *)
Record config := {
  customize : bool;           (* device.customize is truthy *)
  connectionType : string
}.

(** Modelled from the spec: the base class [irdeviceBase] (irdevice.ts)
    is not under src/.  Of the body of a command the spec says that it
    holds [command], [parameter] and [commandType]; the three methods
    [commandType()], [commandOn()] and [commandOff()] that [Others]
    awaits for them are taken to resolve to the strings held here, and
    the fields [disablePushOn] and [disablePushOff] to be booleans. *)
Record irdeviceBase := {
  disablePushOn : bool;
  disablePushOff : bool;
  commandType : string;
  commandOn : string;
  commandOff : string
}.

(** The object: the device type, [On] of each member that exists, and
    the calls of [updateCharacteristic] made so far, in order. *)
Record t := {
  otherDeviceType : string;
  members : part -> option jsval;
  updates : list update
}.

Definition set_member (p : part) (v : jsval) (o : t) : t :=
  {| otherDeviceType := otherDeviceType o;
     members := fun q => if part_eqb q p then Some v else members o q;
     updates := updates o |}.

Definition add_update (u : update) (o : t) : t :=
  {| otherDeviceType := otherDeviceType o;
     members := members o;
     updates := updates o ++ [u] |}.

(** The member the constructor initialises for a device type. *)
Definition member_of (deviceType : string) : part :=
  if String.eqb deviceType "switch" then Switch
  else if String.eqb deviceType "garagedoor" then GarageDoor
  else if String.eqb deviceType "door" then Door
  else if String.eqb deviceType "window" then Window
  else if String.eqb deviceType "windowcovering" then WindowCovering
  else if String.eqb deviceType "lock" then Lock
  else if String.eqb deviceType "faucet" then Faucet
  else if String.eqb deviceType "fan" then Fan
  else if String.eqb deviceType "stateful" then StatefulProgrammableSwitch
  else Outlet.

(** The constructor: one member, with [On: accessory.context.On || false]. *)
Definition construct (deviceType : string) (context_On : jsval) : t :=
  {| otherDeviceType := deviceType;
     members := fun p =>
       if part_eqb p (member_of deviceType)
       then Some (or_else context_On (JBool false))
       else None;
     updates := [] |}.

(** How an awaited call of [OnSet] ends. *)
Inductive outcome :=
| Returned
| Rejected (message : string).

Section Methods.
Variable cfg : config.
Variable base : irdeviceBase.

Definition updateCharacteristic (p : part) (c : characteristic) (v : jsval)
    : action t :=
  assign (add_update (Update p c v)).

Definition updateCharacteristicError (p : part) (c : characteristic) (e : string)
    : action t :=
  assign (add_update (UpdateError p c e)).

(** [this.<p>!.On] and [this.<p>!.Service] in [updateHomeKitCharacteristics]
    and [apiError]: where the member is [undefined] the access throws;
    both methods are called without [await], so that the rejection
    reaches nobody and the method has done nothing. *)
Definition with_member (p : part) (k : jsval -> action t) : action t :=
  fun w =>
    match members (fst w) p with
    | Some on => k on w
    | None => w
    end.

(** The branch of the door, the window and the window covering. *)
Definition updatePosition (p : part) (on : jsval) : action t :=
  if strict_eq on JUndefined then skip
  else if truthy on
  then updateCharacteristic p TargetPosition (num 100) ;;
       updateCharacteristic p CurrentPosition (num 100) ;;
       updateCharacteristic p PositionState PositionState_STOPPED
  else updateCharacteristic p TargetPosition (num 0) ;;
       updateCharacteristic p CurrentPosition (num 0) ;;
       updateCharacteristic p PositionState PositionState_STOPPED.

(** [updateHomeKitCharacteristics()] *)
Definition updateHomeKitCharacteristics : action t :=
  emit (Call Method.updateHomeKitCharacteristics) ;;
  fun w =>
    let deviceType := otherDeviceType (fst w) in
    (if String.eqb deviceType "garagedoor" then
       with_member GarageDoor (fun on =>
         if strict_eq on JUndefined then skip
         else if truthy on
         then updateCharacteristic GarageDoor TargetDoorState TargetDoorState_OPEN ;;
              updateCharacteristic GarageDoor CurrentDoorState CurrentDoorState_OPEN
         else updateCharacteristic GarageDoor TargetDoorState TargetDoorState_CLOSED ;;
              updateCharacteristic GarageDoor CurrentDoorState CurrentDoorState_CLOSED)
     else if String.eqb deviceType "door" then
       with_member Door (updatePosition Door)
     else if String.eqb deviceType "window" then
       with_member Window (updatePosition Window)
     else if String.eqb deviceType "windowcovering" then
       with_member WindowCovering (updatePosition WindowCovering)
     else if String.eqb deviceType "lock" then
       with_member Lock (fun on =>
         if strict_eq on JUndefined then skip
         else if truthy on
         then updateCharacteristic Lock LockTargetState LockTargetState_UNSECURED ;;
              updateCharacteristic Lock LockCurrentState LockCurrentState_UNSECURED
         else updateCharacteristic Lock LockTargetState LockTargetState_SECURED ;;
              updateCharacteristic Lock LockCurrentState LockCurrentState_SECURED)
     else if String.eqb deviceType "faucet" then
       with_member Faucet (fun on =>
         if strict_eq on JUndefined then skip
         else if truthy on
         then updateCharacteristic Faucet Active HAP.Active_ACTIVE
         else updateCharacteristic Faucet Active HAP.Active_INACTIVE)
     else if String.eqb deviceType "fan" then
       with_member Fan (fun on =>
         if strict_eq on JUndefined then skip
         else if truthy on
         then updateCharacteristic Fan On on
         else updateCharacteristic Fan On on)
     else if String.eqb deviceType "stateful" then
       with_member StatefulProgrammableSwitch (fun on =>
         if strict_eq on JUndefined then skip
         else if truthy on
         then updateCharacteristic StatefulProgrammableSwitch ProgrammableSwitchEvent
                ProgrammableSwitchEvent_SINGLE_PRESS ;;
              updateCharacteristic StatefulProgrammableSwitch
                ProgrammableSwitchOutputState (num 1)
         else updateCharacteristic StatefulProgrammableSwitch ProgrammableSwitchEvent
                ProgrammableSwitchEvent_SINGLE_PRESS ;;
              updateCharacteristic StatefulProgrammableSwitch
                ProgrammableSwitchOutputState (num 0))
     else if String.eqb deviceType "switch" then
       with_member Switch (fun on =>
         if strict_eq on JUndefined then skip
         else updateCharacteristic Switch On on)
     else
       with_member Outlet (fun on =>
         if strict_eq on JUndefined then skip
         else updateCharacteristic Outlet On on)) w.

(** [apiError(e)]; the branch of the lock goes through [this.Door]. *)
Definition apiError (e : string) : action t :=
  emit (Call Method.apiError) ;;
  fun w =>
    let deviceType := otherDeviceType (fst w) in
    (if String.eqb deviceType "garagedoor" then
       with_member GarageDoor (fun _ =>
         updateCharacteristicError GarageDoor TargetDoorState e ;;
         updateCharacteristicError GarageDoor CurrentDoorState e ;;
         updateCharacteristicError GarageDoor ObstructionDetected e)
     else if String.eqb deviceType "door" then
       with_member Door (fun _ =>
         updateCharacteristicError Door TargetPosition e ;;
         updateCharacteristicError Door CurrentPosition e ;;
         updateCharacteristicError Door PositionState e)
     else if String.eqb deviceType "window" then
       with_member Window (fun _ =>
         updateCharacteristicError Window TargetPosition e ;;
         updateCharacteristicError Window CurrentPosition e ;;
         updateCharacteristicError Window PositionState e)
     else if String.eqb deviceType "windowcovering" then
       with_member WindowCovering (fun _ =>
         updateCharacteristicError WindowCovering TargetPosition e ;;
         updateCharacteristicError WindowCovering CurrentPosition e ;;
         updateCharacteristicError WindowCovering PositionState e)
     else if String.eqb deviceType "lock" then
       with_member Door (fun _ =>
         updateCharacteristicError Door LockTargetState e ;;
         updateCharacteristicError Door LockCurrentState e)
     else if String.eqb deviceType "faucet" then
       with_member Faucet (fun _ => updateCharacteristicError Faucet Active e)
     else if String.eqb deviceType "fan" then
       with_member Fan (fun _ => updateCharacteristicError Fan On e)
     else if String.eqb deviceType "stateful" then
       with_member StatefulProgrammableSwitch (fun _ =>
         updateCharacteristicError StatefulProgrammableSwitch
           ProgrammableSwitchEvent e ;;
         updateCharacteristicError StatefulProgrammableSwitch
           ProgrammableSwitchOutputState e)
     else if String.eqb deviceType "switch" then
       with_member Switch (fun _ => updateCharacteristicError Switch On e)
     else
       with_member Outlet (fun _ => updateCharacteristicError Outlet On e)) w.

(** [pushOnChanges(On)] and [pushOffChanges(On)], given what the
    request of [pushChanges] resolves to. *)
Definition pushOnChanges (on : bool) (r : reply) : action t :=
  if customize cfg
  then if on && negb (disablePushOn base)
       then Others.pushChanges (connectionType cfg) updateHomeKitCharacteristics
              apiError (commandOn base) "default" (commandType base) r
       else skip
  else skip.

Definition pushOffChanges (on : bool) (r : reply) : action t :=
  if customize cfg
  then if negb on && negb (disablePushOff base)
       then Others.pushChanges (connectionType cfg) updateHomeKitCharacteristics
              apiError (commandOff base) "default" (commandType base) r
       else skip
  else skip.

(** The member [OnSet(value)] writes for a device type, and what it
    writes to its [On]. *)
Definition OnSet_target (deviceType : string) (value : jsval) : part * jsval :=
  if String.eqb deviceType "garagedoor"
  then (GarageDoor, JBool (negb (strict_eq value TargetDoorState_CLOSED)))
  else if String.eqb deviceType "door"
  then (Door, JBool (negb (strict_eq value (num 0))))
  else if String.eqb deviceType "window"
  then (Window, JBool (negb (strict_eq value (num 0))))
  else if String.eqb deviceType "windowcovering"
  then (WindowCovering, JBool (negb (strict_eq value (num 0))))
  else if String.eqb deviceType "lock"
  then (Lock, JBool (negb (strict_eq value LockTargetState_SECURED)))
  else if String.eqb deviceType "faucet"
  then (Faucet, JBool (negb (strict_eq value HAP.Active_INACTIVE)))
  else if String.eqb deviceType "stateful"
  then (StatefulProgrammableSwitch, JBool (negb (strict_eq value (num 0))))
  else (Outlet, value).

(** [OnSet(value)].  Writing [On] of a member that is [undefined]
    throws; otherwise [On] is read back as a boolean and the command is
    pushed. *)
Definition OnSet (r : reply) (value : jsval) : world t -> outcome * world t :=
  fun w =>
    let '(p, stored) := OnSet_target (otherDeviceType (fst w)) value in
    match members (fst w) p with
    | None => (Rejected "TypeError", w)
    | Some _ =>
        let w := assign (set_member p stored) w in
        let on := truthy stored in
        (Returned,
         if on then pushOnChanges on r w else pushOffChanges on r w)
    end.

End Methods.

End OthersAccessory.

(* ================================================================== *)
(** ** Sample inputs *)

Module Sample.

(** An OpenAPI answer for a device that reports nothing but what is
    given here. *)
Definition emptyBody : statusBody :=
  {| power := JUndefined; oscillation := JUndefined; fanSpeed := JUndefined;
     chargingStatus := JUndefined; battery := JUndefined; version := JUndefined;
     openState := JUndefined; moveDetected := JUndefined;
     brightness := JUndefined |}.

Definition contactBody (openState' brightness' moveDetected' battery' : jsval)
    : statusBody :=
  {| power := JUndefined; oscillation := JUndefined; fanSpeed := JUndefined;
     chargingStatus := JUndefined; battery := battery'; version := JUndefined;
     openState := openState'; moveDetected := moveDetected';
     brightness := brightness' |}.

Definition fanBody (power' battery' : jsval) : statusBody :=
  {| power := power'; oscillation := str "off"; fanSpeed := num 1;
     chargingStatus := str "charging"; battery := battery'; version := JUndefined;
     openState := JUndefined; moveDetected := JUndefined;
     brightness := JUndefined |}.

Definition answer (vendorStatus : Z) (b : statusBody) : deviceStatus :=
  {| ds_statusCode := num vendorStatus; body := b |}.

Definition contactEvent (openState' brightness' detectionState' : jsval)
    : webhookContext :=
  {| wh_version := JUndefined; wh_battery := JUndefined;
     wh_powerState := JUndefined; wh_oscillation := JUndefined;
     wh_chargingStatus := JUndefined; wh_fanSpeed := JUndefined;
     wh_onlineStatus := JUndefined; wh_detectionState := detectionState';
     wh_brightness := brightness'; wh_openState := openState' |}.

Definition advertisement (doorState' battery' : jsval) : serviceData :=
  {| sd_state := JUndefined; sd_doorState := doorState';
     sd_movement := JBool false; sd_lightLevel := JBool false;
     sd_battery := battery' |}.

(** A contact sensor on OpenAPI showing all its services. *)
Definition contactConfig : Contact.config :=
  {| Contact.hide_motionsensor := false; Contact.hide_lightsensor := false;
     Contact.set_minLux := JUndefined; Contact.set_maxLux := JUndefined;
     Contact.offline := false; Contact.enableCloudService := true;
     Contact.BLE := false; Contact.OpenAPI := true;
     Contact.connectionType := "OpenAPI"; Contact.token := true |}.

(** The fields as the constructor of [Contact] initialises them. *)
Definition contact0 : Contact.t :=
  {| Contact.ContactSensorState := HAP.ContactSensorState_CONTACT_DETECTED;
     Contact.MotionDetected := JBool false;
     Contact.CurrentAmbientLightLevel := num 0;
     Contact.BatteryLevel := JUndefined;
     Contact.StatusLowBattery := JUndefined;
     Contact.context_ContactSensorState := JUndefined;
     Contact.context_MotionDetected := JUndefined;
     Contact.context_CurrentAmbientLightLevel := JUndefined;
     Contact.context_BatteryLevel := JUndefined;
     Contact.context_StatusLowBattery := JUndefined |}.

(** A fan on OpenAPI, refreshed every 5 s, pushes debounced by 100 ms. *)
Definition fanConfig : Fan.config :=
  {| Fan.offline := false; Fan.enableCloudService := true;
     Fan.BLE := false; Fan.OpenAPI := true;
     Fan.connectionType := "OpenAPI"; Fan.token := true;
     Fan.deviceRefreshRate := 5; Fan.pushRate_ms := 100 |}.

(** The same fan on BLE. *)
Definition fanConfigBLE : Fan.config :=
  {| Fan.offline := false; Fan.enableCloudService := true;
     Fan.BLE := true; Fan.OpenAPI := false;
     Fan.connectionType := "BLE"; Fan.token := false;
     Fan.deviceRefreshRate := 5; Fan.pushRate_ms := 100 |}.

(** A fan built from an empty accessory cache, after the
    [updateHomeKitCharacteristics()] of its constructor.  The refresh the
    constructor starts is answered later, like the refresh of a tick. *)
Definition fan0 : world Fan.t :=
  Fan.updateHomeKitCharacteristics
    (Fan.construct JUndefined JUndefined JUndefined JUndefined JUndefined JUndefined,
     []).

(** A cloud that reports the fan off and accepts, or refuses with the
    vendor status [vendorStatus], every command. *)
Definition cloud (vendorStatus : Z) : environment :=
  {| connectBLE := fun _ => Driver None;
     statusReply := fun _ => Replied 200 (answer 100 (fanBody (str "off") (num 90)));
     commandReply := fun _ => Replied 200 (answer vendorStatus emptyBody);
     bleReply := fun _ => BleResolved |}.

(** The fan is switched on at time 0 and the cloud answers the command
    with vendor status 171. *)
Definition fanRejected : world Fan.pipeline :=
  Fan.settle fanConfig (cloud 171)
    (Fan.run digitsToNumber fanConfig (cloud 171)
       [(0, Fan.OnSet_Active (num 1))]
       (Fan.subscribe (fst fan0))).

(** The fan is switched on at time 0 and off again at time 50. *)
Definition fanOnOff : world Fan.pipeline :=
  Fan.settle fanConfig (cloud 100)
    (Fan.run digitsToNumber fanConfig (cloud 100)
       [(0, Fan.OnSet_Active (num 1)); (50, Fan.OnSet_Active (num 0))]
       (Fan.subscribe (fst fan0))).

(** The fan has been switched on, the push is pending. *)
Definition fanSetOn : world Fan.pipeline :=
  Fan.run digitsToNumber fanConfigBLE (cloud 100)
    [(0, Fan.OnSet_Active (num 1))]
    (Fan.subscribe (fst fan0)).

(** The refresh interval has emitted at 5000 and the fan has been
    switched on at 9950. *)
Definition fanWriting : world Fan.pipeline :=
  Fan.run digitsToNumber fanConfig (cloud 100)
    [(5000, Fan.IntervalTick); (9950, Fan.OnSet_Active (num 1))]
    (Fan.subscribe (fst fan0)).

Definition vacuumConfig : RobotVacuumCleaner.config :=
  {| RobotVacuumCleaner.offline := false;
     RobotVacuumCleaner.enableCloudService := true;
     RobotVacuumCleaner.OpenAPI := true;
     RobotVacuumCleaner.token := true |}.

(** A vacuum cleaner whose cache holds On = true and Brightness = 25,
    after the [updateHomeKitCharacteristics()] of its constructor. *)
Definition vacuum0 : world RobotVacuumCleaner.t :=
  RobotVacuumCleaner.updateHomeKitCharacteristics
    (RobotVacuumCleaner.construct (JBool true) (num 25) JUndefined JUndefined, []).

(** The contact sensor after a successful refresh that reported the
    door closed and battery 80. *)
Definition contact80 : world Contact.t :=
  Contact.openAPIRefreshStatus digitsToNumber contactConfig
    (Replied 200 (answer 100 (contactBody (str "close") (str "dim") (JBool false) (num 80))))
    (contact0, []).

(** The contact sensor after a successful refresh that reported the
    door open. *)
Definition contactOpen : world Contact.t :=
  Contact.openAPIRefreshStatus digitsToNumber contactConfig
    (Replied 200 (answer 100 (contactBody (str "open") (str "dim") (JBool false) (num 80))))
    (contact0, []).

(** The vacuum cleaner is set to Brightness 50; the debounced subscriber
    runs and both commands it may send are accepted. *)
Definition vacuumBrighter : world RobotVacuumCleaner.t :=
  RobotVacuumCleaner.debounced vacuumConfig
    (Replied 200 (answer 100 emptyBody)) (Replied 200 (answer 100 emptyBody))
    (RobotVacuumCleaner.BrightnessSet (num 50) (fst vacuum0, [])).

End Sample.

(* ================================================================== *)
(** ** Vocabulary of the properties *)

(** The effects an action produces when started on object [o]. *)
Definition effects {O : Type} (a : action O) (o : O) : list effect :=
  snd (a (o, [])).

(** The object an action leaves when started on object [o]. *)
Definition result {O : Type} (a : action O) (o : O) : O :=
  fst (a (o, [])).

(** An action only adds to the trace. *)
Definition extends {O : Type} (a : action O) : Prop :=
  forall w, exists tr, snd (a w) = snd w ++ tr.

(** What a battery block leaves in [StatusLowBattery]. *)
Definition lowBatteryOf (level : number) : jsval :=
  if number_lt level (Fin 10)
  then HAP.StatusLowBattery_BATTERY_LEVEL_LOW
  else HAP.StatusLowBattery_BATTERY_LEVEL_NORMAL.


(** The capability state of a contact sensor that a webhook event and a
    poll both decode. *)
Definition sensed (c : Contact.t) : jsval * jsval * jsval :=
  (Contact.ContactSensorState c, Contact.MotionDetected c,
   Contact.CurrentAmbientLightLevel c).

(** A webhook payload and a polled status that describe the same state
    of a contact sensor. *)
Definition same_status (context : webhookContext) (ds : deviceStatus) : Prop :=
  wh_openState context = openState (body ds) /\
  wh_brightness context = brightness (body ds) /\
  moveDetected (body ds) =
    JBool (strict_eq (wh_detectionState context) (str "DETECTED")).

(** The vendor status of an answer is the number [n]. *)
Definition vendorStatusIs (ds : deviceStatus) (n : Z) : Prop :=
  exists q, ds_statusCode ds = JNum (Fin q) /\ (q == inject_Z n)%Q.

(** The dual status check, as the specification words it. *)
Definition bothStatusesOk (statusCode : Z) (ds : deviceStatus) : Prop :=
  (statusCode = 200 \/ statusCode = 100) /\
  (vendorStatusIs ds 200 \/ vendorStatusIs ds 100).

(** The answer "transport status 200, vendor status 171". *)
Definition rejected171 (b : statusBody) : reply :=
  Replied 200 {| ds_statusCode := num 171; body := b |}.

(** [pushChanges()] of the fan goes to OpenAPI under [cfg]. *)
Definition overOpenAPI (cfg : Fan.config) : Prop :=
  Fan.enableCloudService cfg = true /\ Fan.BLE cfg = false /\
  Fan.OpenAPI cfg = true /\ Fan.token cfg = true.

(** [pushChanges()] of the fan goes to BLE under [cfg]. *)
Definition overBLE (cfg : Fan.config) : Prop :=
  (Fan.enableCloudService cfg = true \/ Fan.OpenAPI cfg = false) /\
  Fan.BLE cfg = true.

(** The command the fan sends for the value [v] of Active. *)
Definition commandFor (v : jsval) : effect :=
  PostCommand (if truthy v then "turnOn" else "turnOff") "default" "command".

(** The BLE command the fan sends for the value [v] of Active. *)
Definition bleCommandFor (v : jsval) : effect :=
  if truthy v then BleTurnOn else BleTurnOff.

(** The command the fan sends for [v] on the transport of [cfg]. *)
Definition sends (cfg : Fan.config) (v : jsval) : effect :=
  if Fan.BLE cfg then bleCommandFor v else commandFor v.

(** At time [t] the transport of [cfg] takes a command: OpenAPI, or
    BLE with a driver at hand and a promise chain that resolves. *)
Definition transport_answers (cfg : Fan.config) (env : environment) (t : Z) : Prop :=
  overOpenAPI cfg \/
  (overBLE cfg /\ (exists ad, connectBLE env t = Driver ad) /\
   bleReply env t = BleResolved).

(** The trace [tr] of a [pushChanges] ends with the subscription of its
    one-shot confirmation timer, the only one in it, so that every
    command dispatched in [tr] is dispatched before. *)
Definition confirmation_follows (tr : list effect) : Prop :=
  exists before,
    tr = before ++ [SubscribeTake1 15000] /\
    ~ In (SubscribeTake1 15000) before.

(* ================================================================== *)
(** ** Vocabulary of the further properties *)

(** The action only adds to the trace, and what it adds passes [P]. *)
Definition adds {O : Type} (P : effect -> bool) (a : action O) : Prop :=
  forall w, exists tr, snd (a w) = snd w ++ tr /\ forallb P tr = true.

(** The action leaves the component [g] of the object as it is. *)
Definition preserves {O A : Type} (g : O -> A) (a : action O) : Prop :=
  forall w, g (fst (a w)) = g (fst w).

(** The effects of decoding and publishing a status: no command is
    handed to a transport, no timer is subscribed, and no [undefined] is
    pushed to a characteristic. *)
Definition refresh_effect (e : effect) : bool :=
  match e with
  | UpdateCharacteristic _ v => negb (strict_eq v JUndefined)
  | PostCommand _ _ _ | BleTurnOn | BleTurnOff | SubscribeTake1 _ => false
  | _ => true
  end.

(** The effects a fan is seen to produce: besides the former, the
    commands turnOn and turnOff with parameter "default", and one-shot
    timers of 15 s. *)
Definition fan_effect (e : effect) : bool :=
  match e with
  | UpdateCharacteristic _ v => negb (strict_eq v JUndefined)
  | PostCommand command parameter commandType =>
      (String.eqb command "turnOn" || String.eqb command "turnOff") &&
      String.eqb parameter "default" && String.eqb commandType "command"
  | SubscribeTake1 period => period =? 15000
  | _ => true
  end.

(** A debounced emission of the fan's subject is pending. *)
Definition write_pending (p : Fan.pipeline) : bool :=
  match Fan.debounce p with
  | Some _ => true
  | None => false
  end.

(** The emissions of the refresh interval among [events]. *)
Definition is_tick (te : Z * Fan.event) : bool :=
  match snd te with
  | Fan.IntervalTick => true
  | _ => false
  end.

Definition ticks (events : list (Z * Fan.event)) : nat :=
  length (filter is_tick events).

(** The fan after [updateHomeKitCharacteristics()]: every field that is
    not [undefined] is copied to the accessory context. *)
Definition Fan_published (o : Fan.t) : Fan.t :=
  let copy (v old : jsval) := if strict_eq v JUndefined then old else v in
  {| Fan.Active := Fan.Active o;
     Fan.SwingMode := Fan.SwingMode o;
     Fan.RotationSpeed := Fan.RotationSpeed o;
     Fan.BatteryLevel := Fan.BatteryLevel o;
     Fan.StatusLowBattery := Fan.StatusLowBattery o;
     Fan.ChargingState := Fan.ChargingState o;
     Fan.context_Active := copy (Fan.Active o) (Fan.context_Active o);
     Fan.context_SwingMode := copy (Fan.SwingMode o) (Fan.context_SwingMode o);
     Fan.context_RotationSpeed :=
       copy (Fan.RotationSpeed o) (Fan.context_RotationSpeed o);
     Fan.context_BatteryLevel :=
       copy (Fan.BatteryLevel o) (Fan.context_BatteryLevel o);
     Fan.context_StatusLowBattery :=
       copy (Fan.StatusLowBattery o) (Fan.context_StatusLowBattery o);
     Fan.context_ChargingState :=
       copy (Fan.ChargingState o) (Fan.context_ChargingState o);
     Fan.plugUpdateInProgress := Fan.plugUpdateInProgress o |}.

(** ActiveSet calls at the times and with the values of [cs]. *)
Definition writes (cs : list (Z * jsval)) : list (Z * Fan.event) :=
  map (fun c => (fst c, Fan.OnSet_Active (snd c))) cs.

(** The times of [cs] rise, each one within [window] of the one before,
    the first one within [window] of [t]. *)
Fixpoint chained (window t : Z) (cs : list (Z * jsval)) : Prop :=
  match cs with
  | [] => True
  | c :: rest => t <= fst c < t + window /\ chained window (fst c) rest
  end.

(** The pipeline [p] once ActiveSet has been called with [v] at time
    [t]: the value is stored, the flag raised, the debounce timer armed. *)
Definition Fan_armed (cfg : Fan.config) (p : Fan.pipeline) (t : Z) (v : jsval)
    : Fan.pipeline :=
  Fan.set_debounce (Some (t + Fan.pushRate_ms cfg))
    (Fan.set_this
       (Fan.set_plugUpdateInProgress true (Fan.set_Active v (Fan.this p))) p).

(** What a polled status body and a webhook payload make of Active. *)
Definition polledActive (ds : deviceStatus) : jsval :=
  if strict_eq (power (body ds)) (str "on")
  then HAP.Active_ACTIVE else HAP.Active_INACTIVE.

Definition notifiedActive (context : webhookContext) : jsval :=
  if strict_eq (wh_powerState context) (str "ON")
  then HAP.Active_ACTIVE else HAP.Active_INACTIVE.

(** What [updateHomeKitCharacteristics()] leaves in the accessory context
    for a field that holds [v]: [v] itself unless it is [undefined], in
    which case the context keeps [old]. *)
Definition published (v old : jsval) : jsval :=
  if strict_eq v JUndefined then old else v.

(** The values the contact sensor pushes to the registry while it is
    taken to be offline. *)
Definition Contact_safe_state (cfg : Contact.config) : list effect :=
  UpdateCharacteristic Characteristic.ContactSensorState
    HAP.ContactSensorState_CONTACT_DETECTED ::
  (if Contact.hide_motionsensor cfg then []
   else [UpdateCharacteristic Characteristic.MotionDetected (JBool false)]) ++
  (if Contact.hide_lightsensor cfg then []
   else [UpdateCharacteristic Characteristic.CurrentAmbientLightLevel (num 100)]).

(** The vendor status says the device is offline. *)
Definition reportsOffline (ds : deviceStatus) : bool :=
  strict_eq (ds_statusCode ds) (num 161) || strict_eq (ds_statusCode ds) (num 171).

(** [pushChanges()] of the vacuum cleaner goes to OpenAPI under [cfg]. *)
Definition vacuumOverOpenAPI (cfg : RobotVacuumCleaner.config) : bool :=
  negb (negb (RobotVacuumCleaner.enableCloudService cfg) &&
        RobotVacuumCleaner.OpenAPI cfg) &&
  (RobotVacuumCleaner.OpenAPI cfg && RobotVacuumCleaner.token cfg).

(** The POST that carries the command and parameter [c], as [commands()]
    and [brightnessCommands()] serialise them. *)
Definition post (c : string * string) : effect :=
  PostCommand (fst c) (snd c) "command".

(** Brightness holds none of the steps 25, 50, 75 and 100. *)
Definition off_step (v : jsval) : bool :=
  negb (strict_eq v (num 25) || strict_eq v (num 50) ||
        strict_eq v (num 75) || strict_eq v (num 100)).

(** The characteristic through which HomeKit calls [OnSet] for a device
    type of [Others]. *)
Definition target_of (deviceType : string) : OthersAccessory.characteristic :=
  if String.eqb deviceType "garagedoor" then OthersAccessory.TargetDoorState
  else if String.eqb deviceType "door" then OthersAccessory.TargetPosition
  else if String.eqb deviceType "window" then OthersAccessory.TargetPosition
  else if String.eqb deviceType "windowcovering" then OthersAccessory.TargetPosition
  else if String.eqb deviceType "lock" then OthersAccessory.LockTargetState
  else if String.eqb deviceType "faucet" then OthersAccessory.Active
  else if String.eqb deviceType "stateful"
  then OthersAccessory.ProgrammableSwitchOutputState
  else OthersAccessory.On.

(** The values of that characteristic that name one of the two states
    an infrared device can be sent to: 0 and 1, 0 and 100 for a
    position, the booleans for an outlet. *)
Definition end_value (deviceType : string) (value : jsval) : bool :=
  if String.eqb deviceType "switch" || String.eqb deviceType "fan" then false
  else if String.eqb deviceType "door" || String.eqb deviceType "window" ||
          String.eqb deviceType "windowcovering"
  then strict_eq value (num 0) || strict_eq value (num 100)
  else if String.eqb deviceType "garagedoor" || String.eqb deviceType "lock" ||
          String.eqb deviceType "faucet" || String.eqb deviceType "stateful"
  then strict_eq value (num 0) || strict_eq value (num 1)
  else strict_eq value (JBool true) || strict_eq value (JBool false).

(** The settings under which [Others] posts the command for [on]. *)
Definition posts_command (cfg : OthersAccessory.config)
    (base : OthersAccessory.irdeviceBase) (on : bool) : bool :=
  OthersAccessory.customize cfg &&
  String.eqb (OthersAccessory.connectionType cfg) "OpenAPI" &&
  negb (if on then OthersAccessory.disablePushOn base
        else OthersAccessory.disablePushOff base).

(** A customised infrared device on OpenAPI with the usual commands. *)
Definition othersConfig : OthersAccessory.config :=
  {| OthersAccessory.customize := true;
     OthersAccessory.connectionType := "OpenAPI" |}.

Definition irBase : OthersAccessory.irdeviceBase :=
  {| OthersAccessory.disablePushOn := false;
     OthersAccessory.disablePushOff := false;
     OthersAccessory.commandType := "customize";
     OthersAccessory.commandOn := "On";
     OthersAccessory.commandOff := "Off" |}.

(** An effect other than the status request. *)
Definition no_request (e : effect) : bool :=
  match e with
  | GetStatus => false
  | _ => true
  end.

(** The settings, and the outcome of [connectBLE()], under which
    [refreshStatus()] of a fan asks the cloud for the status. *)
Definition fanPolls (cfg : Fan.config) (switchbot : driver) : bool :=
  negb (negb (Fan.enableCloudService cfg) && Fan.OpenAPI cfg) &&
  (if Fan.BLE cfg
   then match switchbot with
        | DriverUndefined =>
            Fan.token cfg && String.eqb (Fan.connectionType cfg) "BLE/OpenAPI"
        | _ => false
        end
   else Fan.OpenAPI cfg && Fan.token cfg).

(** The same for a contact sensor, which does not look for a token
    before it polls over OpenAPI. *)
Definition contactPolls (cfg : Contact.config) (switchbot : driver) : bool :=
  negb (negb (Contact.enableCloudService cfg) && Contact.OpenAPI cfg) &&
  (if Contact.BLE cfg
   then match switchbot with
        | DriverUndefined =>
            Contact.token cfg && String.eqb (Contact.connectionType cfg) "BLE/OpenAPI"
        | _ => false
        end
   else Contact.OpenAPI cfg).

(** The vacuum cleaner after [updateHomeKitCharacteristics()]. *)
Definition Vacuum_published (o : RobotVacuumCleaner.t) : RobotVacuumCleaner.t :=
  {| RobotVacuumCleaner.On := RobotVacuumCleaner.On o;
     RobotVacuumCleaner.Brightness := RobotVacuumCleaner.Brightness o;
     RobotVacuumCleaner.BatteryLevel := RobotVacuumCleaner.BatteryLevel o;
     RobotVacuumCleaner.StatusLowBattery := RobotVacuumCleaner.StatusLowBattery o;
     RobotVacuumCleaner.context_On :=
       published (RobotVacuumCleaner.On o) (RobotVacuumCleaner.context_On o);
     RobotVacuumCleaner.context_Brightness :=
       published (RobotVacuumCleaner.Brightness o)
         (RobotVacuumCleaner.context_Brightness o);
     RobotVacuumCleaner.context_BatteryLevel :=
       published (RobotVacuumCleaner.BatteryLevel o)
         (RobotVacuumCleaner.context_BatteryLevel o);
     RobotVacuumCleaner.context_StatusLowBattery :=
       published (RobotVacuumCleaner.StatusLowBattery o)
         (RobotVacuumCleaner.context_StatusLowBattery o);
     RobotVacuumCleaner.robotVacuumCleanerUpdateInProgress :=
       RobotVacuumCleaner.robotVacuumCleanerUpdateInProgress o |}.

(** An effect other than pushing [undefined] to a characteristic. *)
Definition defined_publish (e : effect) : bool :=
  match e with
  | UpdateCharacteristic _ v => negb (strict_eq v JUndefined)
  | _ => true
  end.

(** Two characteristics are the same one. *)
Definition same_characteristic (a b : Characteristic.t) : bool :=
  match a, b with
  | Characteristic.Active, Characteristic.Active
  | Characteristic.SwingMode, Characteristic.SwingMode
  | Characteristic.RotationSpeed, Characteristic.RotationSpeed
  | Characteristic.BatteryLevel, Characteristic.BatteryLevel
  | Characteristic.StatusLowBattery, Characteristic.StatusLowBattery
  | Characteristic.ChargingState, Characteristic.ChargingState
  | Characteristic.ContactSensorState, Characteristic.ContactSensorState
  | Characteristic.MotionDetected, Characteristic.MotionDetected
  | Characteristic.CurrentAmbientLightLevel, Characteristic.CurrentAmbientLightLevel
  | Characteristic.On, Characteristic.On
  | Characteristic.Brightness, Characteristic.Brightness => true
  | _, _ => false
  end.

(** The values pushed to characteristic [c] in the trace [tr], in order. *)
Definition pushed (c : Characteristic.t) (tr : list effect) : list jsval :=
  flat_map (fun e => match e with
                     | UpdateCharacteristic c' v =>
                         if same_characteristic c c' then [v] else []
                     | _ => []
                     end) tr.

(** What one publish block pushes for a field that holds [v]. *)
Definition push_of (v : jsval) : list jsval :=
  if strict_eq v JUndefined then [] else [v].




(** The fan's [updateHomeKitCharacteristics()] in two parts: the blocks
    of the Fan service, and the battery blocks.  [this.Battery.Service]
    is what [accessory.getService(Battery)] gave the constructor, which
    never adds the service.  On an accessory without it, the first
    battery block whose field is not [undefined] copies the field to the
    accessory context and throws at
    [this.Battery.Service.updateCharacteristic(...)]; the method ends
    there, and no caller awaits it outside a detached block, so nothing
    else is cut short. *)
Definition Fan_publishFan : action Fan.t :=
  emit (Call Method.updateHomeKitCharacteristics) ;;
  Fan.publish Characteristic.Active Fan.Active Fan.set_context_Active ;;
  Fan.publish Characteristic.RotationSpeed Fan.RotationSpeed
    Fan.set_context_RotationSpeed ;;
  Fan.publish Characteristic.SwingMode Fan.SwingMode Fan.set_context_SwingMode.

Definition Fan_publishBattery : action Fan.t :=
  Fan.publish Characteristic.BatteryLevel Fan.BatteryLevel
    Fan.set_context_BatteryLevel ;;
  Fan.publish Characteristic.ChargingState Fan.ChargingState
    Fan.set_context_ChargingState ;;
  Fan.publish Characteristic.StatusLowBattery Fan.StatusLowBattery
    Fan.set_context_StatusLowBattery.

Definition Fan_publishBattery_throws : action Fan.t :=
  fun w =>
    let o := fst w in
    if strict_eq (Fan.BatteryLevel o) JUndefined then
      if strict_eq (Fan.ChargingState o) JUndefined then
        if strict_eq (Fan.StatusLowBattery o) JUndefined then w
        else assign (Fan.set_context_StatusLowBattery (Fan.StatusLowBattery o)) w
      else assign (Fan.set_context_ChargingState (Fan.ChargingState o)) w
    else assign (Fan.set_context_BatteryLevel (Fan.BatteryLevel o)) w.

(** [updateHomeKitCharacteristics()] of the fan on an accessory with
    ([service = true]) or without a Battery service;
    [Fan.updateHomeKitCharacteristics] is the case with one. *)
Definition Fan_updateHomeKitCharacteristics_on (service : bool) : action Fan.t :=
  Fan_publishFan ;;
  (if service then Fan_publishBattery else Fan_publishBattery_throws).

(** The fan's webhook handler up to its call of
    [updateHomeKitCharacteristics()], and the whole handler on an
    accessory with or without a Battery service. *)
Definition Fan_webhook_store (context : webhookContext) : action Fan.t :=
  emit (Call Method.webhookEventHandler) ;;
  assign (Fan.set_Active (if strict_eq (wh_powerState context) (str "ON")
                          then HAP.Active_ACTIVE else HAP.Active_INACTIVE)) ;;
  assign (Fan.set_SwingMode (if strict_eq (wh_oscillation context) (str "on")
                             then HAP.SwingMode_SWING_ENABLED
                             else HAP.SwingMode_SWING_DISABLED)) ;;
  assign (Fan.set_RotationSpeed (wh_fanSpeed context)) ;;
  assign (Fan.set_ChargingState
            (if strict_eq (wh_chargingStatus context) (str "charging")
             then HAP.ChargingState_CHARGING
             else HAP.ChargingState_NOT_CHARGING)) ;;
  assign (Fan.set_BatteryLevel (wh_battery context)) ;;
  (if truthy (wh_version context)
   then emit (FirmwareRevision (wh_version context)) else skip).

Definition Fan_webhookEventHandler_on (service : bool) (context : webhookContext)
    : action Fan.t :=
  Fan_webhook_store context ;; Fan_updateHomeKitCharacteristics_on service.

(** [refreshStatus()] of a fan that polls over OpenAPI, cut at
    [await this.platform.retryRequest(...)]: what runs when the method is
    called, and what runs once the request and [body.json()] have
    resolved to [r]. *)
Definition Fan_refresh_sent : action Fan.t :=
  emit (Call Method.refreshStatus) ;;
  emit (Call Method.openAPIRefreshStatus) ;;
  emit GetStatus.

Definition Fan_refresh_answered (StringToNumber : string -> number) (r : reply)
    : action Fan.t :=
  match r with
  | Replied sc ds =>
      if dualStatusOk sc ds then
        Fan.openAPIparseStatus StringToNumber ds ;;
        Fan.updateHomeKitCharacteristics
      else
        statusCode (num sc) ;;
        statusCode (ds_statusCode ds)
  | Threw e => Fan.apiError e
  end.

(** A moment in the life of a fan that polls over OpenAPI: an event of
    its pipeline, where an emission of a refresh timer only sends the
    status request, or the arrival of the answer to a request sent
    before. *)
Inductive Fan_moment :=
| Occurs (e : Fan.event)
| Answered (r : reply).

Section FanLatency.
Variable StringToNumber : string -> number.
Variable cfg : Fan.config.
Variable env : environment.

(** What a moment does to the pipeline.  The refresh timers are those
    of [Fan.handle], with the refresh cut in two; [cfg] is taken to route
    the refresh to OpenAPI. *)
Definition Fan_async_handle (now : Z) (m : Fan_moment) : action Fan.pipeline :=
  match m with
  | Occurs Fan.IntervalTick =>
      fun w =>
        if Rx.skipWhile (Fan.taking (fst w))
             (Fan.plugUpdateInProgress (Fan.this (fst w)))
        then (assign (Fan.set_taking true) ;; Fan.lift Fan_refresh_sent) w
        else w
  | Occurs Fan.ConfirmationTick =>
      fun w =>
        match Fan.confirmations (fst w) with
        | O => w
        | S n =>
            if Rx.skipWhile false (Fan.plugUpdateInProgress (Fan.this (fst w)))
            then (assign (Fan.set_confirmations n) ;; Fan.lift Fan_refresh_sent) w
            else w
        end
  | Occurs e => Fan.handle StringToNumber cfg env now e
  | Answered r => Fan.lift (Fan_refresh_answered StringToNumber r)
  end.

Definition Fan_async_step (tm : Z * Fan_moment) : action Fan.pipeline :=
  Fan.elapse cfg env (fst tm) ;; Fan_async_handle (fst tm) (snd tm).

Fixpoint Fan_async_run (moments : list (Z * Fan_moment)) : action Fan.pipeline :=
  match moments with
  | [] => skip
  | tm :: rest => Fan_async_step tm ;; Fan_async_run rest
  end.

End FanLatency.


(* ================================================================== *)
(** * Properties *)

(** ** Helper lemmas: traces *)

Lemma extends_emit {O : Type} (e : effect) : extends (@emit O e).
Proof. intros w. exists [e]. reflexivity. Qed.

Lemma extends_assign {O : Type} (f : O -> O) : extends (assign f).
Proof. intros w. exists []. cbn. now rewrite app_nil_r. Qed.

Lemma extends_skip {O : Type} : extends (@skip O).
Proof. intros w. exists []. cbn. now rewrite app_nil_r. Qed.

Lemma extends_seq {O : Type} (a b : action O) :
  extends a -> extends b -> extends (a ;; b).
Proof.
  intros Ha Hb w. unfold seq.
  destruct (Ha w) as [t1 E1]. destruct (Hb (a w)) as [t2 E2].
  exists (t1 ++ t2). now rewrite E2, E1, app_assoc.
Qed.

Lemma extends_if {O : Type} (c : bool) (a b : action O) :
  extends a -> extends b -> extends (if c then a else b).
Proof. destruct c; auto. Qed.

Lemma In_extends {O : Type} (a : action O) (w : world O) (e : effect) :
  extends a -> In e (snd w) -> In e (snd (a w)).
Proof.
  intros Ha Hin. destruct (Ha w) as [tr E]. rewrite E. apply in_or_app. now left.
Qed.

Ltac extends_tac :=
  repeat match goal with
    | |- extends (seq _ _) => apply extends_seq
    | |- extends (emit _) => apply extends_emit
    | |- extends (assign _) => apply extends_assign
    | |- extends skip => apply extends_skip
    | |- extends (if _ then _ else _) => apply extends_if
    end.

Lemma firmwareVersion_extends {O : Type} (b : statusBody) :
  extends (@firmwareVersion O b).
Proof. unfold firmwareVersion. extends_tac. Qed.

Lemma firmwareVersion_fst {O : Type} (b : statusBody) (w : world O) :
  fst (firmwareVersion b w) = fst w.
Proof. unfold firmwareVersion. destruct (truthy (version b)); reflexivity. Qed.


(* ================================================================== *)
(** * Properties *)

(** ** Helper lemmas: JavaScript values *)



(** ** Helper lemmas: the battery blocks of the parsers *)

Section BatteryBlocks.
Variable StringToNumber : string -> number.

Lemma Contact_parseBattery_fst (b : jsval) (w : world Contact.t) :
  fst (Contact.parseBattery StringToNumber b w) =
  Contact.set_StatusLowBattery (lowBatteryOf (ToNumber StringToNumber b))
    (Contact.set_BatteryLevel (JNum (ToNumber StringToNumber b)) (fst w)).
Proof.
  unfold Contact.parseBattery, lowBatteryOf, seq, assign.
  destruct (strict_eq b JUndefined);
    destruct (number_lt (ToNumber StringToNumber b) (Fin 10)); reflexivity.
Qed.



Lemma Fan_openAPIparseStatus_battery ds w :
  let level := ToNumber StringToNumber (battery (body ds)) in
  Fan.StatusLowBattery (fst (Fan.openAPIparseStatus StringToNumber ds w)) =
    lowBatteryOf level /\
  Fan.BatteryLevel (fst (Fan.openAPIparseStatus StringToNumber ds w)) =
    if isNaN level then num 100 else JNum level.
Proof.
  unfold Fan.openAPIparseStatus, firmwareVersion, lowBatteryOf, seq, assign, emit, skip.
  cbn.
  destruct (truthy (version (body ds)));
    destruct (number_lt (ToNumber StringToNumber (battery (body ds))) (Fin 10));
    destruct (isNaN (ToNumber StringToNumber (battery (body ds)))); split; reflexivity.
Qed.

Lemma Vacuum_openAPIparseStatus_battery ds w :
  let level := ToNumber StringToNumber (battery (body ds)) in
  RobotVacuumCleaner.StatusLowBattery
    (fst (RobotVacuumCleaner.openAPIparseStatus StringToNumber ds w)) =
    lowBatteryOf level /\
  RobotVacuumCleaner.BatteryLevel
    (fst (RobotVacuumCleaner.openAPIparseStatus StringToNumber ds w)) =
    if isNaN level then num 100 else JNum level.
Proof.
  unfold RobotVacuumCleaner.openAPIparseStatus, firmwareVersion, lowBatteryOf,
    seq, assign, emit, skip.
  cbn.
  destruct (truthy (version (body ds)));
    destruct (strict_eq (power (body ds)) (str "on"));
    destruct (number_lt (ToNumber StringToNumber (battery (body ds))) (Fin 10));
    destruct (isNaN (ToNumber StringToNumber (battery (body ds)))); split; reflexivity.
Qed.

End BatteryBlocks.


(** ** Battery decoding *)



(** Battery 7 decodes to LOW, battery 10 to NORMAL. *)
Example battery_7_is_low :
  Contact.StatusLowBattery
    (fst (Contact.BLEparseStatus digitsToNumber Sample.contactConfig
            (Sample.advertisement (str "close") (num 7)) (Sample.contact0, []))) =
  HAP.StatusLowBattery_BATTERY_LEVEL_LOW.
Proof. reflexivity. Qed.

Example battery_10_is_normal :
  Contact.StatusLowBattery
    (fst (Contact.BLEparseStatus digitsToNumber Sample.contactConfig
            (Sample.advertisement (str "close") (num 10)) (Sample.contact0, []))) =
  HAP.StatusLowBattery_BATTERY_LEVEL_NORMAL.
Proof. reflexivity. Qed.

(** C9. In the OpenAPI parsers of the fan and of the vacuum cleaner, a
    battery field whose [Number] is NaN (an absent field in particular)
    decodes to BatteryLevel 100 and StatusLowBattery NORMAL. *)
Theorem nan_battery_defaults_to_100 :
  forall (StringToNumber : string -> number) (ds : deviceStatus)
         (f : world Fan.t) (v : world RobotVacuumCleaner.t),
    ToNumber StringToNumber (battery (body ds)) = NaN ->
    Fan.BatteryLevel (fst (Fan.openAPIparseStatus StringToNumber ds f)) = num 100 /\
    Fan.StatusLowBattery (fst (Fan.openAPIparseStatus StringToNumber ds f)) =
      HAP.StatusLowBattery_BATTERY_LEVEL_NORMAL /\
    RobotVacuumCleaner.BatteryLevel
      (fst (RobotVacuumCleaner.openAPIparseStatus StringToNumber ds v)) = num 100 /\
    RobotVacuumCleaner.StatusLowBattery
      (fst (RobotVacuumCleaner.openAPIparseStatus StringToNumber ds v)) =
      HAP.StatusLowBattery_BATTERY_LEVEL_NORMAL.
Proof.
  intros S2N ds f v H.
  destruct (Fan_openAPIparseStatus_battery S2N ds f) as [E1 E2].
  destruct (Vacuum_openAPIparseStatus_battery S2N ds v) as [E3 E4].
  rewrite E1, E2, E3, E4, H. cbn. repeat split; reflexivity.
Qed.

Lemma nan_battery_defaults_to_100_witness :
  ToNumber digitsToNumber (battery (body (Sample.answer 100 Sample.emptyBody))) = NaN /\
  Fan.BatteryLevel
    (fst (Fan.openAPIparseStatus digitsToNumber
            (Sample.answer 100 Sample.emptyBody) Sample.fan0)) = num 100.
Proof.
  split; [reflexivity|].
  apply (nan_battery_defaults_to_100 digitsToNumber
           (Sample.answer 100 Sample.emptyBody) Sample.fan0 Sample.vacuum0).
  reflexivity.
Defined.

(** An absent battery field is one whose [Number] is NaN, whatever the
    engine does with strings. *)
Lemma absent_battery_is_NaN (StringToNumber : string -> number) :
  ToNumber StringToNumber JUndefined = NaN.
Proof. reflexivity. Qed.




(** ** Helper lemmas: the contact sensor *)

Section ContactLemmas.
Variable StringToNumber : string -> number.
Variable cfg : Contact.config.

Lemma Contact_publish_extends c get set : extends (Contact.publish c get set).
Proof.
  unfold Contact.publish. intros w.
  destruct (strict_eq (get (fst w)) JUndefined).
  - exists []. now rewrite app_nil_r.
  - eexists. unfold seq, assign, emit. cbn. reflexivity.
Qed.

Lemma Contact_updateHomeKit_extends :
  extends (Contact.updateHomeKitCharacteristics cfg).
Proof.
  unfold Contact.updateHomeKitCharacteristics.
  repeat first [apply Contact_publish_extends | extends_tac].
Qed.

Lemma Contact_parseBattery_extends b :
  extends (Contact.parseBattery StringToNumber b).
Proof. unfold Contact.parseBattery. cbv zeta. extends_tac. Qed.

Lemma Contact_tail_extends ds :
  extends (Contact.openAPIparseStatus_tail StringToNumber ds).
Proof.
  unfold Contact.openAPIparseStatus_tail.
  apply extends_seq; [apply Contact_parseBattery_extends | apply firmwareVersion_extends].
Qed.

Lemma Contact_light_extends ds : extends (Contact.openAPIparseStatus_light cfg ds).
Proof. unfold Contact.openAPIparseStatus_light. extends_tac. Qed.

Lemma Contact_publish_sensed c get set w :
  (forall v o, sensed (set v o) = sensed o) ->
  sensed (fst (Contact.publish c get set w)) = sensed (fst w).
Proof.
  intros H. unfold Contact.publish.
  destruct (strict_eq (get (fst w)) JUndefined); [reflexivity|].
  unfold seq, assign, emit. cbn. apply H.
Qed.

Lemma Contact_updateHomeKit_sensed w :
  sensed (fst (Contact.updateHomeKitCharacteristics cfg w)) = sensed (fst w).
Proof.
  unfold Contact.updateHomeKitCharacteristics, seq.
  destruct (Contact.hide_motionsensor cfg); destruct (Contact.hide_lightsensor cfg);
    cbn [negb]; unfold skip;
    repeat (rewrite Contact_publish_sensed by (intros v o; reflexivity));
    reflexivity.
Qed.

Lemma Contact_tail_sensed ds w :
  sensed (fst (Contact.openAPIparseStatus_tail StringToNumber ds w)) = sensed (fst w).
Proof.
  unfold Contact.openAPIparseStatus_tail, seq.
  rewrite firmwareVersion_fst, Contact_parseBattery_fst. reflexivity.
Qed.

(** A successful refresh, unfolded. *)
Lemma Contact_refresh_ok_eq sc ds w :
  dualStatusOk sc ds = true ->
  Contact.openAPIRefreshStatus StringToNumber cfg (Replied sc ds) w =
  let w0 := Contact.openAPIparseStatus_head cfg ds
              (emit GetStatus (emit (Call Method.openAPIRefreshStatus) w)) in
  if Contact.hide_lightsensor cfg
  then Contact.updateHomeKitCharacteristics cfg
         (Contact.openAPIparseStatus_tail StringToNumber ds w0)
  else Contact.openAPIparseStatus_tail StringToNumber ds
         (Contact.openAPIparseStatus_light cfg ds
            (Contact.updateHomeKitCharacteristics cfg w0)).
Proof.
  intros H. unfold Contact.openAPIRefreshStatus, seq. rewrite H.
  destruct (Contact.hide_lightsensor cfg); reflexivity.
Qed.

Lemma Contact_head_sensed ds w :
  sensed (fst (Contact.openAPIparseStatus_head cfg ds w)) =
  ( (if strict_eq (openState (body ds)) (str "open")
     then HAP.ContactSensorState_CONTACT_NOT_DETECTED
     else if strict_eq (openState (body ds)) (str "close")
     then HAP.ContactSensorState_CONTACT_DETECTED
     else Contact.ContactSensorState (fst w)),
    (if Contact.hide_motionsensor cfg then Contact.MotionDetected (fst w)
     else moveDetected (body ds)),
    Contact.CurrentAmbientLightLevel (fst w) ).
Proof.
  unfold Contact.openAPIparseStatus_head, seq, assign, emit, skip.
  destruct (strict_eq (openState (body ds)) (str "open"));
    [|destruct (strict_eq (openState (body ds)) (str "close"))];
    destruct (Contact.hide_motionsensor cfg); reflexivity.
Qed.

Lemma Contact_light_sensed ds w :
  sensed (fst (Contact.openAPIparseStatus_light cfg ds w)) =
  ( Contact.ContactSensorState (fst w), Contact.MotionDetected (fst w),
    if strict_eq (brightness (body ds)) (str "dim")
    then Contact.minLux cfg else Contact.maxLux cfg ).
Proof.
  unfold Contact.openAPIparseStatus_light.
  destruct (strict_eq (brightness (body ds)) (str "dim")); reflexivity.
Qed.

Lemma sensed_inv (c : Contact.t) (a b l : jsval) :
  sensed c = (a, b, l) ->
  Contact.ContactSensorState c = a /\ Contact.MotionDetected c = b /\
  Contact.CurrentAmbientLightLevel c = l.
Proof. unfold sensed. intros H. inversion H. auto. Qed.

(** The capability state a successful poll leaves. *)
Lemma Contact_poll_sensed sc ds w :
  dualStatusOk sc ds = true ->
  sensed (fst (Contact.openAPIRefreshStatus StringToNumber cfg (Replied sc ds) w)) =
  ( (if strict_eq (openState (body ds)) (str "open")
     then HAP.ContactSensorState_CONTACT_NOT_DETECTED
     else if strict_eq (openState (body ds)) (str "close")
     then HAP.ContactSensorState_CONTACT_DETECTED
     else Contact.ContactSensorState (fst w)),
    (if Contact.hide_motionsensor cfg then Contact.MotionDetected (fst w)
     else moveDetected (body ds)),
    (if Contact.hide_lightsensor cfg then Contact.CurrentAmbientLightLevel (fst w)
     else if strict_eq (brightness (body ds)) (str "dim")
     then Contact.minLux cfg else Contact.maxLux cfg) ).
Proof.
  intros H. rewrite (Contact_refresh_ok_eq sc ds w H). cbv zeta.
  destruct (Contact.hide_lightsensor cfg).
  - rewrite Contact_updateHomeKit_sensed, Contact_tail_sensed, Contact_head_sensed.
    reflexivity.
  - rewrite Contact_tail_sensed, Contact_light_sensed.
    match goal with
    | |- context [Contact.updateHomeKitCharacteristics cfg ?x] =>
        destruct (sensed_inv _ _ _ _
                    (eq_trans (Contact_updateHomeKit_sensed x)
                              (Contact_head_sensed ds _))) as (E1 & E2 & _)
    end.
    rewrite E1, E2. reflexivity.
Qed.

(** The capability state a webhook event leaves. *)
Lemma Contact_webhook_sensed context w :
  sensed (fst (Contact.webhookEventHandler cfg context w)) =
  ( (if strict_eq (wh_openState context) (str "open") then num 1 else num 0),
    (if Contact.hide_motionsensor cfg then Contact.MotionDetected (fst w)
     else JBool (strict_eq (wh_detectionState context) (str "DETECTED"))),
    (if Contact.hide_lightsensor cfg then Contact.CurrentAmbientLightLevel (fst w)
     else if strict_eq (wh_brightness context) (str "bright")
     then Contact.maxLux cfg else Contact.minLux cfg) ).
Proof.
  unfold Contact.webhookEventHandler, seq.
  rewrite Contact_updateHomeKit_sensed.
  unfold assign, emit, skip.
  destruct (Contact.hide_motionsensor cfg); destruct (Contact.hide_lightsensor cfg);
    destruct (strict_eq (wh_detectionState context) (str "DETECTED")); reflexivity.
Qed.





End ContactLemmas.

(** C5, as the code has it.  For a webhook payload and a polled status
    that describe the same state with openState "open" or "close" and
    brightness "bright" or "dim", the webhook handler and a successful
    refresh leave the same contact, motion and light-level state. *)
Theorem webhook_agrees_with_poll_on_known_values :
  forall (StringToNumber : string -> number) (cfg : Contact.config)
         (context : webhookContext) (sc : Z) (ds : deviceStatus)
         (w : world Contact.t),
    same_status context ds ->
    dualStatusOk sc ds = true ->
    openState (body ds) = str "open" \/ openState (body ds) = str "close" ->
    brightness (body ds) = str "bright" \/ brightness (body ds) = str "dim" ->
    sensed (fst (Contact.webhookEventHandler cfg context w)) =
    sensed (fst (Contact.openAPIRefreshStatus StringToNumber cfg (Replied sc ds) w)).
Proof.
  intros S2N cfg context sc ds w (Ho & Hb & Hm) Hok Hopen Hbright.
  rewrite Contact_webhook_sensed, (Contact_poll_sensed S2N cfg sc ds w Hok).
  rewrite Ho, Hb, Hm.
  destruct Hopen as [-> | ->]; destruct Hbright as [-> | ->]; reflexivity.
Qed.

Lemma webhook_agrees_with_poll_on_known_values_witness :
  same_status (Sample.contactEvent (str "open") (str "bright") (str "DETECTED"))
    (Sample.answer 100
       (Sample.contactBody (str "open") (str "bright") (JBool true) (num 80))) /\
  sensed (fst (Contact.webhookEventHandler Sample.contactConfig
                 (Sample.contactEvent (str "open") (str "bright") (str "DETECTED"))
                 Sample.contact80)) =
  sensed (fst (Contact.openAPIRefreshStatus digitsToNumber Sample.contactConfig
                 (Replied 200
                    (Sample.answer 100
                       (Sample.contactBody (str "open") (str "bright") (JBool true)
                          (num 80))))
                 Sample.contact80)).
Proof.
  split; [repeat split|].
  apply (webhook_agrees_with_poll_on_known_values digitsToNumber Sample.contactConfig
           (Sample.contactEvent (str "open") (str "bright") (str "DETECTED")) 200
           (Sample.answer 100
              (Sample.contactBody (str "open") (str "bright") (JBool true) (num 80)))
           Sample.contact80).
  - repeat split.
  - reflexivity.
  - left. reflexivity.
  - left. reflexivity.
Defined.

(** C5 as stated fails: on an open door, the status "timeOutNotClose"
    leaves the contact state open when polled and sets it to closed when
    it comes by webhook. *)
Lemma webhook_differs_from_poll :
  same_status
    (Sample.contactEvent (str "timeOutNotClose") (str "bright") (str "NOT_DETECTED"))
    (Sample.answer 100
       (Sample.contactBody (str "timeOutNotClose") (str "bright") (JBool false)
          (num 80))) /\
  Contact.ContactSensorState
    (fst (Contact.webhookEventHandler Sample.contactConfig
            (Sample.contactEvent (str "timeOutNotClose") (str "bright")
               (str "NOT_DETECTED"))
            Sample.contactOpen)) = HAP.ContactSensorState_CONTACT_DETECTED /\
  Contact.ContactSensorState
    (fst (Contact.openAPIRefreshStatus digitsToNumber Sample.contactConfig
            (Replied 200
               (Sample.answer 100
                  (Sample.contactBody (str "timeOutNotClose") (str "bright")
                     (JBool false) (num 80))))
            Sample.contactOpen)) = HAP.ContactSensorState_CONTACT_NOT_DETECTED /\
  fst (Contact.webhookEventHandler Sample.contactConfig
         (Sample.contactEvent (str "timeOutNotClose") (str "bright")
            (str "NOT_DETECTED"))
         Sample.contactOpen) <>
  fst (Contact.openAPIRefreshStatus digitsToNumber Sample.contactConfig
         (Replied 200
            (Sample.answer 100
               (Sample.contactBody (str "timeOutNotClose") (str "bright")
                  (JBool false) (num 80))))
         Sample.contactOpen).
Proof.
  split; [repeat split|]. split; [reflexivity|]. split; [reflexivity|].
  vm_compute. discriminate.
Qed.

(** ** Helper lemmas: the dual status check *)

Lemma strict_eq_num (v : jsval) (n : Z) :
  strict_eq v (num n) = true <->
  exists q, v = JNum (Fin q) /\ (q == inject_Z n)%Q.
Proof.
  split.
  - destruct v as [| |b|[| | |q]|s]; cbn; try discriminate.
    intros H. exists q. split; [reflexivity|]. now apply Qeq_bool_iff.
  - intros (q & -> & H). cbn. now apply Qeq_bool_iff.
Qed.

Lemma dualStatusOk_iff (sc : Z) (ds : deviceStatus) :
  dualStatusOk sc ds = true <-> bothStatusesOk sc ds.
Proof.
  unfold dualStatusOk, bothStatusesOk, vendorStatusIs.
  rewrite andb_true_iff, !orb_true_iff, !Z.eqb_eq, !strict_eq_num.
  reflexivity.
Qed.

Lemma dualStatusOk_false_iff (sc : Z) (ds : deviceStatus) :
  dualStatusOk sc ds = false <-> ~ bothStatusesOk sc ds.
Proof.
  rewrite <- dualStatusOk_iff. destruct (dualStatusOk sc ds); split; intro H;
    try reflexivity; try discriminate; try congruence.
Qed.

(** ** Helper lemmas: the fan *)

Section FanLemmas.
Variable StringToNumber : string -> number.

Lemma Fan_publish_extends c get set : extends (Fan.publish c get set).
Proof.
  unfold Fan.publish. intros w.
  destruct (strict_eq (get (fst w)) JUndefined).
  - exists []. now rewrite app_nil_r.
  - eexists. unfold seq, assign, emit. cbn. reflexivity.
Qed.

Lemma Fan_updateHomeKit_extends : extends Fan.updateHomeKitCharacteristics.
Proof.
  unfold Fan.updateHomeKitCharacteristics.
  repeat first [apply Fan_publish_extends | extends_tac].
Qed.



Lemma Fan_refresh_ok_eq sc ds w :
  dualStatusOk sc ds = true ->
  Fan.openAPIRefreshStatus StringToNumber (Replied sc ds) w =
  Fan.updateHomeKitCharacteristics
    (Fan.openAPIparseStatus StringToNumber ds
       (emit GetStatus (emit (Call Method.openAPIRefreshStatus) w))).
Proof. intros H. unfold Fan.openAPIRefreshStatus, seq. now rewrite H. Qed.



Lemma Fan_parse_extends ds : extends (Fan.openAPIparseStatus StringToNumber ds).
Proof.
  unfold Fan.openAPIparseStatus. cbv zeta.
  repeat first [apply firmwareVersion_extends | extends_tac].
Qed.

Lemma Fan_apiError_extends e : extends (Fan.apiError e).
Proof. unfold Fan.apiError. extends_tac. Qed.

Lemma Fan_openAPIRefreshStatus_extends r :
  extends (Fan.openAPIRefreshStatus StringToNumber r).
Proof.
  unfold Fan.openAPIRefreshStatus, statusCode.
  destruct r as [sc ds|e];
    repeat first
      [ apply Fan_parse_extends | apply Fan_updateHomeKit_extends
      | apply Fan_apiError_extends | extends_tac ].
Qed.

Lemma Fan_offlineOff_extends cfg : extends (Fan.offlineOff cfg).
Proof. unfold Fan.offlineOff. extends_tac. Qed.

Lemma Fan_BLERefreshStatus_extends cfg switchbot r :
  extends (Fan.BLERefreshStatus StringToNumber cfg switchbot r).
Proof.
  unfold Fan.BLERefreshStatus, Fan.BLERefreshConnection, Fan.BLEparseStatus.
  destruct switchbot as [| |[sd|]];
    repeat first
      [ apply Fan_openAPIRefreshStatus_extends | apply Fan_updateHomeKit_extends
      | extends_tac ].
Qed.

Lemma Fan_refreshStatus_calls cfg switchbot r w :
  In (Call Method.refreshStatus)
     (snd (Fan.refreshStatus StringToNumber cfg switchbot r w)).
Proof.
  unfold Fan.refreshStatus.
  match goal with
  | |- In _ (snd ((emit ?e ;; ?rest) w)) =>
      change (In e (snd (rest (emit e w))))
  end.
  apply In_extends.
  - repeat first
      [ apply Fan_openAPIRefreshStatus_extends | apply Fan_BLERefreshStatus_extends
      | apply Fan_offlineOff_extends | extends_tac ].
  - unfold emit. cbn [snd]. apply in_or_app. right. now left.
Qed.

End FanLemmas.

(** What [Fan.openAPIpushChanges] does, by cases. *)
Lemma Fan_openAPIpushChanges_effects (r : reply) (f : Fan.t) :
  effects (Fan.openAPIpushChanges r) f =
  Call Method.openAPIpushChanges ::
  (if strict_eq (Fan.Active f) (Fan.context_Active f) then []
   else PostCommand (if truthy (Fan.Active f) then "turnOn" else "turnOff")
          "default" "command" ::
        match r with
        | Replied sc ds =>
            if dualStatusOk sc ds then []
            else [StatusCode (num sc); StatusCode (ds_statusCode ds)]
        | Threw e =>
            [Call Method.apiError;
             UpdateCharacteristicError Characteristic.Active e;
             UpdateCharacteristicError Characteristic.RotationSpeed e;
             UpdateCharacteristicError Characteristic.SwingMode e]
        end).
Proof.
  unfold effects, Fan.openAPIpushChanges, seq. cbn.
  destruct (strict_eq (Fan.Active f) (Fan.context_Active f)); cbn; [reflexivity|].
  destruct r as [sc ds|e]; [destruct (dualStatusOk sc ds)|]; reflexivity.
Qed.

Lemma Fan_openAPIpushChanges_result (r : reply) (f : Fan.t) :
  result (Fan.openAPIpushChanges r) f = f.
Proof.
  unfold result, Fan.openAPIpushChanges, seq. cbn.
  destruct (strict_eq (Fan.Active f) (Fan.context_Active f)); cbn; [reflexivity|].
  destruct r as [sc ds|e]; [destruct (dualStatusOk sc ds)|]; reflexivity.
Qed.

Lemma Vacuum_openAPIpushChanges_effects (r : reply) (v : RobotVacuumCleaner.t) :
  effects (RobotVacuumCleaner.openAPIpushChanges r) v =
  Call Method.openAPIpushChanges ::
  (if strict_eq (RobotVacuumCleaner.On v) (RobotVacuumCleaner.context_On v) then []
   else PostCommand (if truthy (RobotVacuumCleaner.On v) then "start" else "dock")
          "default" "command" ::
        match r with
        | Replied sc ds =>
            if dualStatusOk sc ds then []
            else [StatusCode (num sc); StatusCode (ds_statusCode ds)]
        | Threw e =>
            [Call Method.apiError; UpdateCharacteristicError Characteristic.On e]
        end).
Proof.
  unfold effects, RobotVacuumCleaner.openAPIpushChanges,
    RobotVacuumCleaner.handleCommandReply, RobotVacuumCleaner.commands, seq. cbn.
  destruct (strict_eq (RobotVacuumCleaner.On v) (RobotVacuumCleaner.context_On v));
    cbn; [reflexivity|].
  destruct (truthy (RobotVacuumCleaner.On v));
    (destruct r as [sc ds|e]; [destruct (dualStatusOk sc ds)|]; reflexivity).
Qed.

Lemma Vacuum_openAPIpushChanges_result (r : reply) (v : RobotVacuumCleaner.t) :
  result (RobotVacuumCleaner.openAPIpushChanges r) v = v.
Proof.
  unfold result, RobotVacuumCleaner.openAPIpushChanges,
    RobotVacuumCleaner.handleCommandReply, RobotVacuumCleaner.commands, seq. cbn.
  destruct (strict_eq (RobotVacuumCleaner.On v) (RobotVacuumCleaner.context_On v));
    cbn; [reflexivity|].
  destruct (truthy (RobotVacuumCleaner.On v));
    (destruct r as [sc ds|e]; [destruct (dualStatusOk sc ds)|]; reflexivity).
Qed.




(** ** Vendor rejection *)

(** C3, as the code has it.  When a sendCommand returns transport
    status 200 and vendor status 171, both codes are handed to the
    status-code handler; the capability state is left as the user set it
    and [apiError] is not called. *)
Theorem vendor_rejection_keeps_optimistic_state :
  forall (b : statusBody) (f : Fan.t) (v : RobotVacuumCleaner.t)
         (O : Type) (connectionType : string) (updateHomeKit : action O)
         (onError : string -> action O) (o : O)
         (command parameter commandType : string),
    result (Fan.openAPIpushChanges (rejected171 b)) f = f /\
    effects (Fan.openAPIpushChanges (rejected171 b)) f =
      Call Method.openAPIpushChanges ::
      (if strict_eq (Fan.Active f) (Fan.context_Active f) then []
       else [commandFor (Fan.Active f); StatusCode (num 200); StatusCode (num 171)]) /\
    result (RobotVacuumCleaner.openAPIpushChanges (rejected171 b)) v = v /\
    effects (RobotVacuumCleaner.openAPIpushChanges (rejected171 b)) v =
      Call Method.openAPIpushChanges ::
      (if strict_eq (RobotVacuumCleaner.On v) (RobotVacuumCleaner.context_On v) then []
       else [PostCommand (if truthy (RobotVacuumCleaner.On v) then "start" else "dock")
               "default" "command";
             StatusCode (num 200); StatusCode (num 171)]) /\
    result (Others.pushChanges connectionType updateHomeKit onError
              command parameter commandType (rejected171 b)) o = o /\
    effects (Others.pushChanges connectionType updateHomeKit onError
               command parameter commandType (rejected171 b)) o =
      Call Method.pushChanges ::
      (if String.eqb connectionType "OpenAPI"
       then [PostCommand command parameter commandType;
             StatusCode (num 200); StatusCode (num 171)]
       else []).
Proof.
  intros b f v O ct upd err o cmd par cty.
  rewrite Fan_openAPIpushChanges_result, Fan_openAPIpushChanges_effects,
    Vacuum_openAPIpushChanges_result, Vacuum_openAPIpushChanges_effects.
  unfold rejected171, commandFor.
  split; [reflexivity|]. split; [reflexivity|].
  split; [reflexivity|]. split; [reflexivity|].
  unfold result, effects, Others.pushChanges, seq.
  destruct (String.eqb ct "OpenAPI"); split; reflexivity.
Qed.

(** C3 as stated fails: the fan is off and published as off, the user
    switches it on, the command is answered 200 / 171.  Active stays 1,
    the published value is still 0, and [apiError] was not called. *)
Lemma vendor_rejection_not_rolled_back :
  Fan.Active (fst Sample.fan0) = num 0 /\
  Fan.context_Active (Fan.this (fst Sample.fanRejected)) = num 0 /\
  Fan.Active (Fan.this (fst Sample.fanRejected)) = num 1 /\
  In (StatusCode (num 171)) (snd Sample.fanRejected) /\
  ~ In (Call Method.apiError) (snd Sample.fanRejected).
Proof.
  repeat split; try reflexivity.
  - vm_compute. tauto.
  - vm_compute. intuition congruence.
Qed.

(** ** Helper lemmas: the fan's subscriptions *)

Lemma Fan_openAPIpushChanges_frame (r : reply) (w : world Fan.t) :
  Fan.openAPIpushChanges r w =
  (fst w, snd w ++ effects (Fan.openAPIpushChanges r) (fst w)).
Proof.
  destruct w as [f tr].
  unfold effects, Fan.openAPIpushChanges, Fan.apiError, statusCode, seq, emit, skip.
  cbn [fst snd].
  destruct (strict_eq (Fan.Active f) (Fan.context_Active f)); cbn [negb].
  - reflexivity.
  - destruct r as [sc ds|e]; [destruct (dualStatusOk sc ds)|];
      cbn [fst snd app]; rewrite <- ?app_assoc; reflexivity.
Qed.

Section PipelineLemmas.
Variable StringToNumber : string -> number.
Variable cfg : Fan.config.
Variable env : environment.

Lemma Fan_elapse_idle now p tr :
  Fan.debounce p = None -> Fan.elapse cfg env now (p, tr) = (p, tr).
Proof. intros H. unfold Fan.elapse. cbn [fst]. now rewrite H. Qed.

Lemma Fan_elapse_early now due p tr :
  Fan.debounce p = Some due -> now < due ->
  Fan.elapse cfg env now (p, tr) = (p, tr).
Proof.
  intros H Hlt. unfold Fan.elapse. cbn [fst]. rewrite H.
  apply Z.leb_gt in Hlt. now rewrite Hlt.
Qed.

Lemma Fan_elapse_due now due p tr :
  Fan.debounce p = Some due -> due <= now ->
  Fan.elapse cfg env now (p, tr) =
  Fan.debounced cfg env due (Fan.set_debounce None p, tr).
Proof.
  intros H Hle. unfold Fan.elapse. cbn [fst]. rewrite H.
  apply Z.leb_le in Hle. now rewrite Hle.
Qed.

Lemma Fan_handle_OnSet_Active now value p tr :
  Fan.handle StringToNumber cfg env now (Fan.OnSet_Active value) (p, tr) =
  (Fan.set_debounce (Some (now + Fan.pushRate_ms cfg))
     (Fan.set_this
        (Fan.set_plugUpdateInProgress true (Fan.set_Active value (Fan.this p))) p),
   tr).
Proof. reflexivity. Qed.

(** The debounced subscriber on the OpenAPI transport. *)
Lemma Fan_debounced_OpenAPI now p tr :
  overOpenAPI cfg ->
  Fan.debounced cfg env now (p, tr) =
  (Fan.set_this (Fan.set_plugUpdateInProgress false (Fan.this p))
     (Fan.set_confirmations (S (Fan.confirmations p)) p),
   tr ++ Call Method.pushChanges ::
         effects (Fan.openAPIpushChanges (commandReply env now)) (Fan.this p) ++
         [SubscribeTake1 15000]).
Proof.
  intros (He & Hb & Ho & Ht).
  unfold Fan.debounced, Fan.pushChanges. rewrite He, Hb, Ho, Ht.
  cbn [negb andb fst snd].
  rewrite Fan_openAPIpushChanges_frame.
  unfold emit, Fan.lift, assign. cbn [fst snd].
  destruct p. cbn. rewrite <- !app_assoc. reflexivity.
Qed.

End PipelineLemmas.

Lemma Fan_debounced_BLE cfg env now p tr ad :
  overBLE cfg ->
  connectBLE env now = Driver ad ->
  bleReply env now = BleResolved ->
  Fan.debounced cfg env now (p, tr) =
  if strict_eq (Fan.Active (Fan.this p)) (Fan.context_Active (Fan.this p))
  then (Fan.set_this (Fan.set_plugUpdateInProgress false (Fan.this p))
          (Fan.set_confirmations (S (Fan.confirmations p)) p),
        tr ++ [Call Method.pushChanges; Call Method.BLEpushChanges;
               SubscribeTake1 15000])
  else (Fan.set_this
          (Fan.set_Active (JBool false)
             (Fan.set_plugUpdateInProgress false (Fan.this p)))
          (Fan.set_confirmations (S (Fan.confirmations p)) p),
        tr ++ [Call Method.pushChanges; Call Method.BLEpushChanges;
               SubscribeTake1 15000; bleCommandFor (Fan.Active (Fan.this p))]).
Proof.
  intros (Hfirst & Hble) Hsb Hok.
  assert (Hbranch : negb (Fan.enableCloudService cfg) && Fan.OpenAPI cfg = false).
  { destruct Hfirst as [-> | ->]; [reflexivity|apply andb_false_r]. }
  unfold Fan.debounced, Fan.pushChanges, Fan.BLEpushChanges.
  rewrite Hbranch, Hble, Hsb, Hok. cbn [fst snd emit].
  destruct (strict_eq (Fan.Active (Fan.this p)) (Fan.context_Active (Fan.this p)));
    cbn [negb fst snd];
    unfold Fan.lift, Fan.BLEpushChanges_chain, bleCommandFor, seq, assign, emit;
    cbn [fst snd]; destruct p as [o tk db cf]; cbn.
  - rewrite <- !app_assoc. reflexivity.
  - destruct (truthy (Fan.Active o)); cbn; rewrite <- !app_assoc; reflexivity.
Qed.

Lemma dispatches_app (a b : list effect) :
  dispatches (a ++ b) = dispatches a ++ dispatches b.
Proof. apply filter_app. Qed.

Lemma calls_app (m : Method.t) (a b : list effect) :
  (calls m (a ++ b) = calls m a + calls m b)%nat.
Proof. unfold calls. now rewrite filter_app, length_app. Qed.

(** What one run of [Fan.openAPIpushChanges] dispatches. *)
Lemma Fan_openAPIpushChanges_dispatches (r : reply) (f : Fan.t) :
  dispatches (effects (Fan.openAPIpushChanges r) f) =
  (if strict_eq (Fan.Active f) (Fan.context_Active f) then []
   else [commandFor (Fan.Active f)]) /\
  calls Method.pushChanges (effects (Fan.openAPIpushChanges r) f) = O.
Proof.
  rewrite Fan_openAPIpushChanges_effects.
  destruct (strict_eq (Fan.Active f) (Fan.context_Active f));
    [|destruct r as [sc ds|e]; [destruct (dualStatusOk sc ds)|]];
    split; reflexivity.
Qed.

(** ** Debounced writes *)

(** C2, as the code has it.  Two ActiveSet calls on a fan within one
    debounce window lead to exactly one run of [pushChanges], on a
    transport that takes the command; it dispatches one command, the one
    for the value of the second call, when that value differs from the
    published one, and nothing when it is the same. *)
Theorem debounce_coalesces_two_calls :
  forall (StringToNumber : string -> number) (cfg : Fan.config) (env : environment)
         (o : Fan.t) (v1 v2 : jsval) (t1 t2 : Z),
    t1 <= t2 < t1 + Fan.pushRate_ms cfg ->
    transport_answers cfg env (t2 + Fan.pushRate_ms cfg) ->
    calls Method.pushChanges
      (snd (Fan.settle cfg env
              (Fan.run StringToNumber cfg env
                 [(t1, Fan.OnSet_Active v1); (t2, Fan.OnSet_Active v2)]
                 (Fan.subscribe o)))) = 1%nat /\
    dispatches
      (snd (Fan.settle cfg env
              (Fan.run StringToNumber cfg env
                 [(t1, Fan.OnSet_Active v1); (t2, Fan.OnSet_Active v2)]
                 (Fan.subscribe o)))) =
      (if strict_eq v2 (Fan.context_Active o) then [] else [sends cfg v2]).
Proof.
  intros S2N cfg env o v1 v2 t1 t2 [H12 Hwin] Htr.
  unfold Fan.run, Fan.step, seq, skip, Fan.subscribe. cbn [fst snd].
  rewrite Fan_elapse_idle by reflexivity.
  rewrite Fan_handle_OnSet_Active.
  rewrite (Fan_elapse_early cfg env t2 (t1 + Fan.pushRate_ms cfg))
    by (reflexivity || assumption).
  rewrite Fan_handle_OnSet_Active.
  unfold Fan.settle. cbn [fst Fan.debounce Fan.set_debounce].
  rewrite (Fan_elapse_due cfg env _ (t2 + Fan.pushRate_ms cfg))
    by (reflexivity || apply Z.le_refl).
  destruct Htr as [Hcfg | (Hcfg & (ad & Hsb) & Hok)].
  - rewrite Fan_debounced_OpenAPI by assumption.
    cbn [snd app].
    destruct (Fan_openAPIpushChanges_dispatches
                (commandReply env (t2 + Fan.pushRate_ms cfg))
                (Fan.set_plugUpdateInProgress true
                   (Fan.set_Active v2
                      (Fan.set_plugUpdateInProgress true (Fan.set_Active v1 o)))))
      as [Hd Hc].
    cbn [Fan.this Fan.set_this Fan.set_debounce].
    change (Call Method.pushChanges :: ?l) with ([Call Method.pushChanges] ++ l).
    rewrite !calls_app, !dispatches_app, Hc, Hd.
    cbn [Fan.Active Fan.context_Active Fan.set_plugUpdateInProgress Fan.set_Active].
    unfold sends. destruct Hcfg as (_ & -> & _ & _).
    split; [reflexivity|].
    destruct (strict_eq v2 (Fan.context_Active o)); reflexivity.
  - rewrite (Fan_debounced_BLE cfg env _ _ _ ad Hcfg Hsb Hok).
    cbn [Fan.this Fan.set_this Fan.set_debounce
         Fan.Active Fan.context_Active Fan.set_plugUpdateInProgress Fan.set_Active].
    unfold sends, bleCommandFor. destruct Hcfg as (_ & ->).
    destruct (strict_eq v2 (Fan.context_Active o)); cbn [snd app];
      destruct (truthy v2); split; reflexivity.
Qed.

Lemma debounce_coalesces_two_calls_witness :
  0 <= 50 < 0 + Fan.pushRate_ms Sample.fanConfig /\
  transport_answers Sample.fanConfig (Sample.cloud 100)
    (50 + Fan.pushRate_ms Sample.fanConfig) /\
  dispatches
    (snd (Fan.settle Sample.fanConfig (Sample.cloud 100)
            (Fan.run digitsToNumber Sample.fanConfig (Sample.cloud 100)
               [(0, Fan.OnSet_Active (num 0)); (50, Fan.OnSet_Active (num 1))]
               (Fan.subscribe (fst Sample.fan0))))) = [commandFor (num 1)].
Proof.
  split; [cbn; lia|]. split; [left; repeat split|].
  apply (debounce_coalesces_two_calls digitsToNumber Sample.fanConfig
           (Sample.cloud 100) (fst Sample.fan0) (num 0) (num 1) 0 50).
  - cbn. lia.
  - left. repeat split.
Defined.

(** C2 as stated fails: the fan is off and published as off; the user
    switches it on and, 50 ms later and within the 100 ms window, off
    again.  [pushChanges] runs once and dispatches nothing. *)
Lemma two_calls_without_dispatch :
  0 <= 50 < 0 + Fan.pushRate_ms Sample.fanConfig /\
  calls Method.pushChanges (snd Sample.fanOnOff) = 1%nat /\
  dispatches (snd Sample.fanOnOff) = [].
Proof. split; [cbn; lia|]. split; reflexivity. Qed.

(** ** The confirmation refresh *)

Lemma Vacuum_pushChanges_effects cfg (r : reply) (v : RobotVacuumCleaner.t) :
  effects (RobotVacuumCleaner.pushChanges cfg r) v =
  (Call Method.pushChanges ::
   (if negb (RobotVacuumCleaner.enableCloudService cfg) && RobotVacuumCleaner.OpenAPI cfg
    then []
    else if RobotVacuumCleaner.OpenAPI cfg && RobotVacuumCleaner.token cfg
    then effects (RobotVacuumCleaner.openAPIpushChanges r) v
    else Call Method.offlineOff ::
         (if RobotVacuumCleaner.offline cfg
          then [UpdateCharacteristic Characteristic.On (JBool false)] else []))) ++
  [SubscribeTake1 15000].
Proof.
  unfold RobotVacuumCleaner.pushChanges.
  destruct (negb (RobotVacuumCleaner.enableCloudService cfg) &&
            RobotVacuumCleaner.OpenAPI cfg); [reflexivity|].
  destruct (RobotVacuumCleaner.OpenAPI cfg && RobotVacuumCleaner.token cfg).
  - rewrite Vacuum_openAPIpushChanges_effects.
    unfold effects, RobotVacuumCleaner.openAPIpushChanges,
      RobotVacuumCleaner.handleCommandReply, RobotVacuumCleaner.commands, seq.
    cbn.
    destruct (strict_eq (RobotVacuumCleaner.On v) (RobotVacuumCleaner.context_On v));
      cbn; [reflexivity|].
    destruct (truthy (RobotVacuumCleaner.On v));
      (destruct r as [sc ds|e]; [destruct (dualStatusOk sc ds)|]; reflexivity).
  - unfold effects, RobotVacuumCleaner.offlineOff, seq.
    destruct (RobotVacuumCleaner.offline cfg); reflexivity.
Qed.

Lemma Fan_pushChanges_OpenAPI cfg (switchbot : driver) (r : reply) (f : Fan.t) :
  overOpenAPI cfg ->
  Fan.pushChanges cfg switchbot r (f, []) =
  (Fan.Normal,
   (f, (Call Method.pushChanges :: effects (Fan.openAPIpushChanges r) f) ++
       [SubscribeTake1 15000])).
Proof.
  intros (He & Hb & Ho & Ht).
  unfold Fan.pushChanges. rewrite He, Hb, Ho, Ht. cbn [negb andb].
  rewrite Fan_openAPIpushChanges_frame. reflexivity.
Qed.

Lemma Fan_push_no_subscription (r : reply) (f : Fan.t) :
  ~ In (SubscribeTake1 15000) (effects (Fan.openAPIpushChanges r) f).
Proof.
  rewrite Fan_openAPIpushChanges_effects.
  destruct (strict_eq (Fan.Active f) (Fan.context_Active f));
    [|destruct r as [sc ds|e]; [destruct (dualStatusOk sc ds)|]];
    cbn; intuition congruence.
Qed.

Lemma Vacuum_push_no_subscription (r : reply) (v : RobotVacuumCleaner.t) :
  ~ In (SubscribeTake1 15000) (effects (RobotVacuumCleaner.openAPIpushChanges r) v).
Proof.
  rewrite Vacuum_openAPIpushChanges_effects.
  destruct (strict_eq (RobotVacuumCleaner.On v) (RobotVacuumCleaner.context_On v));
    [|destruct r as [sc ds|e]; [destruct (dualStatusOk sc ds)|]];
    cbn; intuition congruence.
Qed.

Lemma Vacuum_brightness_no_subscription (r : reply) (v : RobotVacuumCleaner.t) :
  ~ In (SubscribeTake1 15000)
      (effects (RobotVacuumCleaner.openAPIpushBrightnessChanges r) v).
Proof.
  unfold effects, RobotVacuumCleaner.openAPIpushBrightnessChanges,
    RobotVacuumCleaner.handleCommandReply, RobotVacuumCleaner.brightnessCommands,
    RobotVacuumCleaner.apiError, statusCode, seq, emit, skip.
  cbn [fst snd].
  destruct (strict_eq (RobotVacuumCleaner.Brightness v) (num 25));
    [|destruct (strict_eq (RobotVacuumCleaner.Brightness v) (num 50));
      [|destruct (strict_eq (RobotVacuumCleaner.Brightness v) (num 75));
        [|destruct (strict_eq (RobotVacuumCleaner.Brightness v) (num 100))]]];
    (destruct r as [sc ds|e]; [destruct (dualStatusOk sc ds)|]);
    cbn; intuition congruence.
Qed.

(** C8, as the code has it.  Every run of [pushChanges] of the fan on
    the OpenAPI transport and of the vacuum cleaner, whatever the answer
    to the command, ends by subscribing one one-shot confirmation timer
    of period 15000 ms; the debounced subscriber of the fan then holds
    one more pending confirmation, and a tick of it that finds the
    in-progress flag clear runs [refreshStatus] and ends it, while a tick
    that finds the flag set leaves it pending.  The brightness push of
    the vacuum cleaner subscribes no such timer. *)
Theorem pushChanges_subscribes_confirmation :
  forall (StringToNumber : string -> number)
         (cfg : Fan.config) (vcfg : RobotVacuumCleaner.config) (env : environment)
         (switchbot : driver) (r : reply) (f : Fan.t) (v : RobotVacuumCleaner.t)
         (p : Fan.pipeline) (tr : list effect) (now : Z) (n : nat),
    overOpenAPI cfg ->
    Fan.confirmations p = S n ->
    confirmation_follows (snd (snd (Fan.pushChanges cfg switchbot r (f, [])))) /\
    confirmation_follows (effects (RobotVacuumCleaner.pushChanges vcfg r) v) /\
    Fan.confirmations (fst (Fan.debounced cfg env now (p, tr))) =
      S (Fan.confirmations p) /\
    (Fan.plugUpdateInProgress (Fan.this p) = false ->
     Fan.confirmations
       (fst (Fan.handle StringToNumber cfg env now Fan.ConfirmationTick (p, tr))) = n /\
     In (Call Method.refreshStatus)
        (snd (Fan.handle StringToNumber cfg env now Fan.ConfirmationTick (p, tr)))) /\
    (Fan.plugUpdateInProgress (Fan.this p) = true ->
     Fan.handle StringToNumber cfg env now Fan.ConfirmationTick (p, tr) = (p, tr)) /\
    ~ In (SubscribeTake1 15000)
        (effects (RobotVacuumCleaner.openAPIpushBrightnessChanges r) v).
Proof.
  intros S2N cfg vcfg env sb r f v p tr now n Hcfg Hn.
  split; [|split; [|split; [|split; [|split]]]].
  - rewrite (Fan_pushChanges_OpenAPI cfg sb r f Hcfg). cbn [snd].
    eexists. split; [reflexivity|].
    intros [H|H]; [discriminate H|]. exact (Fan_push_no_subscription r f H).
  - rewrite Vacuum_pushChanges_effects.
    eexists. split; [reflexivity|].
    intros [H|H]; [discriminate H|]. revert H.
    destruct (negb (RobotVacuumCleaner.enableCloudService vcfg) &&
              RobotVacuumCleaner.OpenAPI vcfg); [intros []|].
    destruct (RobotVacuumCleaner.OpenAPI vcfg && RobotVacuumCleaner.token vcfg).
    + apply Vacuum_push_no_subscription.
    + destruct (RobotVacuumCleaner.offline vcfg); cbn; intuition congruence.
  - rewrite (Fan_debounced_OpenAPI cfg env now p tr Hcfg). reflexivity.
  - intros Hflag. unfold Fan.handle. cbn [fst]. rewrite Hn, Hflag.
    cbn [Rx.skipWhile orb negb]. unfold seq, assign. cbn [fst snd]. split.
    + unfold Fan.refresh, Fan.lift. destruct p; reflexivity.
    + unfold Fan.refresh, Fan.lift. cbn [fst snd]. apply Fan_refreshStatus_calls.
  - intros Hflag. unfold Fan.handle. cbn [fst]. rewrite Hn, Hflag. reflexivity.
  - apply Vacuum_brightness_no_subscription.
Qed.

Lemma pushChanges_subscribes_confirmation_witness :
  overOpenAPI Sample.fanConfig /\
  Fan.confirmations (fst Sample.fanRejected) = 1%nat /\
  confirmation_follows
    (snd (snd (Fan.pushChanges Sample.fanConfig (Driver None)
                 (Replied 200 (Sample.answer 100 Sample.emptyBody))
                 (fst (Fan.ActiveSet (num 1) Sample.fan0), [])))).
Proof.
  split; [repeat split|]. split; [reflexivity|].
  apply (pushChanges_subscribes_confirmation digitsToNumber
           Sample.fanConfig Sample.vacuumConfig (Sample.cloud 100) (Driver None)
           (Replied 200 (Sample.answer 100 Sample.emptyBody))
           (fst (Fan.ActiveSet (num 1) Sample.fan0)) (fst Sample.vacuum0)
           (fst Sample.fanRejected) (snd Sample.fanRejected) 15100 0).
  - repeat split.
  - reflexivity.
Defined.

(** C8 as stated fails: a vacuum cleaner that is on, with Brightness 25
    published, is set to Brightness 50.  The debounced subscriber sends
    PowLevel 1, the command is accepted with statuses 200 and 100, and no
    confirmation timer is subscribed. *)
Lemma brightness_dispatch_without_confirmation :
  bothStatusesOk 200 (Sample.answer 100 Sample.emptyBody) /\
  dispatches (snd Sample.vacuumBrighter) = [PostCommand "PowLevel" "1" "command"] /\
  ~ In (SubscribeTake1 15000) (snd Sample.vacuumBrighter).
Proof.
  split; [apply dualStatusOk_iff; reflexivity|]. split; [reflexivity|].
  vm_compute. intuition congruence.
Qed.

(** ** BLE pushes of the fan *)

(** C10.  When the debounced subscriber of a fan on BLE has a change to
    push and the BLE chain succeeds, the command sent is turnOn or
    turnOff by the truthiness of Active, and Active is false afterwards
    in both cases; so is it after any successful run of the chain. *)
Theorem ble_push_success_clears_Active :
  forall (cfg : Fan.config) (env : environment) (now : Z)
         (p : Fan.pipeline) (tr : list effect) (r : reply) (w : world Fan.t)
         (ad : option serviceData),
    overBLE cfg ->
    connectBLE env now = Driver ad ->
    bleReply env now = BleResolved ->
    strict_eq (Fan.Active (Fan.this p)) (Fan.context_Active (Fan.this p)) = false ->
    Fan.Active (Fan.this (fst (Fan.debounced cfg env now (p, tr)))) = JBool false /\
    dispatches (snd (Fan.debounced cfg env now (p, tr))) =
      dispatches tr ++ [bleCommandFor (Fan.Active (Fan.this p))] /\
    Fan.Active (fst (Fan.BLEpushChanges_chain cfg BleResolved r w)) = JBool false /\
    snd (Fan.BLEpushChanges_chain cfg BleResolved r w) =
      snd w ++ [bleCommandFor (Fan.Active (fst w))].
Proof.
  intros cfg env now p tr r w ad Hcfg Hsb Hok Hchanged.
  rewrite (Fan_debounced_BLE cfg env now p tr ad Hcfg Hsb Hok), Hchanged.
  cbn [fst snd Fan.this Fan.set_this]. rewrite dispatches_app.
  split; [reflexivity|]. split.
  - unfold bleCommandFor. destruct (truthy (Fan.Active (Fan.this p))); reflexivity.
  - unfold Fan.BLEpushChanges_chain, bleCommandFor, seq, assign, emit.
    destruct (truthy (Fan.Active (fst w))); split; reflexivity.
Qed.

Lemma ble_push_success_clears_Active_witness :
  overBLE Sample.fanConfigBLE /\
  connectBLE (Sample.cloud 100) 100 = Driver None /\
  bleReply (Sample.cloud 100) 100 = BleResolved /\
  strict_eq (Fan.Active (Fan.this (fst Sample.fanSetOn)))
    (Fan.context_Active (Fan.this (fst Sample.fanSetOn))) = false /\
  Fan.Active
    (Fan.this (fst (Fan.debounced Sample.fanConfigBLE (Sample.cloud 100) 100
                      Sample.fanSetOn))) = JBool false.
Proof.
  split; [split; [left|]; reflexivity|].
  split; [reflexivity|]. split; [reflexivity|]. split; [reflexivity|].
  apply (ble_push_success_clears_Active Sample.fanConfigBLE (Sample.cloud 100) 100
           (fst Sample.fanSetOn) (snd Sample.fanSetOn)
           (Replied 200 (Sample.answer 100 Sample.emptyBody)) Sample.fan0 None).
  - split; [left|]; reflexivity.
  - reflexivity.
  - reflexivity.
  - reflexivity.
Defined.

(** ** The refresh guard *)

(** C1 fails on the code.  A fan is refreshed every 5 s and pushes are
    debounced by 100 ms.  The interval emits at 5000; the user switches
    the fan on at 9950, which raises the in-progress flag until the push
    due at 10050 is done; the interval emits again at 10000.  The flag is
    set, and yet that tick starts a refresh: the latch of [skipWhile]
    opened at the first tick.  The refresh reads the fan as still off
    and overwrites the value the user set, so that the push due at 10050
    finds nothing to send. *)
Theorem refresh_starts_during_write :
  Fan.plugUpdateInProgress (Fan.this (fst Sample.fanWriting)) = true /\
  Fan.debounce (fst Sample.fanWriting) = Some 10050 /\
  calls Method.refreshStatus (snd Sample.fanWriting) = 1%nat /\
  calls Method.refreshStatus
    (snd (Fan.step digitsToNumber Sample.fanConfig (Sample.cloud 100)
            (10000, Fan.IntervalTick) Sample.fanWriting)) = 2%nat /\
  Fan.Active
    (Fan.this (fst (Fan.step digitsToNumber Sample.fanConfig (Sample.cloud 100)
                      (10000, Fan.IntervalTick) Sample.fanWriting))) = num 0 /\
  dispatches
    (snd (Fan.settle Sample.fanConfig (Sample.cloud 100)
            (Fan.step digitsToNumber Sample.fanConfig (Sample.cloud 100)
               (10000, Fan.IntervalTick) Sample.fanWriting))) = [].
Proof. repeat split. Qed.

(** The guard in general: a tick is dropped only while the latch is
    still closed; once a tick has passed, every tick starts a refresh,
    whatever the flag. *)
Lemma interval_tick_guard :
  forall (StringToNumber : string -> number) (cfg : Fan.config) (env : environment)
         (now : Z) (p : Fan.pipeline) (tr : list effect),
    (Fan.taking p = false -> Fan.plugUpdateInProgress (Fan.this p) = true ->
     Fan.handle StringToNumber cfg env now Fan.IntervalTick (p, tr) = (p, tr)) /\
    (Fan.taking p = true ->
     Fan.taking (fst (Fan.handle StringToNumber cfg env now Fan.IntervalTick (p, tr))) = true /\
     In (Call Method.refreshStatus)
        (snd (Fan.handle StringToNumber cfg env now Fan.IntervalTick (p, tr)))).
Proof.
  intros S2N cfg env now p tr. split.
  - intros Ht Hf. unfold Fan.handle. cbn [fst]. now rewrite Ht, Hf.
  - intros Ht. unfold Fan.handle. cbn [fst]. rewrite Ht. cbn [Rx.skipWhile orb].
    unfold seq, assign, Fan.refresh, Fan.lift. cbn [fst snd]. split.
    + destruct p; reflexivity.
    + apply Fan_refreshStatus_calls.
Qed.

(* ================================================================== *)
(** * Further properties *)

(** ** Helper lemmas: what an action adds and what it leaves *)

Lemma adds_emit {O : Type} (P : effect -> bool) (e : effect) :
  P e = true -> adds P (@emit O e).
Proof. intros He w. exists [e]. split; [reflexivity|]. cbn. now rewrite He. Qed.

Lemma adds_assign {O : Type} (P : effect -> bool) (f : O -> O) :
  adds P (assign f).
Proof. intros w. exists []. split; [cbn; now rewrite app_nil_r|reflexivity]. Qed.

Lemma adds_skip {O : Type} (P : effect -> bool) : adds P (@skip O).
Proof. intros w. exists []. split; [cbn; now rewrite app_nil_r|reflexivity]. Qed.

Lemma adds_seq {O : Type} (P : effect -> bool) (a b : action O) :
  adds P a -> adds P b -> adds P (a ;; b).
Proof.
  intros Ha Hb w. unfold seq.
  destruct (Ha w) as (t1 & E1 & H1). destruct (Hb (a w)) as (t2 & E2 & H2).
  exists (t1 ++ t2). split.
  - now rewrite E2, E1, app_assoc.
  - now rewrite forallb_app, H1, H2.
Qed.

Lemma adds_if {O : Type} (P : effect -> bool) (c : bool) (a b : action O) :
  adds P a -> adds P b -> adds P (if c then a else b).
Proof. destruct c; auto. Qed.

Lemma adds_guard {O : Type} (P : effect -> bool) (c : O -> bool) (a : action O) :
  adds P a -> adds P (fun w => if c (fst w) then a w else w).
Proof.
  intros Ha w. destruct (c (fst w)); [apply Ha|].
  exists []. split; [now rewrite app_nil_r|reflexivity].
Qed.

Lemma adds_weaken {O : Type} (P Q : effect -> bool) (a : action O) :
  (forall e, P e = true -> Q e = true) -> adds P a -> adds Q a.
Proof.
  intros HPQ Ha w. destruct (Ha w) as (tr & E & H). exists tr. split; [exact E|].
  rewrite forallb_forall in *. auto.
Qed.

Lemma adds_extends {O : Type} (P : effect -> bool) (a : action O) :
  adds P a -> extends a.
Proof. intros Ha w. destruct (Ha w) as (tr & E & _). now exists tr. Qed.

Lemma adds_all {O : Type} (P : effect -> bool) (a : action O) (w : world O) :
  adds P a -> forallb P (snd w) = true -> forallb P (snd (a w)) = true.
Proof.
  intros Ha H. destruct (Ha w) as (tr & E & Htr).
  now rewrite E, forallb_app, H, Htr.
Qed.

Ltac adds_tac :=
  repeat match goal with
    | |- adds _ (seq _ _) => apply adds_seq
    | |- adds _ (emit _) => apply adds_emit; reflexivity
    | |- adds _ (assign _) => apply adds_assign
    | |- adds _ skip => apply adds_skip
    | |- adds _ (if _ then _ else _) => apply adds_if
    end.

Lemma preserves_emit {O A : Type} (g : O -> A) (e : effect) :
  preserves g (emit e).
Proof. intros w. reflexivity. Qed.

Lemma preserves_assign {O A : Type} (g : O -> A) (f : O -> O) :
  (forall o, g (f o) = g o) -> preserves g (assign f).
Proof. intros H w. apply H. Qed.

Lemma preserves_skip {O A : Type} (g : O -> A) : preserves g skip.
Proof. intros w. reflexivity. Qed.

Lemma preserves_seq {O A : Type} (g : O -> A) (a b : action O) :
  preserves g a -> preserves g b -> preserves g (a ;; b).
Proof. intros Ha Hb w. unfold seq. now rewrite Hb, Ha. Qed.

Lemma preserves_if {O A : Type} (g : O -> A) (c : bool) (a b : action O) :
  preserves g a -> preserves g b -> preserves g (if c then a else b).
Proof. destruct c; auto. Qed.

Ltac preserves_tac :=
  repeat match goal with
    | |- preserves _ (seq _ _) => apply preserves_seq
    | |- preserves _ (emit _) => apply preserves_emit
    | |- preserves _ (assign _) => apply preserves_assign; intros ?; reflexivity
    | |- preserves _ skip => apply preserves_skip
    | |- preserves _ (if _ then _ else _) => apply preserves_if
    end.

Lemma firmwareVersion_adds {O : Type} (b : statusBody) :
  adds refresh_effect (@firmwareVersion O b).
Proof. unfold firmwareVersion. adds_tac. Qed.

Lemma firmwareVersion_preserves {O A : Type} (g : O -> A) (b : statusBody) :
  preserves g (@firmwareVersion O b).
Proof. unfold firmwareVersion. preserves_tac. Qed.

Lemma calls_extends {O : Type} (a : action O) (m : Method.t) (w : world O) :
  extends a -> (calls m (snd w) <= calls m (snd (a w)))%nat.
Proof.
  intros Ha. destruct (Ha w) as [tr E]. rewrite E, calls_app. lia.
Qed.

Lemma refresh_effect_quiet (tr : list effect) :
  forallb refresh_effect tr = true ->
  dispatches tr = [] /\ ~ In (SubscribeTake1 15000) tr.
Proof.
  induction tr as [|e tr IH]; [intros _; split; [reflexivity|intros []]|].
  cbn [forallb]. intros H. apply andb_true_iff in H. destruct H as [He Ht].
  destruct (IH Ht) as [Hd Hs]. split.
  - unfold dispatches in *. cbn [filter].
    destruct e; try discriminate He; cbn [is_dispatch]; exact Hd.
  - intros [E|Hin]; [subst e; discriminate He|auto].
Qed.

Lemma refresh_effect_fan (e : effect) :
  refresh_effect e = true -> fan_effect e = true.
Proof. destruct e; cbn; intros H; try discriminate H; auto. Qed.

(** ** Helper lemmas: the effects of the fan *)

Section FanEffects.
Variable StringToNumber : string -> number.
Variable cfg : Fan.config.
Variable env : environment.

Lemma Fan_publish_adds c get set : adds refresh_effect (Fan.publish c get set).
Proof.
  intros w. unfold Fan.publish.
  destruct (strict_eq (get (fst w)) JUndefined) eqn:E.
  - exists []. split; [now rewrite app_nil_r|reflexivity].
  - eexists. unfold seq, assign, emit. cbn [fst snd].
    split; [reflexivity|]. cbn. now rewrite E.
Qed.

Lemma Fan_updateHomeKit_adds :
  adds refresh_effect Fan.updateHomeKitCharacteristics.
Proof.
  unfold Fan.updateHomeKitCharacteristics.
  repeat first [apply Fan_publish_adds | adds_tac].
Qed.

Lemma Fan_parse_adds ds :
  adds refresh_effect (Fan.openAPIparseStatus StringToNumber ds).
Proof.
  unfold Fan.openAPIparseStatus. cbv zeta.
  repeat first [apply firmwareVersion_adds | adds_tac].
Qed.

Lemma Fan_apiError_adds e : adds refresh_effect (Fan.apiError e).
Proof. unfold Fan.apiError. adds_tac. Qed.

Lemma Fan_offlineOff_adds : adds refresh_effect (Fan.offlineOff cfg).
Proof. unfold Fan.offlineOff. adds_tac. Qed.

Lemma Fan_openAPIRefreshStatus_adds r :
  adds refresh_effect (Fan.openAPIRefreshStatus StringToNumber r).
Proof.
  unfold Fan.openAPIRefreshStatus, statusCode.
  destruct r as [sc ds|e];
    repeat first
      [ apply Fan_parse_adds | apply Fan_updateHomeKit_adds
      | apply Fan_apiError_adds | adds_tac ].
Qed.

Lemma Fan_refreshStatus_adds switchbot r :
  adds refresh_effect (Fan.refreshStatus StringToNumber cfg switchbot r).
Proof.
  unfold Fan.refreshStatus, Fan.BLERefreshStatus, Fan.BLERefreshConnection,
    Fan.BLEparseStatus.
  destruct switchbot as [| |[sd|]];
    repeat first
      [ apply Fan_openAPIRefreshStatus_adds | apply Fan_updateHomeKit_adds
      | apply Fan_offlineOff_adds | adds_tac ].
Qed.

Lemma Fan_webhook_adds context :
  adds refresh_effect (Fan.webhookEventHandler context).
Proof.
  unfold Fan.webhookEventHandler.
  repeat first [apply Fan_updateHomeKit_adds | adds_tac].
Qed.

Lemma Fan_openAPIpushChanges_adds r : adds fan_effect (Fan.openAPIpushChanges r).
Proof.
  intros w. eexists. rewrite Fan_openAPIpushChanges_frame. split; [reflexivity|].
  rewrite Fan_openAPIpushChanges_effects.
  destruct (strict_eq (Fan.Active (fst w)) (Fan.context_Active (fst w)));
    [reflexivity|].
  destruct (truthy (Fan.Active (fst w)));
    (destruct r as [sc ds|e]; [destruct (dualStatusOk sc ds)|]); reflexivity.
Qed.

Lemma Fan_chain_adds b r : adds fan_effect (Fan.BLEpushChanges_chain cfg b r).
Proof.
  unfold Fan.BLEpushChanges_chain, Fan.BLEPushConnection.
  apply adds_seq.
  - intros w. destruct (truthy (Fan.Active (fst w)));
      eexists; (split; [reflexivity|reflexivity]).
  - destruct b;
      repeat first
        [ apply (adds_weaken _ _ _ refresh_effect_fan), Fan_apiError_adds
        | apply Fan_openAPIpushChanges_adds | adds_tac ].
Qed.

Lemma Fan_pushChanges_adds switchbot r w :
  exists tr,
    snd (snd (Fan.pushChanges cfg switchbot r w)) = snd w ++ tr /\
    forallb fan_effect tr = true.
Proof.
  assert (H0 : adds fan_effect (emit (O := Fan.t) (Call Method.pushChanges) ;;
                                emit (SubscribeTake1 15000))) by adds_tac.
  assert (H1 : adds fan_effect (emit (O := Fan.t) (Call Method.pushChanges) ;;
                                emit (Call Method.BLEpushChanges) ;;
                                emit (SubscribeTake1 15000))) by adds_tac.
  assert (H2 : adds fan_effect (emit (O := Fan.t) (Call Method.pushChanges) ;;
                                emit (Call Method.BLEpushChanges))) by adds_tac.
  assert (H3 : adds fan_effect (emit (Call Method.pushChanges) ;;
                                Fan.openAPIpushChanges r ;;
                                emit (SubscribeTake1 15000)))
    by (repeat first [apply Fan_openAPIpushChanges_adds | adds_tac]).
  assert (H4 : adds fan_effect (emit (Call Method.pushChanges) ;;
                                Fan.offlineOff cfg ;;
                                emit (SubscribeTake1 15000)))
    by (repeat first
          [ apply (adds_weaken _ _ _ refresh_effect_fan), Fan_offlineOff_adds
          | adds_tac ]).
  unfold Fan.pushChanges, Fan.BLEpushChanges.
  destruct (negb (Fan.enableCloudService cfg) && Fan.OpenAPI cfg); [exact (H0 w)|].
  destruct (Fan.BLE cfg).
  - cbv zeta.
    destruct (negb (strict_eq
                      (Fan.Active (fst (emit (Call Method.BLEpushChanges)
                                          (emit (Call Method.pushChanges) w))))
                      (Fan.context_Active (fst (emit (Call Method.BLEpushChanges)
                                                  (emit (Call Method.pushChanges) w)))))).
    + destruct switchbot; [exact (H2 w)|exact (H2 w)|exact (H1 w)].
    + exact (H1 w).
  - destruct (Fan.OpenAPI cfg && Fan.token cfg); [exact (H3 w)|exact (H4 w)].
Qed.

Lemma Fan_lift_snd (a : action Fan.t) (w : world Fan.pipeline) :
  snd (Fan.lift a w) = snd (a (Fan.this (fst w), snd w)).
Proof. reflexivity. Qed.

Lemma Fan_lift_adds P (a : action Fan.t) : adds P a -> adds P (Fan.lift a).
Proof.
  intros Ha w. rewrite Fan_lift_snd.
  destruct (Ha (Fan.this (fst w), snd w)) as (tr & E & H). now exists tr.
Qed.

Lemma Fan_debounced_adds now : adds fan_effect (Fan.debounced cfg env now).
Proof.
  intros w. unfold Fan.debounced.
  destruct (Fan_pushChanges_adds (connectBLE env now) (commandReply env now)
              (Fan.this (fst w), snd w)) as (tr & E & H).
  destruct (Fan.pushChanges cfg (connectBLE env now) (commandReply env now)
              (Fan.this (fst w), snd w)) as [c w1].
  cbn [snd] in E.
  destruct c as [| |e].
  - exists tr. split; [exact E|exact H].
  - match goal with
    | |- context [Fan.lift (Fan.BLEpushChanges_chain ?c ?b ?r) ?W] =>
        destruct (Fan_lift_adds _ _ (Fan_chain_adds b r) W) as (tr2 & E2 & H2)
    end.
    rewrite E2. cbn [snd Fan.lift assign fst]. rewrite E.
    exists (tr ++ tr2). split; [now rewrite app_assoc|].
    now rewrite forallb_app, H, H2.
  - rewrite Fan_lift_snd. cbn [assign snd fst]. rewrite Fan_lift_snd.
    match goal with
    | |- context [Fan.apiError e ?W] =>
        destruct (adds_weaken _ _ _ refresh_effect_fan (Fan_apiError_adds e) W)
          as (tr2 & E2 & H2)
    end.
    rewrite E2. cbn [snd]. rewrite E.
    exists (tr ++ tr2). split; [now rewrite app_assoc|].
    now rewrite forallb_app, H, H2.
Qed.

Lemma Fan_elapse_adds now : adds fan_effect (Fan.elapse cfg env now).
Proof.
  intros w. unfold Fan.elapse.
  destruct (Fan.debounce (fst w)) as [due|];
    [|exists []; split; [now rewrite app_nil_r|reflexivity]].
  destruct (due <=? now); [|exists []; split; [now rewrite app_nil_r|reflexivity]].
  unfold seq. apply (Fan_debounced_adds due (assign (Fan.set_debounce None) w)).
Qed.

Lemma Fan_refresh_adds now :
  adds refresh_effect (Fan.refresh StringToNumber cfg env now).
Proof. apply Fan_lift_adds, Fan_refreshStatus_adds. Qed.

Lemma Fan_handle_adds now e :
  adds fan_effect (Fan.handle StringToNumber cfg env now e).
Proof.
  assert (Hr : adds fan_effect (Fan.refresh StringToNumber cfg env now))
    by (apply (adds_weaken _ _ _ refresh_effect_fan), Fan_refresh_adds).
  assert (Hn : forall w : world Fan.pipeline,
             exists tr, snd w = snd w ++ tr /\ forallb fan_effect tr = true)
    by (intros w; exists []; split; [now rewrite app_nil_r|reflexivity]).
  destruct e as [v|v|v| | |context]; cbn [Fan.handle]; intros w.
  - exact (Hn w).
  - exact (Hn w).
  - exact (Hn w).
  - destruct (Rx.skipWhile _ _); [|apply Hn].
    apply (Hr (assign (Fan.set_taking true) w)).
  - destruct (Fan.confirmations (fst w)); [apply Hn|].
    destruct (Rx.skipWhile _ _); [|apply Hn].
    apply (Hr (assign (Fan.set_confirmations n) w)).
  - apply (Fan_lift_adds _ _
             (adds_weaken _ _ _ refresh_effect_fan (Fan_webhook_adds context))).
Qed.

Lemma Fan_run_adds events :
  adds fan_effect (Fan.run StringToNumber cfg env events).
Proof.
  induction events as [|te rest IH]; cbn [Fan.run].
  - apply adds_skip.
  - unfold Fan.step.
    apply adds_seq; [apply adds_seq; [apply Fan_elapse_adds|apply Fan_handle_adds]|exact IH].
Qed.

Lemma Fan_settle_adds : adds fan_effect (Fan.settle cfg env).
Proof.
  intros w. unfold Fan.settle.
  destruct (Fan.debounce (fst w));
    [|exists []; split; [now rewrite app_nil_r|reflexivity]].
  apply Fan_elapse_adds.
Qed.

Lemma Fan_history_effects events o :
  forallb fan_effect
    (snd (Fan.settle cfg env
            (Fan.run StringToNumber cfg env events (Fan.subscribe o)))) = true.
Proof. apply adds_all, adds_all; auto using Fan_settle_adds, Fan_run_adds. Qed.

End FanEffects.
(** ** What the fan publishes and sends, whatever happens *)

(** X1.  Whatever HomeKit calls, timer emissions and webhook events
    reach a fan, and whatever the transports answer, it never pushes
    [undefined] to a characteristic. *)
Theorem fan_never_publishes_undefined :
  forall (StringToNumber : string -> number) (cfg : Fan.config) (env : environment)
         (events : list (Z * Fan.event)) (o : Fan.t)
         (c : Characteristic.t) (v : jsval),
    In (UpdateCharacteristic c v)
       (snd (Fan.settle cfg env
               (Fan.run StringToNumber cfg env events (Fan.subscribe o)))) ->
    v <> JUndefined.
Proof.
  intros S2N cfg env events o c v Hin.
  pose proof (Fan_history_effects S2N cfg env events o) as H.
  rewrite forallb_forall in H. specialize (H _ Hin). cbn in H.
  intros ->. discriminate H.
Qed.

Lemma fan_never_publishes_undefined_witness :
  In (UpdateCharacteristic Characteristic.Active HAP.Active_INACTIVE)
     (snd (Fan.settle Sample.fanConfig (Sample.cloud 100)
             (Fan.run digitsToNumber Sample.fanConfig (Sample.cloud 100)
                [(0, Fan.WebhookEvent
                       (Sample.contactEvent JUndefined JUndefined JUndefined))]
                (Fan.subscribe (fst Sample.fan0))))) /\
  HAP.Active_INACTIVE <> JUndefined.
Proof.
  split; [vm_compute; tauto|].
  apply (fan_never_publishes_undefined digitsToNumber Sample.fanConfig
           (Sample.cloud 100)
           [(0, Fan.WebhookEvent
                  (Sample.contactEvent JUndefined JUndefined JUndefined))]
           (fst Sample.fan0) Characteristic.Active).
  vm_compute. tauto.
Defined.

(** X2.  Whatever reaches a fan, writes of the rotation speed and of
    the swing mode included, the only commands it hands to a transport
    are turnOn and turnOff: over OpenAPI with parameter "default" and
    command type "command", over BLE as the driver's calls. *)
Theorem fan_sends_only_turnOn_turnOff :
  forall (StringToNumber : string -> number) (cfg : Fan.config) (env : environment)
         (events : list (Z * Fan.event)) (o : Fan.t) (e : effect),
    In e (dispatches
            (snd (Fan.settle cfg env
                    (Fan.run StringToNumber cfg env events (Fan.subscribe o))))) ->
    e = PostCommand "turnOn" "default" "command" \/
    e = PostCommand "turnOff" "default" "command" \/
    e = BleTurnOn \/ e = BleTurnOff.
Proof.
  intros S2N cfg env events o e Hin.
  pose proof (Fan_history_effects S2N cfg env events o) as H.
  unfold dispatches in Hin. apply filter_In in Hin. destruct Hin as [Hin Hd].
  rewrite forallb_forall in H. specialize (H _ Hin).
  destruct e as [m|c v|c m|v|v| |command parameter commandType| | | |period];
    try discriminate Hd; auto.
  cbn in H. apply andb_true_iff in H. destruct H as [H Ht].
  apply andb_true_iff in H. destruct H as [Hc Hp].
  apply String.eqb_eq in Ht, Hp. subst.
  apply orb_true_iff in Hc. destruct Hc as [Hc|Hc]; apply String.eqb_eq in Hc; subst; auto.
Qed.

Lemma fan_sends_only_turnOn_turnOff_witness :
  In (PostCommand "turnOn" "default" "command")
     (dispatches
        (snd (Fan.settle Sample.fanConfig (Sample.cloud 100)
                (Fan.run digitsToNumber Sample.fanConfig (Sample.cloud 100)
                   [(0, Fan.OnSet_RotationSpeed (num 40));
                    (10, Fan.OnSet_Active (num 1))]
                   (Fan.subscribe (fst Sample.fan0)))))) /\
  (PostCommand "turnOn" "default" "command" = PostCommand "turnOn" "default" "command" \/
   PostCommand "turnOn" "default" "command" = PostCommand "turnOff" "default" "command" \/
   PostCommand "turnOn" "default" "command" = BleTurnOn \/
   PostCommand "turnOn" "default" "command" = BleTurnOff).
Proof.
  split; [vm_compute; tauto|].
  apply (fan_sends_only_turnOn_turnOff digitsToNumber Sample.fanConfig
           (Sample.cloud 100)
           [(0, Fan.OnSet_RotationSpeed (num 40)); (10, Fan.OnSet_Active (num 1))]
           (fst Sample.fan0)).
  vm_compute. tauto.
Defined.

(** ** Helper lemmas: the fan's flag and latch *)

Section FanFlag.
Variable StringToNumber : string -> number.
Variable cfg : Fan.config.
Variable env : environment.

Lemma Fan_publish_flag c get set :
  (forall v o, Fan.plugUpdateInProgress (set v o) = Fan.plugUpdateInProgress o) ->
  preserves Fan.plugUpdateInProgress (Fan.publish c get set).
Proof.
  intros Hs w. unfold Fan.publish.
  destruct (strict_eq (get (fst w)) JUndefined); [reflexivity|].
  unfold seq, assign, emit. cbn [fst snd]. apply Hs.
Qed.

Lemma Fan_updateHomeKit_flag :
  preserves Fan.plugUpdateInProgress Fan.updateHomeKitCharacteristics.
Proof.
  unfold Fan.updateHomeKitCharacteristics.
  repeat first [apply Fan_publish_flag; intros; reflexivity | preserves_tac].
Qed.

Lemma Fan_parse_flag ds :
  preserves Fan.plugUpdateInProgress (Fan.openAPIparseStatus StringToNumber ds).
Proof.
  unfold Fan.openAPIparseStatus. cbv zeta.
  repeat first [apply firmwareVersion_preserves | preserves_tac].
Qed.

Lemma Fan_apiError_flag e : preserves Fan.plugUpdateInProgress (Fan.apiError e).
Proof. unfold Fan.apiError. preserves_tac. Qed.

Lemma Fan_openAPIRefreshStatus_flag r :
  preserves Fan.plugUpdateInProgress (Fan.openAPIRefreshStatus StringToNumber r).
Proof.
  unfold Fan.openAPIRefreshStatus, statusCode.
  destruct r as [sc ds|e];
    repeat first
      [ apply Fan_parse_flag | apply Fan_updateHomeKit_flag
      | apply Fan_apiError_flag | preserves_tac ].
Qed.

Lemma Fan_refreshStatus_flag switchbot r :
  preserves Fan.plugUpdateInProgress
    (Fan.refreshStatus StringToNumber cfg switchbot r).
Proof.
  unfold Fan.refreshStatus, Fan.BLERefreshStatus, Fan.BLERefreshConnection,
    Fan.BLEparseStatus, Fan.offlineOff.
  destruct switchbot as [| |[sd|]];
    repeat first
      [ apply Fan_openAPIRefreshStatus_flag | apply Fan_updateHomeKit_flag
      | preserves_tac ].
Qed.

Lemma Fan_webhook_flag context :
  preserves Fan.plugUpdateInProgress (Fan.webhookEventHandler context).
Proof.
  unfold Fan.webhookEventHandler.
  repeat first [apply Fan_updateHomeKit_flag | preserves_tac].
Qed.

Lemma Fan_openAPIpushChanges_fst r w : fst (Fan.openAPIpushChanges r w) = fst w.
Proof. now rewrite Fan_openAPIpushChanges_frame. Qed.

Lemma Fan_chain_flag b r :
  preserves Fan.plugUpdateInProgress (Fan.BLEpushChanges_chain cfg b r).
Proof.
  intros w. unfold Fan.BLEpushChanges_chain, Fan.BLEPushConnection, seq.
  set (w1 := (if truthy (Fan.Active (fst w)) then emit BleTurnOn else emit BleTurnOff) w).
  assert (E1 : fst w1 = fst w) by (subst w1; destruct (truthy (Fan.Active (fst w))); reflexivity).
  destruct b as [|e].
  - cbn. now rewrite E1.
  - destruct (Fan.token cfg && String.eqb (Fan.connectionType cfg) "BLE/OpenAPI").
    + rewrite Fan_openAPIpushChanges_fst, Fan_apiError_flag. now rewrite E1.
    + unfold skip. rewrite Fan_apiError_flag. now rewrite E1.
Qed.

(** The subscriber of the debounced subject touches [this] and the
    count of confirmation timers only, and leaves the flag down. *)
Lemma Fan_debounced_shape now w :
  exists o' n',
    fst (Fan.debounced cfg env now w) =
      Fan.set_this o' (Fan.set_confirmations n' (fst w)) /\
    Fan.plugUpdateInProgress o' = false.
Proof.
  unfold Fan.debounced.
  destruct (Fan.pushChanges cfg (connectBLE env now) (commandReply env now)
              (Fan.this (fst w), snd w)) as [c w1].
  destruct c as [| |e].
  - eexists _, _. split; reflexivity.
  - eexists _, (S (Fan.confirmations (fst w))). split; [reflexivity|].
    unfold Fan.lift at 1. cbn [fst].
    rewrite Fan_chain_flag. reflexivity.
  - eexists _, (Fan.confirmations (fst w)). split; [reflexivity|]. reflexivity.
Qed.

Lemma Fan_elapse_shape now w :
  Fan.plugUpdateInProgress (Fan.this (fst w)) = write_pending (fst w) ->
  Fan.taking (fst (Fan.elapse cfg env now w)) = Fan.taking (fst w) /\
  Fan.plugUpdateInProgress (Fan.this (fst (Fan.elapse cfg env now w))) =
    write_pending (fst (Fan.elapse cfg env now w)).
Proof.
  intros H. unfold Fan.elapse.
  destruct (Fan.debounce (fst w)) as [due|] eqn:E; [|now split].
  destruct (due <=? now); [|now split].
  unfold seq.
  destruct (Fan_debounced_shape due (assign (Fan.set_debounce None) w))
    as (o' & n' & -> & Hf).
  split; [reflexivity|]. cbn. exact Hf.
Qed.

Lemma Fan_handle_shape now e w :
  Fan.plugUpdateInProgress (Fan.this (fst w)) = write_pending (fst w) ->
  (Fan.taking (fst w) = true ->
   Fan.taking (fst (Fan.handle StringToNumber cfg env now e w)) = true) /\
  Fan.plugUpdateInProgress
    (Fan.this (fst (Fan.handle StringToNumber cfg env now e w))) =
    write_pending (fst (Fan.handle StringToNumber cfg env now e w)).
Proof.
  intros H. destruct e as [v|v|v| | |context]; cbn [Fan.handle].
  - split; [auto|reflexivity].
  - split; [auto|reflexivity].
  - split; [auto|reflexivity].
  - destruct (Rx.skipWhile _ _); [|split; auto].
    unfold seq, Fan.refresh, Fan.lift. cbn [fst snd]. split; [reflexivity|].
    unfold write_pending. cbn [Fan.this Fan.set_this Fan.debounce Fan.set_taking assign fst].
    rewrite (Fan_refreshStatus_flag _ _ (Fan.this (fst w), snd w)). exact H.
  - destruct (Fan.confirmations (fst w)); [split; auto|].
    destruct (Rx.skipWhile _ _); [|split; auto].
    unfold seq, Fan.refresh, Fan.lift. cbn [fst snd]. split; [auto|].
    unfold write_pending.
    cbn [Fan.this Fan.set_this Fan.debounce Fan.set_confirmations assign fst].
    rewrite (Fan_refreshStatus_flag _ _ (Fan.this (fst w), snd w)). exact H.
  - unfold Fan.lift. cbn [fst snd]. split; [auto|].
    unfold write_pending. cbn [Fan.this Fan.set_this Fan.debounce].
    rewrite (Fan_webhook_flag _ (Fan.this (fst w), snd w)). exact H.
Qed.

Lemma Fan_run_shape events w :
  Fan.plugUpdateInProgress (Fan.this (fst w)) = write_pending (fst w) ->
  (Fan.taking (fst w) = true ->
   Fan.taking (fst (Fan.run StringToNumber cfg env events w)) = true) /\
  Fan.plugUpdateInProgress
    (Fan.this (fst (Fan.run StringToNumber cfg env events w))) =
    write_pending (fst (Fan.run StringToNumber cfg env events w)).
Proof.
  revert w. induction events as [|te rest IH]; intros w H; cbn [Fan.run].
  - split; auto.
  - unfold seq, Fan.step, seq.
    destruct (Fan_elapse_shape (fst te) w H) as [Ht Hf].
    destruct (Fan_handle_shape (fst te) (snd te) _ Hf) as [Ht' Hf'].
    destruct (IH _ Hf') as [Ht'' Hf'']. split; [|exact Hf''].
    intros Htk. apply Ht'', Ht'. now rewrite Ht.
Qed.

End FanFlag.
Section FanLatch.
Variable StringToNumber : string -> number.
Variable cfg : Fan.config.
Variable env : environment.

Lemma Fan_refreshStatus_extends switchbot r :
  extends (Fan.refreshStatus StringToNumber cfg switchbot r).
Proof. exact (adds_extends _ _ (Fan_refreshStatus_adds _ _ _ _)). Qed.

Lemma Fan_elapse_extends now : extends (Fan.elapse cfg env now).
Proof. exact (adds_extends _ _ (Fan_elapse_adds _ _ _)). Qed.

Lemma Fan_elapse_taking now w :
  Fan.taking (fst (Fan.elapse cfg env now w)) = Fan.taking (fst w).
Proof.
  unfold Fan.elapse.
  destruct (Fan.debounce (fst w)) as [due|]; [|reflexivity].
  destruct (due <=? now); [|reflexivity].
  unfold seq.
  destruct (Fan_debounced_shape cfg env due (assign (Fan.set_debounce None) w))
    as (o' & n' & -> & _).
  reflexivity.
Qed.

Lemma Fan_refreshStatus_count switchbot r w :
  (S (calls Method.refreshStatus (snd w)) <=
   calls Method.refreshStatus
     (snd (Fan.refreshStatus StringToNumber cfg switchbot r w)))%nat.
Proof.
  unfold Fan.refreshStatus.
  match goal with
  | |- context [snd ((emit ?e ;; ?rest) w)] =>
      change (snd ((emit e ;; rest) w)) with (snd (rest (emit e w)));
      apply Nat.le_trans with (calls Method.refreshStatus (snd (emit e w)));
      [|apply calls_extends]
  end.
  - unfold emit. cbn [snd]. rewrite calls_app. cbn. lia.
  - repeat first
      [ apply Fan_openAPIRefreshStatus_extends | apply Fan_BLERefreshStatus_extends
      | apply Fan_offlineOff_extends | extends_tac ].
Qed.

Lemma Fan_handle_extends now e :
  extends (Fan.handle StringToNumber cfg env now e).
Proof. exact (adds_extends _ _ (Fan_handle_adds _ _ _ _ _)). Qed.

Lemma Fan_step_open te w :
  Fan.taking (fst w) = true ->
  Fan.taking (fst (Fan.step StringToNumber cfg env te w)) = true /\
  (calls Method.refreshStatus (snd w) + (if is_tick te then 1 else 0) <=
   calls Method.refreshStatus (snd (Fan.step StringToNumber cfg env te w)))%nat.
Proof.
  intros Ht. unfold Fan.step, seq.
  pose proof (Fan_elapse_taking (fst te) w) as Ht1. rewrite Ht in Ht1.
  pose proof (calls_extends _ Method.refreshStatus w (Fan_elapse_extends (fst te)))
    as Hc1.
  set (w1 := Fan.elapse cfg env (fst te) w) in *.
  pose proof (calls_extends _ Method.refreshStatus w1
                (Fan_handle_extends (fst te) (snd te))) as Hc2.
  unfold is_tick.
  destruct (snd te) as [v|v|v| | |context] eqn:Ee; cbn [Fan.handle] in *.
  - split; [exact Ht1|lia].
  - split; [exact Ht1|lia].
  - split; [exact Ht1|lia].
  - rewrite Ht1. cbn [Rx.skipWhile orb].
    unfold seq, Fan.refresh. split; [reflexivity|].
    rewrite Fan_lift_snd.
    pose proof (Fan_refreshStatus_count (connectBLE env (fst te))
                  (statusReply env (fst te))
                  (Fan.this (fst (assign (Fan.set_taking true) w1)),
                   snd (assign (Fan.set_taking true) w1))) as Hc3.
    cbn [snd assign] in Hc3 |- *. lia.
  - split; [|lia].
    destruct (Fan.confirmations (fst w1)); [exact Ht1|].
    destruct (Rx.skipWhile _ _); [|exact Ht1].
    unfold seq, Fan.refresh, Fan.lift. cbn. exact Ht1.
  - split; [exact Ht1|lia].
Qed.

End FanLatch.

(** ** The in-progress flag and the refresh latch *)

(** X3.  On a fan whose flag starts lowered, as the constructor leaves
    it, [plugUpdateInProgress] is raised exactly while a debounced push
    is pending, whatever events arrive; once the pending push has run
    the flag is down, whether the push succeeded, was refused, threw, or
    found no driver. *)
Theorem flag_marks_pending_push :
  forall (StringToNumber : string -> number) (cfg : Fan.config) (env : environment)
         (events : list (Z * Fan.event)) (o : Fan.t),
    Fan.plugUpdateInProgress o = false ->
    Fan.plugUpdateInProgress
      (Fan.this (fst (Fan.run StringToNumber cfg env events (Fan.subscribe o)))) =
      write_pending (fst (Fan.run StringToNumber cfg env events (Fan.subscribe o))) /\
    Fan.plugUpdateInProgress
      (Fan.this (fst (Fan.settle cfg env
                        (Fan.run StringToNumber cfg env events (Fan.subscribe o))))) =
      false.
Proof.
  intros S2N cfg env events o Ho.
  destruct (Fan_run_shape S2N cfg env events (Fan.subscribe o) Ho) as [_ H].
  split; [exact H|].
  set (w := Fan.run S2N cfg env events (Fan.subscribe o)) in *.
  unfold Fan.settle.
  destruct (Fan.debounce (fst w)) as [due|] eqn:E.
  - unfold Fan.elapse. rewrite E, Z.leb_refl. unfold seq.
    destruct (Fan_debounced_shape cfg env due (assign (Fan.set_debounce None) w))
      as (o' & n' & -> & Hf).
    exact Hf.
  - rewrite H. unfold write_pending. now rewrite E.
Qed.

Lemma flag_marks_pending_push_witness :
  Fan.plugUpdateInProgress (fst Sample.fan0) = false /\
  Fan.plugUpdateInProgress (Fan.this (fst Sample.fanWriting)) =
    write_pending (fst Sample.fanWriting) /\
  Fan.plugUpdateInProgress
    (Fan.this (fst (Fan.settle Sample.fanConfig (Sample.cloud 100) Sample.fanWriting))) =
    false.
Proof.
  split; [reflexivity|].
  apply (flag_marks_pending_push digitsToNumber Sample.fanConfig (Sample.cloud 100)
           [(5000, Fan.IntervalTick); (9950, Fan.OnSet_Active (num 1))]
           (fst Sample.fan0)).
  reflexivity.
Defined.

(** X4.  The latch of [skipWhile] on the refresh interval never closes
    again: once one emission of the interval has passed, every later
    emission starts [refreshStatus], whatever else happens and whether
    or not a push is in progress. *)
Theorem refresh_latch_never_closes :
  forall (StringToNumber : string -> number) (cfg : Fan.config) (env : environment)
         (events : list (Z * Fan.event)) (p : Fan.pipeline) (tr : list effect),
    Fan.taking p = true ->
    Fan.taking (fst (Fan.run StringToNumber cfg env events (p, tr))) = true /\
    (calls Method.refreshStatus tr + ticks events <=
     calls Method.refreshStatus
       (snd (Fan.run StringToNumber cfg env events (p, tr))))%nat.
Proof.
  intros S2N cfg env events.
  induction events as [|te rest IH]; intros p tr Ht; cbn [Fan.run].
  - split; [exact Ht|]. unfold ticks, skip. cbn [filter length snd]. lia.
  - unfold seq.
    destruct (Fan_step_open S2N cfg env te (p, tr) Ht) as [Ht1 Hc1].
    destruct (Fan.step S2N cfg env te (p, tr)) as [p1 tr1] eqn:E.
    cbn [fst snd] in *.
    destruct (IH p1 tr1 Ht1) as [Ht2 Hc2]. split; [exact Ht2|].
    unfold ticks in *. cbn [filter].
    destruct (is_tick te); cbn [length] in *; lia.
Qed.

Lemma refresh_latch_never_closes_witness :
  Fan.taking (fst Sample.fanWriting) = true /\
  Fan.taking
    (fst (Fan.run digitsToNumber Sample.fanConfig (Sample.cloud 100)
            [(9960%Z, Fan.OnSet_Active (num 0)); (10000%Z, Fan.IntervalTick);
             (10010%Z, Fan.OnSet_SwingMode (num 1)); (15000%Z, Fan.IntervalTick)]
            (fst Sample.fanWriting, snd Sample.fanWriting))) = true /\
  (calls Method.refreshStatus (snd Sample.fanWriting) +
   ticks [(9960%Z, Fan.OnSet_Active (num 0)); (10000%Z, Fan.IntervalTick);
          (10010%Z, Fan.OnSet_SwingMode (num 1)); (15000%Z, Fan.IntervalTick)] <=
   calls Method.refreshStatus
     (snd (Fan.run digitsToNumber Sample.fanConfig (Sample.cloud 100)
             [(9960%Z, Fan.OnSet_Active (num 0)); (10000%Z, Fan.IntervalTick);
              (10010%Z, Fan.OnSet_SwingMode (num 1)); (15000%Z, Fan.IntervalTick)]
             (fst Sample.fanWriting, snd Sample.fanWriting))))%nat.
Proof.
  split; [reflexivity|].
  apply (refresh_latch_never_closes digitsToNumber Sample.fanConfig (Sample.cloud 100)
           [(9960%Z, Fan.OnSet_Active (num 0)); (10000%Z, Fan.IntervalTick);
            (10010%Z, Fan.OnSet_SwingMode (num 1)); (15000%Z, Fan.IntervalTick)]
           (fst Sample.fanWriting) (snd Sample.fanWriting)).
  reflexivity.
Defined.
(** ** Helper lemmas: decoding, publishing and the pending push *)

Lemma Fan_updateHomeKit_fst (w : world Fan.t) :
  fst (Fan.updateHomeKitCharacteristics w) = Fan_published (fst w).
Proof.
  destruct w as [o tr]. destruct o.
  unfold Fan.updateHomeKitCharacteristics, Fan.publish, Fan_published, seq, assign, emit.
  cbn.
  destruct (strict_eq Active JUndefined); cbn;
    destruct (strict_eq RotationSpeed JUndefined); cbn;
    destruct (strict_eq SwingMode JUndefined); cbn;
    destruct (strict_eq BatteryLevel JUndefined); cbn;
    destruct (strict_eq ChargingState JUndefined); cbn;
    destruct (strict_eq StatusLowBattery JUndefined); reflexivity.
Qed.

Section FanDecoding.
Variable StringToNumber : string -> number.

Lemma Fan_parse_Active ds w :
  Fan.Active (fst (Fan.openAPIparseStatus StringToNumber ds w)) = polledActive ds.
Proof.
  unfold Fan.openAPIparseStatus. cbv zeta.
  match goal with
  | |- context [(emit ?e ;; assign ?f ;; ?rest) w] =>
      change ((emit e ;; assign f ;; rest) w) with (rest (assign f (emit e w)));
      assert (Hp : preserves Fan.Active rest)
        by (repeat first [apply firmwareVersion_preserves | preserves_tac]);
      rewrite Hp
  end.
  reflexivity.
Qed.

Lemma Fan_webhook_Active context w :
  Fan.Active (fst (Fan.webhookEventHandler context w)) = notifiedActive context /\
  Fan.context_Active (fst (Fan.webhookEventHandler context w)) =
    notifiedActive context.
Proof.
  unfold Fan.webhookEventHandler.
  match goal with
  | |- context [(emit ?e ;; assign ?f ;; ?a ;; ?b ;; ?c ;; ?d ;; ?v ;;
                 Fan.updateHomeKitCharacteristics) w] =>
      change ((emit e ;; assign f ;; a ;; b ;; c ;; d ;; v ;;
               Fan.updateHomeKitCharacteristics) w)
        with (Fan.updateHomeKitCharacteristics
                ((a ;; b ;; c ;; d ;; v) (assign f (emit e w))));
      assert (Hp : preserves Fan.Active (a ;; b ;; c ;; d ;; v)) by preserves_tac
  end.
  rewrite Fan_updateHomeKit_fst. unfold Fan_published.
  cbn [Fan.Active Fan.context_Active].
  match goal with
  | |- context [Fan.Active (fst ?W)] =>
      assert (E : Fan.Active (fst W) = notifiedActive context)
        by (rewrite Hp; reflexivity);
      rewrite !E
  end.
  unfold notifiedActive.
  destruct (strict_eq (wh_powerState context) (str "ON")); split; reflexivity.
Qed.

Lemma Fan_refresh_ok_Active sc ds w :
  dualStatusOk sc ds = true ->
  Fan.Active (fst (Fan.openAPIRefreshStatus StringToNumber (Replied sc ds) w)) =
    polledActive ds /\
  Fan.context_Active
    (fst (Fan.openAPIRefreshStatus StringToNumber (Replied sc ds) w)) =
    polledActive ds.
Proof.
  intros Hok. rewrite (Fan_refresh_ok_eq StringToNumber sc ds w Hok).
  rewrite Fan_updateHomeKit_fst. unfold Fan_published.
  cbn [Fan.Active Fan.context_Active]. rewrite Fan_parse_Active.
  unfold polledActive.
  destruct (strict_eq (power (body ds)) (str "on")); split; reflexivity.
Qed.

End FanDecoding.

Lemma polledActive_published (ds : deviceStatus) :
  strict_eq (polledActive ds) (polledActive ds) = true.
Proof.
  unfold polledActive.
  destruct (strict_eq (power (body ds)) (str "on")); reflexivity.
Qed.

Lemma notifiedActive_published (context : webhookContext) :
  strict_eq (notifiedActive context) (notifiedActive context) = true.
Proof.
  unfold notifiedActive.
  destruct (strict_eq (wh_powerState context) (str "ON")); reflexivity.
Qed.

Section FanDebounce.
Variable StringToNumber : string -> number.
Variable cfg : Fan.config.
Variable env : environment.

(** With nothing to push, the debounced subscriber hands no command to
    any transport and leaves Active and its published value alone. *)
Lemma Fan_debounced_synced now p tr :
  strict_eq (Fan.Active (Fan.this p)) (Fan.context_Active (Fan.this p)) = true ->
  dispatches (snd (Fan.debounced cfg env now (p, tr))) = dispatches tr /\
  Fan.Active (Fan.this (fst (Fan.debounced cfg env now (p, tr)))) =
    Fan.Active (Fan.this p).
Proof.
  intros Hs.
  unfold Fan.debounced, Fan.pushChanges, Fan.BLEpushChanges, Fan.openAPIpushChanges,
    Fan.offlineOff, seq.
  cbn [fst snd emit]. rewrite Hs. cbn [negb].
  destruct (negb (Fan.enableCloudService cfg) && Fan.OpenAPI cfg);
    [|destruct (Fan.BLE cfg);
      [|destruct (Fan.OpenAPI cfg && Fan.token cfg); [|destruct (Fan.offline cfg)]]];
    cbn [fst snd Fan.lift assign emit skip seq];
    rewrite ?dispatches_app; cbn [dispatches filter is_dispatch];
    rewrite ?app_nil_r; split; reflexivity.
Qed.

Lemma Fan_step_write_idle t v p tr :
  Fan.debounce p = None ->
  Fan.step StringToNumber cfg env (t, Fan.OnSet_Active v) (p, tr) =
  (Fan_armed cfg p t v, tr).
Proof.
  intros H. unfold Fan.step, seq. cbn [fst snd].
  rewrite Fan_elapse_idle by exact H. apply Fan_handle_OnSet_Active.
Qed.

Lemma Fan_step_write_armed t v t' v' p tr :
  t' < t + Fan.pushRate_ms cfg ->
  Fan.step StringToNumber cfg env (t', Fan.OnSet_Active v') (Fan_armed cfg p t v, tr) =
  (Fan_armed cfg p t' v', tr).
Proof.
  intros H. unfold Fan.step, seq. cbn [fst snd].
  rewrite (Fan_elapse_early cfg env t' (t + Fan.pushRate_ms cfg))
    by (reflexivity || assumption).
  rewrite Fan_handle_OnSet_Active. reflexivity.
Qed.

Lemma Fan_settle_armed t v p tr :
  Fan.settle cfg env (Fan_armed cfg p t v, tr) =
  Fan.debounced cfg env (t + Fan.pushRate_ms cfg)
    (Fan.set_debounce None (Fan_armed cfg p t v), tr).
Proof.
  unfold Fan.settle. cbn [fst Fan_armed Fan.debounce Fan.set_debounce].
  apply Fan_elapse_due; [reflexivity|apply Z.le_refl].
Qed.

Lemma last_cons {A : Type} (a d : A) (l : list A) : last (a :: l) d = last l a.
Proof.
  revert a d. induction l as [|b l IH]; intros a d; [reflexivity|].
  change (last (a :: b :: l) d) with (last (b :: l) d).
  now rewrite (IH b d), (IH b a).
Qed.

Lemma Fan_run_writes cs : forall t v p tr,
  chained (Fan.pushRate_ms cfg) t cs ->
  Fan.run StringToNumber cfg env (writes cs) (Fan_armed cfg p t v, tr) =
  (Fan_armed cfg p (fst (last cs (t, v))) (snd (last cs (t, v))), tr).
Proof.
  induction cs as [|[t' v'] cs IH]; intros t v p tr Hc.
  - reflexivity.
  - destruct Hc as [[_ Hlt] Hc]. cbn [fst] in *.
    cbn [writes map Fan.run fst snd]. unfold seq.
    rewrite Fan_step_write_armed by exact Hlt.
    fold (writes cs). rewrite IH by exact Hc.
    now rewrite last_cons.
Qed.

End FanDebounce.

(** ** Debounced writes, in general *)

(** X5.  Any number of ActiveSet calls, each within one debounce window
    of the call before, lead to exactly one run of [pushChanges] on a
    transport that takes the command: it dispatches the command for the
    value of the last call when that value differs from the published
    one, and nothing otherwise. *)
Theorem debounce_coalesces_all_calls :
  forall (StringToNumber : string -> number) (cfg : Fan.config) (env : environment)
         (o : Fan.t) (t0 : Z) (v0 : jsval) (cs : list (Z * jsval)),
    chained (Fan.pushRate_ms cfg) t0 cs ->
    transport_answers cfg env (fst (last cs (t0, v0)) + Fan.pushRate_ms cfg) ->
    calls Method.pushChanges
      (snd (Fan.settle cfg env
              (Fan.run StringToNumber cfg env (writes ((t0, v0) :: cs))
                 (Fan.subscribe o)))) = 1%nat /\
    dispatches
      (snd (Fan.settle cfg env
              (Fan.run StringToNumber cfg env (writes ((t0, v0) :: cs))
                 (Fan.subscribe o)))) =
      (if strict_eq (snd (last cs (t0, v0))) (Fan.context_Active o) then []
       else [sends cfg (snd (last cs (t0, v0)))]).
Proof.
  intros S2N cfg env o t0 v0 cs Hc Htr.
  cbn [writes map Fan.run fst snd]. unfold seq, Fan.subscribe.
  rewrite Fan_step_write_idle by reflexivity.
  fold (writes cs). rewrite Fan_run_writes by exact Hc.
  rewrite Fan_settle_armed.
  destruct (last cs (t0, v0)) as [tl vl]. cbn [fst snd] in *.
  destruct Htr as [Hcfg | (Hcfg & (ad & Hsb) & Hok)].
  - rewrite Fan_debounced_OpenAPI by assumption.
    cbn [snd app].
    destruct (Fan_openAPIpushChanges_dispatches
                (commandReply env (tl + Fan.pushRate_ms cfg))
                (Fan.set_plugUpdateInProgress true (Fan.set_Active vl o)))
      as [Hd Hcl].
    cbn [Fan.this Fan.set_this Fan.set_debounce Fan_armed].
    change (Call Method.pushChanges :: ?l) with ([Call Method.pushChanges] ++ l).
    rewrite !calls_app, !dispatches_app, Hcl, Hd.
    cbn [Fan.Active Fan.context_Active Fan.set_plugUpdateInProgress Fan.set_Active].
    unfold sends. destruct Hcfg as (_ & -> & _ & _).
    split; [reflexivity|].
    destruct (strict_eq vl (Fan.context_Active o)); reflexivity.
  - rewrite (Fan_debounced_BLE cfg env _ _ _ ad Hcfg Hsb Hok).
    cbn [Fan.this Fan.set_this Fan.set_debounce Fan_armed
         Fan.Active Fan.context_Active Fan.set_plugUpdateInProgress Fan.set_Active].
    unfold sends, bleCommandFor. destruct Hcfg as (_ & ->).
    destruct (strict_eq vl (Fan.context_Active o)); cbn [snd app];
      destruct (truthy vl); split; reflexivity.
Qed.

Lemma debounce_coalesces_all_calls_witness :
  chained (Fan.pushRate_ms Sample.fanConfig) 0
    [(40, num 0); (120, num 1); (200, num 0); (299, num 1)] /\
  transport_answers Sample.fanConfig (Sample.cloud 100)
    (299 + Fan.pushRate_ms Sample.fanConfig) /\
  dispatches
    (snd (Fan.settle Sample.fanConfig (Sample.cloud 100)
            (Fan.run digitsToNumber Sample.fanConfig (Sample.cloud 100)
               (writes [(0, num 1); (40, num 0); (120, num 1); (200, num 0);
                        (299, num 1)])
               (Fan.subscribe (fst Sample.fan0))))) = [commandFor (num 1)].
Proof.
  split; [cbn; lia|]. split; [left; repeat split|].
  apply (debounce_coalesces_all_calls digitsToNumber Sample.fanConfig
           (Sample.cloud 100) (fst Sample.fan0) 0 (num 1)
           [(40, num 0); (120, num 1); (200, num 0); (299, num 1)]).
  - cbn. lia.
  - left. repeat split.
Defined.
(** ** Helper lemmas: counting in a trace *)

Lemma calls_cons (m : Method.t) (e : effect) (l : list effect) :
  calls m (e :: l) = ((if is_call m e then 1 else 0) + calls m l)%nat.
Proof. unfold calls. cbn [filter]. destruct (is_call m e); reflexivity. Qed.

Lemma dispatches_cons (e : effect) (l : list effect) :
  dispatches (e :: l) = (if is_dispatch e then [e] else []) ++ dispatches l.
Proof. unfold dispatches. cbn [filter]. destruct (is_dispatch e); reflexivity. Qed.

(** X6.  A push does not record what it sent as published.  Take two
    ActiveSet calls over OpenAPI that are more than one debounce window
    apart, the second one early enough for its push to run before the
    confirmation refresh of the first (which comes 15 s after the first
    push), with no emission of the refresh interval and no webhook event
    in between: nothing is published between the two pushes.  Then each
    call runs [pushChanges], and each run sends the command for its value
    whenever that value differs from the value published before the
    first call.  Setting the same new value twice sends the command
    twice. *)
Theorem spaced_calls_push_twice :
  forall (StringToNumber : string -> number) (cfg : Fan.config) (env : environment)
         (o : Fan.t) (v1 v2 : jsval) (t1 t2 : Z),
    overOpenAPI cfg ->
    t1 + Fan.pushRate_ms cfg < t2 < t1 + 15000 ->
    calls Method.pushChanges
      (snd (Fan.settle cfg env
              (Fan.run StringToNumber cfg env
                 [(t1, Fan.OnSet_Active v1); (t2, Fan.OnSet_Active v2)]
                 (Fan.subscribe o)))) = 2%nat /\
    dispatches
      (snd (Fan.settle cfg env
              (Fan.run StringToNumber cfg env
                 [(t1, Fan.OnSet_Active v1); (t2, Fan.OnSet_Active v2)]
                 (Fan.subscribe o)))) =
      (if strict_eq v1 (Fan.context_Active o) then [] else [commandFor v1]) ++
      (if strict_eq v2 (Fan.context_Active o) then [] else [commandFor v2]).
Proof.
  intros S2N cfg env o v1 v2 t1 t2 Hcfg [Hle _]. apply Z.lt_le_incl in Hle.
  cbn [Fan.run]. unfold seq, skip, Fan.subscribe.
  rewrite Fan_step_write_idle by reflexivity.
  unfold Fan.step, seq. cbn [fst snd].
  rewrite (Fan_elapse_due cfg env t2 (t1 + Fan.pushRate_ms cfg))
    by (reflexivity || assumption).
  rewrite Fan_debounced_OpenAPI by assumption.
  rewrite Fan_handle_OnSet_Active.
  unfold Fan.settle. cbn [fst Fan.debounce Fan.set_debounce].
  rewrite (Fan_elapse_due cfg env _ (t2 + Fan.pushRate_ms cfg))
    by (reflexivity || apply Z.le_refl).
  rewrite Fan_debounced_OpenAPI by assumption.
  cbn [snd app Fan.this Fan.set_this Fan.set_debounce Fan.set_confirmations Fan_armed].
  match goal with
  | |- context [effects (Fan.openAPIpushChanges ?r1) ?f1 ++ [SubscribeTake1 15000]] =>
      destruct (Fan_openAPIpushChanges_dispatches r1 f1) as [Hd1 Hc1]
  end.
  match goal with
  | |- context [Call Method.pushChanges ::
                effects (Fan.openAPIpushChanges ?r2)
                  (Fan.set_plugUpdateInProgress true ?f2) ++ _] =>
      destruct (Fan_openAPIpushChanges_dispatches r2
                  (Fan.set_plugUpdateInProgress true f2)) as [Hd2 Hc2]
  end.
  repeat first [ rewrite calls_app | rewrite calls_cons
               | rewrite dispatches_app | rewrite dispatches_cons ].
  rewrite Hc1, Hd1, Hc2, Hd2.
  cbn [Fan.Active Fan.context_Active Fan.set_plugUpdateInProgress Fan.set_Active].
  split; [reflexivity|].
  cbn [dispatches calls filter is_dispatch app]. now rewrite !app_nil_r.
Qed.

Lemma spaced_calls_push_twice_witness :
  overOpenAPI Sample.fanConfig /\
  0 + Fan.pushRate_ms Sample.fanConfig < 500 < 0 + 15000 /\
  dispatches
    (snd (Fan.settle Sample.fanConfig (Sample.cloud 100)
            (Fan.run digitsToNumber Sample.fanConfig (Sample.cloud 100)
               [(0, Fan.OnSet_Active (num 1)); (500, Fan.OnSet_Active (num 1))]
               (Fan.subscribe (fst Sample.fan0))))) =
    [commandFor (num 1); commandFor (num 1)].
Proof.
  split; [repeat split|]. split; [cbn; lia|].
  apply (spaced_calls_push_twice digitsToNumber Sample.fanConfig (Sample.cloud 100)
           (fst Sample.fan0) (num 1) (num 1) 0 500).
  - repeat split.
  - cbn. lia.
Defined.

(** ** A status decoded while a push is pending *)

Lemma adds_quiet {O : Type} (a : action O) (w : world O) :
  adds refresh_effect a -> dispatches (snd (a w)) = dispatches (snd w).
Proof.
  intros Ha. destruct (Ha w) as (tr & E & H).
  rewrite E, dispatches_app. destruct (refresh_effect_quiet tr H) as [-> _].
  apply app_nil_r.
Qed.

Lemma Fan_refreshStatus_OpenAPI S2N cfg switchbot r w :
  overOpenAPI cfg ->
  Fan.refreshStatus S2N cfg switchbot r w =
  Fan.openAPIRefreshStatus S2N r (emit (Call Method.refreshStatus) w).
Proof.
  intros (He & Hb & Ho & Ht). unfold Fan.refreshStatus, seq.
  now rewrite He, Hb, Ho, Ht.
Qed.

(** X7.  A webhook event that arrives while a push is pending is decoded
    and published at once, flag or no flag, and overrides the value the
    user has set: when the debounce timer fires there is nothing left to
    push, no command is handed to any transport, and Active holds what
    the webhook reported. *)
Theorem webhook_in_window_cancels_push :
  forall (StringToNumber : string -> number) (cfg : Fan.config) (env : environment)
         (p : Fan.pipeline) (tr : list effect) (v : jsval)
         (context : webhookContext) (t1 t2 : Z),
    Fan.debounce p = None ->
    t1 <= t2 < t1 + Fan.pushRate_ms cfg ->
    dispatches
      (snd (Fan.settle cfg env
              (Fan.run StringToNumber cfg env
                 [(t1, Fan.OnSet_Active v); (t2, Fan.WebhookEvent context)]
                 (p, tr)))) = dispatches tr /\
    Fan.Active
      (Fan.this
         (fst (Fan.settle cfg env
                 (Fan.run StringToNumber cfg env
                    [(t1, Fan.OnSet_Active v); (t2, Fan.WebhookEvent context)]
                    (p, tr))))) = notifiedActive context.
Proof.
  intros S2N cfg env p tr v context t1 t2 Hidle [_ Hlt].
  cbn [Fan.run]. unfold seq, skip.
  rewrite Fan_step_write_idle by exact Hidle.
  unfold Fan.step, seq. cbn [fst snd].
  rewrite (Fan_elapse_early cfg env t2 (t1 + Fan.pushRate_ms cfg))
    by (reflexivity || assumption).
  cbn [Fan.handle]. unfold Fan.lift. cbn [fst snd].
  set (W := Fan.webhookEventHandler context (Fan.this (Fan_armed cfg p t1 v), tr)).
  unfold Fan.settle. cbn [fst Fan.debounce Fan.set_this Fan_armed Fan.set_debounce].
  rewrite (Fan_elapse_due cfg env _ (t1 + Fan.pushRate_ms cfg))
    by (reflexivity || apply Z.le_refl).
  destruct (Fan_webhook_Active context (Fan.this (Fan_armed cfg p t1 v), tr))
    as [HA HC]. fold W in HA, HC.
  match goal with
  | |- context [Fan.debounced cfg env ?now (?q, snd W)] =>
      destruct (Fan_debounced_synced cfg env now q (snd W)) as [Hd Ha]
  end.
  - cbn [Fan.this Fan.set_debounce Fan.set_this]. rewrite HA, HC.
    apply notifiedActive_published.
  - rewrite Hd, Ha. cbn [Fan.this Fan.set_debounce Fan.set_this].
    split; [|exact HA].
    subst W. apply (adds_quiet _ (Fan.this (Fan_armed cfg p t1 v), tr)).
    apply Fan_webhook_adds.
Qed.

Lemma webhook_in_window_cancels_push_witness :
  Fan.debounce (fst (Fan.subscribe (fst Sample.fan0))) = None /\
  0 <= 30 < 0 + Fan.pushRate_ms Sample.fanConfig /\
  dispatches
    (snd (Fan.settle Sample.fanConfig (Sample.cloud 100)
            (Fan.run digitsToNumber Sample.fanConfig (Sample.cloud 100)
               [(0, Fan.OnSet_Active (num 1));
                (30, Fan.WebhookEvent
                       (Sample.contactEvent JUndefined JUndefined JUndefined))]
               (fst (Fan.subscribe (fst Sample.fan0)), [])))) = dispatches [] /\
  Fan.Active
    (Fan.this
       (fst (Fan.settle Sample.fanConfig (Sample.cloud 100)
               (Fan.run digitsToNumber Sample.fanConfig (Sample.cloud 100)
                  [(0, Fan.OnSet_Active (num 1));
                   (30, Fan.WebhookEvent
                          (Sample.contactEvent JUndefined JUndefined JUndefined))]
                  (fst (Fan.subscribe (fst Sample.fan0)), []))))) =
    notifiedActive (Sample.contactEvent JUndefined JUndefined JUndefined).
Proof.
  split; [reflexivity|]. split; [cbn; lia|].
  apply (webhook_in_window_cancels_push digitsToNumber Sample.fanConfig
           (Sample.cloud 100) (fst (Fan.subscribe (fst Sample.fan0))) [] (num 1)
           (Sample.contactEvent JUndefined JUndefined JUndefined) 0 30).
  - reflexivity.
  - cbn. lia.
Defined.

(** ** A status answered while a push is pending, or after it *)

Section FanLatencyLemmas.
Variable StringToNumber : string -> number.
Variable cfg : Fan.config.
Variable env : environment.

(** With an answer that comes at once, the moments are the events. *)
Lemma Fan_refresh_cut switchbot r (w : world Fan.t) :
  overOpenAPI cfg ->
  Fan.refreshStatus StringToNumber cfg switchbot r w =
  Fan_refresh_answered StringToNumber r (Fan_refresh_sent w).
Proof.
  intros (He & Hb & Ho & Ht).
  unfold Fan.refreshStatus, Fan.openAPIRefreshStatus, Fan_refresh_answered,
    Fan_refresh_sent, seq.
  rewrite He, Hb, Ho, Ht. cbn [negb andb]. destruct r; reflexivity.
Qed.

Lemma Fan_async_tick_at_once now (w : world Fan.pipeline) :
  overOpenAPI cfg ->
  Fan.handle StringToNumber cfg env now Fan.IntervalTick w =
  (if Rx.skipWhile (Fan.taking (fst w)) (Fan.plugUpdateInProgress (Fan.this (fst w)))
   then Fan_async_handle StringToNumber cfg env now (Answered (statusReply env now))
          (Fan_async_handle StringToNumber cfg env now (Occurs Fan.IntervalTick) w)
   else w).
Proof.
  intros Hcfg. cbn [Fan.handle Fan_async_handle].
  destruct (Rx.skipWhile (Fan.taking (fst w))
              (Fan.plugUpdateInProgress (Fan.this (fst w)))); [|reflexivity].
  unfold seq, Fan.refresh, Fan.lift, assign. cbn [fst snd].
  rewrite (Fan_refresh_cut _ _ _ Hcfg). reflexivity.
Qed.

Lemma Fan_refresh_sent_eq (o : Fan.t) (tr : list effect) :
  Fan_refresh_sent (o, tr) =
  (o, tr ++ [Call Method.refreshStatus; Call Method.openAPIRefreshStatus; GetStatus]).
Proof.
  unfold Fan_refresh_sent, seq, emit. cbn [fst snd].
  now rewrite <- !app_assoc.
Qed.

Lemma Fan_refresh_answered_adds r :
  adds refresh_effect (Fan_refresh_answered StringToNumber r).
Proof.
  unfold Fan_refresh_answered, statusCode.
  destruct r as [sc ds|e];
    repeat first
      [ apply Fan_parse_adds | apply Fan_updateHomeKit_adds
      | apply Fan_apiError_adds | adds_tac ].
Qed.

Lemma Fan_refresh_answered_Active sc ds (w : world Fan.t) :
  dualStatusOk sc ds = true ->
  Fan.Active (fst (Fan_refresh_answered StringToNumber (Replied sc ds) w)) =
    polledActive ds /\
  Fan.context_Active (fst (Fan_refresh_answered StringToNumber (Replied sc ds) w)) =
    polledActive ds.
Proof.
  intros Hok. unfold Fan_refresh_answered, seq. rewrite Hok.
  rewrite Fan_updateHomeKit_fst. unfold Fan_published.
  cbn [Fan.Active Fan.context_Active]. rewrite Fan_parse_Active.
  unfold polledActive.
  destruct (strict_eq (power (body ds)) (str "on")); split; reflexivity.
Qed.

End FanLatencyLemmas.

(** X8.  Once the latch of the refresh interval is open, an emission of
    the interval within the debounce window of an ActiveSet call sends
    the status request although a push is pending.  When the request
    succeeds, its answer overwrites the value the user has set and
    publishes the polled one, whenever it comes.  If it comes before the
    debounce timer fires, the pending push finds nothing to send and the
    user's command never reaches the device; if it comes after, the push
    has sent the command for the user's value (when that value differed
    from the published one), and Active falls back to the polled value
    all the same. *)
Theorem refresh_in_window_cancels_push :
  forall (StringToNumber : string -> number) (cfg : Fan.config) (env : environment)
         (p : Fan.pipeline) (tr : list effect) (v : jsval)
         (sc : Z) (ds : deviceStatus) (t1 t2 t3 : Z),
    overOpenAPI cfg ->
    Fan.taking p = true ->
    Fan.debounce p = None ->
    t1 <= t2 < t1 + Fan.pushRate_ms cfg ->
    t2 <= t3 ->
    t3 <> t1 + Fan.pushRate_ms cfg ->
    bothStatusesOk sc ds ->
    dispatches
      (snd (Fan.settle cfg env
              (Fan_async_run StringToNumber cfg env
                 [(t1, Occurs (Fan.OnSet_Active v)); (t2, Occurs Fan.IntervalTick);
                  (t3, Answered (Replied sc ds))]
                 (p, tr)))) =
      dispatches tr ++
      (if t3 <? t1 + Fan.pushRate_ms cfg then []
       else if strict_eq v (Fan.context_Active (Fan.this p)) then []
       else [commandFor v]) /\
    Fan.Active
      (Fan.this
         (fst (Fan.settle cfg env
                 (Fan_async_run StringToNumber cfg env
                    [(t1, Occurs (Fan.OnSet_Active v)); (t2, Occurs Fan.IntervalTick);
                     (t3, Answered (Replied sc ds))]
                    (p, tr))))) = polledActive ds.
Proof.
  intros S2N cfg env p tr v sc ds t1 t2 t3 Hcfg Htk Hidle [_ Hlt] Hle _ Hok.
  apply dualStatusOk_iff in Hok.
  cbn [Fan_async_run]. unfold seq, skip, Fan_async_step, seq.
  cbn [fst snd Fan_async_handle].
  rewrite Fan_elapse_idle by exact Hidle.
  rewrite Fan_handle_OnSet_Active. fold (Fan_armed cfg p t1 v).
  rewrite (Fan_elapse_early cfg env t2 (t1 + Fan.pushRate_ms cfg))
    by (reflexivity || assumption).
  cbn [fst Fan.taking Fan_armed Fan.set_debounce Fan.set_this].
  rewrite Htk. cbn [Rx.skipWhile orb].
  unfold seq, Fan.lift, assign. cbn [fst snd].
  cbn [Fan.this Fan.set_taking Fan.set_this].
  rewrite Fan_refresh_sent_eq. cbn [fst snd].
  destruct (t3 <? t1 + Fan.pushRate_ms cfg) eqn:Hcmp.
  - apply Z.ltb_lt in Hcmp.
    rewrite (Fan_elapse_early cfg env t3 (t1 + Fan.pushRate_ms cfg))
      by (reflexivity || assumption).
    cbn [fst snd Fan.this Fan.set_this Fan.set_taking].
    match goal with
    | |- context [Fan_refresh_answered S2N (Replied sc ds) ?w0] =>
        set (W := Fan_refresh_answered S2N (Replied sc ds) w0);
        destruct (Fan_refresh_answered_Active S2N sc ds w0 Hok) as [HA HC];
        pose proof (adds_quiet _ w0 (Fan_refresh_answered_adds S2N (Replied sc ds)))
          as Hq
    end.
    fold W in HA, HC, Hq.
    unfold Fan.settle.
    cbn [fst Fan.debounce Fan.set_this Fan.set_taking Fan.set_debounce Fan_armed].
    rewrite (Fan_elapse_due cfg env _ (t1 + Fan.pushRate_ms cfg))
      by (reflexivity || apply Z.le_refl).
    match goal with
    | |- context [Fan.debounced cfg env ?now (?q, snd W)] =>
        destruct (Fan_debounced_synced cfg env now q (snd W)) as [Hd Ha]
    end.
    + cbn [Fan.this Fan.set_debounce Fan.set_this]. rewrite HA, HC.
      apply polledActive_published.
    + rewrite Hd, Ha. cbn [Fan.this Fan.set_debounce Fan.set_this].
      split; [|exact HA].
      rewrite Hq. cbn [snd]. rewrite !dispatches_app. cbn. now rewrite !app_nil_r.
  - apply Z.ltb_ge in Hcmp.
    rewrite (Fan_elapse_due cfg env t3 (t1 + Fan.pushRate_ms cfg))
      by (reflexivity || assumption).
    rewrite Fan_debounced_OpenAPI by assumption.
    cbn [fst snd Fan.this Fan.set_this Fan.set_taking Fan.set_debounce
         Fan.set_confirmations Fan_armed].
    match goal with
    | |- context [Fan_refresh_answered S2N (Replied sc ds) ?w0] =>
        set (W := Fan_refresh_answered S2N (Replied sc ds) w0);
        destruct (Fan_refresh_answered_Active S2N sc ds w0 Hok) as [HA HC];
        pose proof (adds_quiet _ w0 (Fan_refresh_answered_adds S2N (Replied sc ds)))
          as Hq
    end.
    fold W in HA, HC, Hq.
    unfold Fan.settle. cbn [fst Fan.debounce Fan.set_this Fan.set_taking
                            Fan.set_debounce Fan.set_confirmations Fan_armed].
    cbn [snd Fan.this Fan.set_this]. split; [|exact HA].
    rewrite Hq. cbn [snd].
    match goal with
    | |- context [effects (Fan.openAPIpushChanges ?r1) ?f1] =>
        destruct (Fan_openAPIpushChanges_dispatches r1 f1) as [Hd1 _]
    end.
    repeat first [ rewrite dispatches_app | rewrite dispatches_cons ].
    rewrite Hd1.
    cbn [Fan.Active Fan.context_Active Fan.set_plugUpdateInProgress Fan.set_Active
         is_dispatch app dispatches filter].
    rewrite ?app_nil_r.
    destruct (strict_eq v (Fan.context_Active (Fan.this p))); reflexivity.
Qed.

Lemma refresh_in_window_cancels_push_witness :
  overOpenAPI Sample.fanConfig /\
  bothStatusesOk 200 (Sample.answer 100 (Sample.fanBody (str "off") (num 90))) /\
  (dispatches
     (snd (Fan.settle Sample.fanConfig (Sample.cloud 100)
             (Fan_async_run digitsToNumber Sample.fanConfig (Sample.cloud 100)
                [(9950, Occurs (Fan.OnSet_Active (num 1)));
                 (10000, Occurs Fan.IntervalTick);
                 (10400, Answered
                           (Replied 200
                              (Sample.answer 100
                                 (Sample.fanBody (str "off") (num 90)))))]
                (Fan.set_taking true (fst (Fan.subscribe (fst Sample.fan0))), [])))) =
     dispatches [] ++
     (if 10400 <? 9950 + Fan.pushRate_ms Sample.fanConfig then []
      else if strict_eq (num 1)
                (Fan.context_Active
                   (Fan.this
                      (Fan.set_taking true (fst (Fan.subscribe (fst Sample.fan0))))))
      then [] else [commandFor (num 1)]) /\
   Fan.Active
     (Fan.this
        (fst (Fan.settle Sample.fanConfig (Sample.cloud 100)
                (Fan_async_run digitsToNumber Sample.fanConfig (Sample.cloud 100)
                   [(9950, Occurs (Fan.OnSet_Active (num 1)));
                    (10000, Occurs Fan.IntervalTick);
                    (10400, Answered
                              (Replied 200
                                 (Sample.answer 100
                                    (Sample.fanBody (str "off") (num 90)))))]
                   (Fan.set_taking true (fst (Fan.subscribe (fst Sample.fan0))),
                    []))))) =
     polledActive (Sample.answer 100 (Sample.fanBody (str "off") (num 90)))).
Proof.
  split; [repeat split|]. split; [apply dualStatusOk_iff; reflexivity|].
  apply (refresh_in_window_cancels_push digitsToNumber Sample.fanConfig
           (Sample.cloud 100)
           (Fan.set_taking true (fst (Fan.subscribe (fst Sample.fan0)))) []
           (num 1) 200 (Sample.answer 100 (Sample.fanBody (str "off") (num 90)))
           9950 10000 10400).
  - repeat split.
  - reflexivity.
  - reflexivity.
  - cbn. lia.
  - lia.
  - cbn. lia.
  - apply dualStatusOk_iff. reflexivity.
Defined.

(** ** Refreshing twice *)

Section FanIdempotence.
Variable StringToNumber : string -> number.

Lemma Fan_parse_fst ds w :
  fst (Fan.openAPIparseStatus StringToNumber ds w) =
  (if isNaN (ToNumber StringToNumber (battery (body ds)))
   then Fan.set_BatteryLevel (num 100) else fun o => o)
    (Fan.set_StatusLowBattery
       (lowBatteryOf (ToNumber StringToNumber (battery (body ds))))
       (Fan.set_BatteryLevel (JNum (ToNumber StringToNumber (battery (body ds))))
          (Fan.set_ChargingState
             (if strict_eq (chargingStatus (body ds)) (str "charging")
              then HAP.ChargingState_CHARGING else HAP.ChargingState_NOT_CHARGING)
             (Fan.set_RotationSpeed (fanSpeed (body ds))
                (Fan.set_SwingMode
                   (if strict_eq (oscillation (body ds)) (str "on")
                    then HAP.SwingMode_SWING_ENABLED
                    else HAP.SwingMode_SWING_DISABLED)
                   (Fan.set_Active (polledActive ds) (fst w))))))).
Proof.
  unfold Fan.openAPIparseStatus, firmwareVersion, lowBatteryOf, polledActive, seq,
    assign, emit, skip.
  cbv zeta. cbn [fst snd].
  destruct (number_lt (ToNumber StringToNumber (battery (body ds))) (Fin 10));
    destruct (isNaN (ToNumber StringToNumber (battery (body ds))));
    destruct (truthy (version (body ds))); reflexivity.
Qed.

End FanIdempotence.

(** X9.  Polling a fan twice with the same answer leaves it in the state
    the first poll left: decoding overwrites every field it decodes and
    publishing copies the fields, so nothing accumulates; a refused or
    failed poll leaves the state alone both times. *)
Theorem fan_refresh_twice :
  forall (StringToNumber : string -> number) (r : reply) (o : Fan.t),
    result (Fan.openAPIRefreshStatus StringToNumber r ;;
            Fan.openAPIRefreshStatus StringToNumber r) o =
    result (Fan.openAPIRefreshStatus StringToNumber r) o.
Proof.
  intros S2N r o. unfold result, seq.
  destruct r as [sc ds|e]; [destruct (dualStatusOk sc ds) eqn:Hok|].
  - rewrite !(Fan_refresh_ok_eq S2N sc ds _ Hok).
    repeat first [ rewrite Fan_updateHomeKit_fst | rewrite Fan_parse_fst
                 | progress cbn [fst emit] ].
    unfold polledActive, lowBatteryOf, Fan_published. destruct o.
    destruct (strict_eq (power (body ds)) (str "on"));
      destruct (strict_eq (oscillation (body ds)) (str "on"));
      destruct (strict_eq (chargingStatus (body ds)) (str "charging"));
      destruct (number_lt (ToNumber S2N (battery (body ds))) (Fin 10));
      destruct (isNaN (ToNumber S2N (battery (body ds))));
      cbn;
      destruct (strict_eq (fanSpeed (body ds)) JUndefined);
      reflexivity.
  - unfold Fan.openAPIRefreshStatus, seq. rewrite Hok. reflexivity.
  - reflexivity.
Qed.
(** ** Pushing over BLE when it fails *)

(** X10.  With no BLE driver at hand ([connectBLE] gave [false] or
    [undefined]) a push that has a change to send throws before anything
    is sent.  The subscriber reports the error on the three
    characteristics and lowers the flag; no confirmation refresh is
    subscribed and, unlike a refresh without a driver, there is no
    fallback to OpenAPI, whatever the connection type.  Active keeps
    the value the user set. *)
Theorem ble_push_without_driver :
  forall (cfg : Fan.config) (env : environment) (now : Z)
         (p : Fan.pipeline) (tr : list effect),
    overBLE cfg ->
    connectBLE env now = DriverFalse \/ connectBLE env now = DriverUndefined ->
    strict_eq (Fan.Active (Fan.this p)) (Fan.context_Active (Fan.this p)) = false ->
    Fan.debounced cfg env now (p, tr) =
    (Fan.set_this (Fan.set_plugUpdateInProgress false (Fan.this p)) p,
     tr ++ [Call Method.pushChanges; Call Method.BLEpushChanges;
            Call Method.apiError;
            UpdateCharacteristicError Characteristic.Active "TypeError";
            UpdateCharacteristicError Characteristic.RotationSpeed "TypeError";
            UpdateCharacteristicError Characteristic.SwingMode "TypeError"]).
Proof.
  intros cfg env now p tr (Hfirst & Hble) Hsb Hne.
  assert (Hbranch : negb (Fan.enableCloudService cfg) && Fan.OpenAPI cfg = false).
  { destruct Hfirst as [-> | ->]; [reflexivity|apply andb_false_r]. }
  unfold Fan.debounced, Fan.pushChanges, Fan.BLEpushChanges.
  rewrite Hbranch, Hble. cbn [fst snd emit]. rewrite Hne. cbn [negb].
  destruct Hsb as [-> | ->];
    unfold Fan.lift, Fan.apiError, seq, assign, emit; cbn [fst snd];
    destruct p as [o tk db cf]; cbn; rewrite <- !app_assoc; reflexivity.
Qed.

Lemma ble_push_without_driver_witness :
  overBLE Sample.fanConfigBLE /\
  dispatches
    (snd (Fan.debounced Sample.fanConfigBLE
            {| connectBLE := fun _ => DriverFalse;
               statusReply := fun _ => Threw "offline";
               commandReply := fun _ => Threw "offline";
               bleReply := fun _ => BleResolved |}
            100 (Fan.set_debounce None (fst Sample.fanSetOn), []))) = [] /\
  Fan.confirmations
    (fst (Fan.debounced Sample.fanConfigBLE
            {| connectBLE := fun _ => DriverFalse;
               statusReply := fun _ => Threw "offline";
               commandReply := fun _ => Threw "offline";
               bleReply := fun _ => BleResolved |}
            100 (Fan.set_debounce None (fst Sample.fanSetOn), []))) = O.
Proof.
  split; [split; [left; reflexivity|reflexivity]|].
  rewrite (ble_push_without_driver Sample.fanConfigBLE
             {| connectBLE := fun _ => DriverFalse;
                statusReply := fun _ => Threw "offline";
                commandReply := fun _ => Threw "offline";
                bleReply := fun _ => BleResolved |}
             100 (Fan.set_debounce None (fst Sample.fanSetOn)) []).
  - split; reflexivity.
  - split; [left; reflexivity|reflexivity].
  - left. reflexivity.
  - reflexivity.
Defined.

(** X11.  When the BLE command is rejected, the error is pushed to the
    three characteristics; with a token and connection type
    "BLE/OpenAPI" the same command is then sent once more over OpenAPI,
    and otherwise nothing more is sent.  Active keeps the value the user
    set, and the confirmation refresh has been subscribed before. *)
Theorem ble_rejection_falls_back :
  forall (cfg : Fan.config) (env : environment) (now : Z)
         (p : Fan.pipeline) (tr : list effect) (ad : option serviceData)
         (e : string),
    overBLE cfg ->
    connectBLE env now = Driver ad ->
    bleReply env now = BleRejected e ->
    strict_eq (Fan.Active (Fan.this p)) (Fan.context_Active (Fan.this p)) = false ->
    dispatches (snd (Fan.debounced cfg env now (p, tr))) =
      dispatches tr ++
      bleCommandFor (Fan.Active (Fan.this p)) ::
      (if Fan.token cfg && String.eqb (Fan.connectionType cfg) "BLE/OpenAPI"
       then [commandFor (Fan.Active (Fan.this p))] else []) /\
    In (UpdateCharacteristicError Characteristic.Active e)
       (snd (Fan.debounced cfg env now (p, tr))) /\
    In (SubscribeTake1 15000) (snd (Fan.debounced cfg env now (p, tr))) /\
    Fan.Active (Fan.this (fst (Fan.debounced cfg env now (p, tr)))) =
      Fan.Active (Fan.this p).
Proof.
  intros cfg env now p tr ad e (Hfirst & Hble) Hsb Hrej Hne.
  assert (Hbranch : negb (Fan.enableCloudService cfg) && Fan.OpenAPI cfg = false).
  { destruct Hfirst as [-> | ->]; [reflexivity|apply andb_false_r]. }
  unfold Fan.debounced, Fan.pushChanges, Fan.BLEpushChanges.
  rewrite Hbranch, Hble, Hsb, Hrej. cbn [fst snd emit]. rewrite Hne. cbn [negb].
  unfold Fan.lift, Fan.BLEpushChanges_chain, Fan.BLEPushConnection, Fan.apiError,
    bleCommandFor, commandFor, seq, assign.
  cbn [fst snd].
  destruct p as [o tk db cf]. destruct o as [A Sw Ro Ba Lo Ch cA cSw cRo cBa cLo cCh fl].
  cbn [Fan.this Fan.Active Fan.context_Active] in Hne.
  destruct (Fan.token cfg && String.eqb (Fan.connectionType cfg) "BLE/OpenAPI").
  - rewrite Fan_openAPIpushChanges_frame, Fan_openAPIpushChanges_effects.
    unfold emit. cbn.
    destruct (truthy A) eqn:Et; cbn; rewrite Hne, Et;
      (repeat split;
       [ repeat first [rewrite dispatches_app | rewrite dispatches_cons];
         destruct (commandReply env now) as [sc ds|e'];
         [destruct (dualStatusOk sc ds)|]; cbn; rewrite ?app_nil_r, <- ?app_assoc;
         reflexivity
       | rewrite !in_app_iff; cbn; tauto
       | rewrite !in_app_iff; cbn; tauto ]).
  - unfold emit, skip. cbn.
    destruct (truthy A) eqn:Et; cbn;
      (repeat split;
       [ repeat first [rewrite dispatches_app | rewrite dispatches_cons];
         cbn; rewrite ?app_nil_r, <- ?app_assoc; reflexivity
       | rewrite !in_app_iff; cbn; tauto
       | rewrite !in_app_iff; cbn; tauto ]).
Qed.

Lemma ble_rejection_falls_back_witness :
  overBLE Sample.fanConfigBLE /\
  dispatches
    (snd (Fan.debounced Sample.fanConfigBLE
            {| connectBLE := fun _ => Driver None;
               statusReply := fun _ => Threw "offline";
               commandReply := fun _ => Threw "offline";
               bleReply := fun _ => BleRejected "timeout" |}
            100 (Fan.set_debounce None (fst Sample.fanSetOn), []))) = [BleTurnOn].
Proof.
  split; [split; [left; reflexivity|reflexivity]|].
  apply (ble_rejection_falls_back Sample.fanConfigBLE
           {| connectBLE := fun _ => Driver None;
              statusReply := fun _ => Threw "offline";
              commandReply := fun _ => Threw "offline";
              bleReply := fun _ => BleRejected "timeout" |}
           100 (Fan.set_debounce None (fst Sample.fanSetOn)) [] None "timeout").
  - split; [left; reflexivity|reflexivity].
  - reflexivity.
  - reflexivity.
  - reflexivity.
Defined.
(** ** The contact sensor: what a poll publishes *)

Section ContactPublishing.
Variable StringToNumber : string -> number.
Variable cfg : Contact.config.







Lemma Contact_tail_battery ds w :
  Contact.BatteryLevel (fst (Contact.openAPIparseStatus_tail StringToNumber ds w)) =
    JNum (ToNumber StringToNumber (battery (body ds))) /\
  Contact.context_BatteryLevel
    (fst (Contact.openAPIparseStatus_tail StringToNumber ds w)) =
    Contact.context_BatteryLevel (fst w) /\
  Contact.CurrentAmbientLightLevel
    (fst (Contact.openAPIparseStatus_tail StringToNumber ds w)) =
    Contact.CurrentAmbientLightLevel (fst w) /\
  Contact.context_CurrentAmbientLightLevel
    (fst (Contact.openAPIparseStatus_tail StringToNumber ds w)) =
    Contact.context_CurrentAmbientLightLevel (fst w).
Proof.
  unfold Contact.openAPIparseStatus_tail, seq.
  rewrite firmwareVersion_fst, Contact_parseBattery_fst. repeat split.
Qed.

Lemma Contact_light_battery ds w :
  Contact.BatteryLevel (fst (Contact.openAPIparseStatus_light cfg ds w)) =
    Contact.BatteryLevel (fst w) /\
  Contact.context_BatteryLevel (fst (Contact.openAPIparseStatus_light cfg ds w)) =
    Contact.context_BatteryLevel (fst w) /\
  Contact.CurrentAmbientLightLevel (fst (Contact.openAPIparseStatus_light cfg ds w)) =
    (if strict_eq (brightness (body ds)) (str "dim")
     then Contact.minLux cfg else Contact.maxLux cfg) /\
  Contact.context_CurrentAmbientLightLevel
    (fst (Contact.openAPIparseStatus_light cfg ds w)) =
    Contact.context_CurrentAmbientLightLevel (fst w).
Proof.
  unfold Contact.openAPIparseStatus_light.
  destruct (strict_eq (brightness (body ds)) (str "dim")); repeat split.
Qed.

End ContactPublishing.



(** X13.  Whenever the light sensor is shown, whatever the device
    reports, a decoded light level is one of the two bounds [minLux()]
    and [maxLux()] -- over BLE, by poll and by webhook alike -- and the
    bounds are never 0, NaN or [undefined]: an unset, null or zero
    configured bound is replaced by 1 and by 6001. *)
Theorem contact_light_level_is_a_bound :
  forall (StringToNumber : string -> number) (cfg : Contact.config)
         (sd : serviceData) (ds : deviceStatus) (context : webhookContext)
         (w : world Contact.t),
    Contact.hide_lightsensor cfg = false ->
    (Contact.CurrentAmbientLightLevel
       (fst (Contact.BLEparseStatus StringToNumber cfg sd w)) = Contact.minLux cfg \/
     Contact.CurrentAmbientLightLevel
       (fst (Contact.BLEparseStatus StringToNumber cfg sd w)) = Contact.maxLux cfg) /\
    (Contact.CurrentAmbientLightLevel
       (fst (Contact.openAPIparseStatus StringToNumber cfg ds w)) = Contact.minLux cfg \/
     Contact.CurrentAmbientLightLevel
       (fst (Contact.openAPIparseStatus StringToNumber cfg ds w)) = Contact.maxLux cfg) /\
    (Contact.CurrentAmbientLightLevel
       (fst (Contact.webhookEventHandler cfg context w)) = Contact.minLux cfg \/
     Contact.CurrentAmbientLightLevel
       (fst (Contact.webhookEventHandler cfg context w)) = Contact.maxLux cfg) /\
    truthy (Contact.minLux cfg) = true /\
    truthy (Contact.maxLux cfg) = true /\
    (truthy (Contact.set_minLux cfg) = false -> Contact.minLux cfg = num 1) /\
    (truthy (Contact.set_maxLux cfg) = false -> Contact.maxLux cfg = num 6001).
Proof.
  intros S2N cfg sd ds context w Hl.
  split; [|split; [|split; [|split; [|split; [|split]]]]].
  - unfold Contact.BLEparseStatus. rewrite Hl. cbn [negb].
    match goal with
    | |- context [(?a ;; ?b ;; ?c ;; ?d ;; Contact.parseBattery ?s ?x) w] =>
        change ((a ;; b ;; c ;; d ;; Contact.parseBattery s x) w)
          with (Contact.parseBattery s x (d ((a ;; b ;; c) w)))
    end.
    rewrite Contact_parseBattery_fst.
    cbn [Contact.CurrentAmbientLightLevel Contact.set_StatusLowBattery
         Contact.set_BatteryLevel].
    destruct (strict_eq (sd_lightLevel sd) (JBool true)); [left|right]; reflexivity.
  - unfold Contact.openAPIparseStatus. rewrite Hl. cbn [negb]. unfold seq.
    destruct (Contact_tail_battery S2N ds
                (Contact.openAPIparseStatus_light cfg ds
                   (Contact.openAPIparseStatus_head cfg ds w))) as (_ & _ & -> & _).
    destruct (Contact_light_battery cfg ds (Contact.openAPIparseStatus_head cfg ds w))
      as (_ & _ & -> & _).
    destruct (strict_eq (brightness (body ds)) (str "dim")); [left|right]; reflexivity.
  - rewrite (proj2 (proj2 (sensed_inv _ _ _ _ (Contact_webhook_sensed cfg context w)))).
    rewrite Hl.
    destruct (strict_eq (wh_brightness context) (str "bright")); [right|left]; reflexivity.
  - unfold Contact.minLux. destruct (truthy (Contact.set_minLux cfg)) eqn:E;
      [exact E|reflexivity].
  - unfold Contact.maxLux. destruct (truthy (Contact.set_maxLux cfg)) eqn:E;
      [exact E|reflexivity].
  - unfold Contact.minLux. intros ->. reflexivity.
  - unfold Contact.maxLux. intros ->. reflexivity.
Qed.

Lemma contact_light_level_is_a_bound_witness :
  Contact.hide_lightsensor Sample.contactConfig = false /\
  Contact.minLux Sample.contactConfig = num 1 /\
  Contact.maxLux Sample.contactConfig = num 6001.
Proof.
  split; [reflexivity|].
  destruct (contact_light_level_is_a_bound digitsToNumber Sample.contactConfig
              (Sample.advertisement (str "open") (num 80))
              (Sample.answer 100 Sample.emptyBody)
              (Sample.contactEvent JUndefined JUndefined JUndefined)
              Sample.contact80 eq_refl)
    as (_ & _ & _ & _ & _ & Hmin & Hmax).
  split; [apply Hmin|apply Hmax]; reflexivity.
Defined.

(** X14.  A poll that is answered without success decodes nothing and
    leaves the contact sensor as it is.  It pushes the safe state
    (contact detected, no motion, 100 lux) to the registry exactly when
    the device is configured [offline] and the vendor status is 161 or
    171; the fan in the same situation pushes nothing at all. *)
Theorem failed_poll_publishes_safe_state_only_offline :
  forall (StringToNumber : string -> number) (cfg : Contact.config)
         (sc : Z) (ds : deviceStatus) (c : Contact.t) (f : Fan.t),
    ~ bothStatusesOk sc ds ->
    result (Contact.openAPIRefreshStatus StringToNumber cfg (Replied sc ds)) c = c /\
    filter is_publish
      (effects (Contact.openAPIRefreshStatus StringToNumber cfg (Replied sc ds)) c) =
      (if reportsOffline ds && Contact.offline cfg
       then Contact_safe_state cfg else []) /\
    result (Fan.openAPIRefreshStatus StringToNumber (Replied sc ds)) f = f /\
    filter is_publish
      (effects (Fan.openAPIRefreshStatus StringToNumber (Replied sc ds)) f) = [].
Proof.
  intros S2N cfg sc ds c f Hno. apply dualStatusOk_false_iff in Hno.
  unfold result, effects, Contact.openAPIRefreshStatus, Fan.openAPIRefreshStatus,
    Contact.offlineOff, Contact_safe_state, reportsOffline, statusCode, seq.
  rewrite Hno.
  destruct (strict_eq (ds_statusCode ds) (num 161) ||
            strict_eq (ds_statusCode ds) (num 171));
    destruct (Contact.offline cfg);
    destruct (Contact.hide_motionsensor cfg);
    destruct (Contact.hide_lightsensor cfg); repeat split.
Qed.

Lemma failed_poll_publishes_safe_state_only_offline_witness :
  ~ bothStatusesOk 200 (Sample.answer 171 Sample.emptyBody) /\
  filter is_publish
    (effects (Contact.openAPIRefreshStatus digitsToNumber Sample.contactConfig
                (Replied 200 (Sample.answer 171 Sample.emptyBody)))
       (fst Sample.contact80)) = [].
Proof.
  split; [apply dualStatusOk_false_iff; reflexivity|].
  destruct (failed_poll_publishes_safe_state_only_offline digitsToNumber
              Sample.contactConfig 200 (Sample.answer 171 Sample.emptyBody)
              (fst Sample.contact80) (fst Sample.fan0)) as (_ & H & _).
  - apply dualStatusOk_false_iff. reflexivity.
  - exact H.
Defined.
(** ** The vacuum cleaner: what one debounced emission sends *)

Ltac dispatches_norm :=
  unfold emit, skip; cbn [fst snd];
  repeat first [rewrite dispatches_app | rewrite dispatches_cons];
  cbn [is_dispatch app dispatches filter]; rewrite ?app_nil_r.

Lemma Vacuum_handleCommandReply_frame r (w : world RobotVacuumCleaner.t) :
  fst (RobotVacuumCleaner.handleCommandReply r w) = fst w /\
  dispatches (snd (RobotVacuumCleaner.handleCommandReply r w)) = dispatches (snd w).
Proof.
  unfold RobotVacuumCleaner.handleCommandReply, RobotVacuumCleaner.apiError,
    statusCode, seq, emit, skip.
  destruct r as [sc ds|e]; [destruct (dualStatusOk sc ds)|]; cbn [fst snd];
    dispatches_norm; split; reflexivity.
Qed.

Lemma Vacuum_brightness_frame r (w : world RobotVacuumCleaner.t) :
  fst (RobotVacuumCleaner.openAPIpushBrightnessChanges r w) = fst w /\
  dispatches (snd (RobotVacuumCleaner.openAPIpushBrightnessChanges r w)) =
    dispatches (snd w) ++ [post (RobotVacuumCleaner.brightnessCommands (fst w))].
Proof.
  unfold RobotVacuumCleaner.openAPIpushBrightnessChanges, post, seq.
  cbn [emit fst snd].
  destruct (RobotVacuumCleaner.brightnessCommands (fst w)) as [bc bp].
  match goal with
  | |- context [RobotVacuumCleaner.handleCommandReply r ?W] =>
      destruct (Vacuum_handleCommandReply_frame r W) as [E1 E2]
  end.
  rewrite E1, E2.
  cbn [emit fst snd]. dispatches_norm.
  split; reflexivity.
Qed.

Lemma Vacuum_openAPIpushChanges_frame r (w : world RobotVacuumCleaner.t) :
  RobotVacuumCleaner.openAPIpushChanges r w =
  (fst w, snd w ++ effects (RobotVacuumCleaner.openAPIpushChanges r) (fst w)).
Proof.
  destruct w as [v tr].
  unfold effects, RobotVacuumCleaner.openAPIpushChanges,
    RobotVacuumCleaner.handleCommandReply, RobotVacuumCleaner.apiError,
    RobotVacuumCleaner.commands, statusCode, seq, emit, skip.
  cbn [fst snd].
  destruct (strict_eq (RobotVacuumCleaner.On v) (RobotVacuumCleaner.context_On v));
    cbn [negb]; [reflexivity|].
  destruct (truthy (RobotVacuumCleaner.On v));
    (destruct r as [sc ds|e]; [destruct (dualStatusOk sc ds)|]);
    cbn [fst snd app]; rewrite <- ?app_assoc; reflexivity.
Qed.

Lemma Vacuum_pushChanges_frame cfg r (w : world RobotVacuumCleaner.t) :
  fst (RobotVacuumCleaner.pushChanges cfg r w) = fst w /\
  dispatches (snd (RobotVacuumCleaner.pushChanges cfg r w)) =
    dispatches (snd w) ++
    (if vacuumOverOpenAPI cfg &&
        negb (strict_eq (RobotVacuumCleaner.On (fst w))
                (RobotVacuumCleaner.context_On (fst w)))
     then [post (RobotVacuumCleaner.commands (fst w))] else []).
Proof.
  unfold RobotVacuumCleaner.pushChanges, RobotVacuumCleaner.offlineOff,
    vacuumOverOpenAPI, post, seq.
  destruct (negb (RobotVacuumCleaner.enableCloudService cfg) &&
            RobotVacuumCleaner.OpenAPI cfg); cbn [negb andb].
  - dispatches_norm. split; reflexivity.
  - destruct (RobotVacuumCleaner.OpenAPI cfg && RobotVacuumCleaner.token cfg);
      cbn [andb].
    + rewrite Vacuum_openAPIpushChanges_frame, Vacuum_openAPIpushChanges_effects.
      unfold RobotVacuumCleaner.commands. cbn [emit fst snd].
      destruct (strict_eq (RobotVacuumCleaner.On (fst w))
                  (RobotVacuumCleaner.context_On (fst w))); cbn [negb].
      * dispatches_norm. split; reflexivity.
      * destruct (truthy (RobotVacuumCleaner.On (fst w)));
          (destruct r as [sc ds|e]; [destruct (dualStatusOk sc ds)|]);
          dispatches_norm; split; reflexivity.
    + destruct (RobotVacuumCleaner.offline cfg); dispatches_norm; split; reflexivity.
Qed.

Lemma Vacuum_debounced_frame cfg r1 r2 (v : RobotVacuumCleaner.t) :
  dispatches (effects (RobotVacuumCleaner.debounced cfg r1 r2) v) =
    (if vacuumOverOpenAPI cfg &&
        negb (strict_eq (RobotVacuumCleaner.On v) (RobotVacuumCleaner.context_On v))
     then [post (RobotVacuumCleaner.commands v)] else []) ++
    (if truthy (RobotVacuumCleaner.On v) &&
        negb (strict_eq (RobotVacuumCleaner.Brightness v)
                (RobotVacuumCleaner.context_Brightness v))
     then [post (RobotVacuumCleaner.brightnessCommands v)] else []) /\
  result (RobotVacuumCleaner.debounced cfg r1 r2) v =
    RobotVacuumCleaner.set_robotVacuumCleanerUpdateInProgress false v.
Proof.
  unfold effects, result, RobotVacuumCleaner.debounced, seq.
  destruct (Vacuum_pushChanges_frame cfg r1 (v, [])) as [P1 P2].
  cbn [fst snd] in P1, P2 |- *.
  set (w1 := if negb (strict_eq (RobotVacuumCleaner.On v)
                         (RobotVacuumCleaner.context_On v))
             then RobotVacuumCleaner.pushChanges cfg r1 (v, []) else (v, [])).
  assert (E1 : fst w1 = v /\
               dispatches (snd w1) =
               (if vacuumOverOpenAPI cfg &&
                   negb (strict_eq (RobotVacuumCleaner.On v)
                           (RobotVacuumCleaner.context_On v))
                then [post (RobotVacuumCleaner.commands v)] else [])).
  { subst w1.
    destruct (strict_eq (RobotVacuumCleaner.On v) (RobotVacuumCleaner.context_On v));
      cbn [negb].
    - rewrite andb_false_r. split; reflexivity.
    - rewrite P1, P2. split; reflexivity. }
  destruct E1 as [F1 D1].
  destruct (Vacuum_brightness_frame r2 w1) as [B1 B2].
  rewrite F1 in *.
  destruct (truthy (RobotVacuumCleaner.On v) &&
            negb (strict_eq (RobotVacuumCleaner.Brightness v)
                    (RobotVacuumCleaner.context_Brightness v)));
    unfold assign; cbn [fst snd].
  - rewrite B1, B2, D1. split; reflexivity.
  - rewrite F1, D1, app_nil_r. split; reflexivity.
Qed.

(** X15.  One emission of the vacuum cleaner's debounced subject sends
    at most two commands, whatever the cloud answers: start or dock when
    On differs from its published value and the connection settings
    lead to OpenAPI, then the brightness command when On is truthy and
    Brightness differs from its published value.  The brightness
    command is posted whatever the connection settings are.  The
    subscriber lowers the flag and changes nothing else of the
    object. *)
Theorem vacuum_debounced_sends :
  forall (cfg : RobotVacuumCleaner.config) (r1 r2 : reply) (v : RobotVacuumCleaner.t),
    dispatches (effects (RobotVacuumCleaner.debounced cfg r1 r2) v) =
      (if vacuumOverOpenAPI cfg &&
          negb (strict_eq (RobotVacuumCleaner.On v) (RobotVacuumCleaner.context_On v))
       then [PostCommand (if truthy (RobotVacuumCleaner.On v) then "start" else "dock")
               "default" "command"]
       else []) ++
      (if truthy (RobotVacuumCleaner.On v) &&
          negb (strict_eq (RobotVacuumCleaner.Brightness v)
                  (RobotVacuumCleaner.context_Brightness v))
       then [post (RobotVacuumCleaner.brightnessCommands v)] else []) /\
    result (RobotVacuumCleaner.debounced cfg r1 r2) v =
      RobotVacuumCleaner.set_robotVacuumCleanerUpdateInProgress false v.
Proof.
  intros cfg r1 r2 v.
  destruct (Vacuum_debounced_frame cfg r1 r2 v) as [-> ->].
  split; [|reflexivity].
  unfold post, RobotVacuumCleaner.commands.
  destruct (truthy (RobotVacuumCleaner.On v)); reflexivity.
Qed.

(** X16.  On a running vacuum cleaner, a Brightness that differs from
    the published one and is none of the steps 25, 50, 75 and 100 (0
    is among the values the characteristic allows) makes the debounced
    subscriber post the command "dock": the cleaner is sent home.  On
    the steps it posts PowLevel 0 to 3. *)
Theorem off_step_brightness_docks :
  forall (cfg : RobotVacuumCleaner.config) (r1 r2 : reply) (v : RobotVacuumCleaner.t),
    truthy (RobotVacuumCleaner.On v) = true ->
    strict_eq (RobotVacuumCleaner.Brightness v)
      (RobotVacuumCleaner.context_Brightness v) = false ->
    (off_step (RobotVacuumCleaner.Brightness v) = true ->
     In (PostCommand "dock" "default" "command")
        (dispatches (effects (RobotVacuumCleaner.debounced cfg r1 r2) v))) /\
    (off_step (RobotVacuumCleaner.Brightness v) = false ->
     exists level,
       In (PostCommand "PowLevel" level "command")
          (dispatches (effects (RobotVacuumCleaner.debounced cfg r1 r2) v)) /\
       In level ["0"; "1"; "2"; "3"]).
Proof.
  intros cfg r1 r2 v Hon Hne.
  destruct (Vacuum_debounced_frame cfg r1 r2 v) as [-> _].
  rewrite Hon, Hne. cbn [negb andb].
  unfold off_step, post, RobotVacuumCleaner.brightnessCommands.
  destruct (strict_eq (RobotVacuumCleaner.Brightness v) (num 25));
    [|destruct (strict_eq (RobotVacuumCleaner.Brightness v) (num 50));
      [|destruct (strict_eq (RobotVacuumCleaner.Brightness v) (num 75));
        [|destruct (strict_eq (RobotVacuumCleaner.Brightness v) (num 100))]]];
    cbn [negb orb fst snd]; (split; [intros H|intros H]; try discriminate H).
  - exists "0". rewrite in_app_iff. cbn. tauto.
  - exists "1". rewrite in_app_iff. cbn. tauto.
  - exists "2". rewrite in_app_iff. cbn. tauto.
  - exists "3". rewrite in_app_iff. cbn. tauto.
  - rewrite in_app_iff. cbn. tauto.
Qed.

Lemma off_step_brightness_docks_witness :
  truthy (RobotVacuumCleaner.On
            (fst (RobotVacuumCleaner.BrightnessSet (num 0) (fst Sample.vacuum0, [])))) =
    true /\
  off_step (RobotVacuumCleaner.Brightness
              (fst (RobotVacuumCleaner.BrightnessSet (num 0) (fst Sample.vacuum0, [])))) =
    true /\
  In (PostCommand "dock" "default" "command")
     (dispatches
        (effects
           (RobotVacuumCleaner.debounced Sample.vacuumConfig
              (Replied 200 (Sample.answer 100 Sample.emptyBody))
              (Replied 200 (Sample.answer 100 Sample.emptyBody)))
           (fst (RobotVacuumCleaner.BrightnessSet (num 0) (fst Sample.vacuum0, []))))).
Proof.
  split; [reflexivity|]. split; [reflexivity|].
  destruct (off_step_brightness_docks Sample.vacuumConfig
              (Replied 200 (Sample.answer 100 Sample.emptyBody))
              (Replied 200 (Sample.answer 100 Sample.emptyBody))
              (fst (RobotVacuumCleaner.BrightnessSet (num 0) (fst Sample.vacuum0, []))))
    as [H _].
  - reflexivity.
  - reflexivity.
  - apply H. reflexivity.
Defined.
(** ** Infrared devices of type [Others] *)

Ltac type_case deviceType name :=
  let E := fresh "Etype" in
  destruct (String.eqb deviceType name) eqn:E;
  [apply String.eqb_eq in E; subst deviceType|].

Ltac type_cases deviceType :=
  type_case deviceType "switch";
  [|type_case deviceType "garagedoor";
    [|type_case deviceType "door";
      [|type_case deviceType "window";
        [|type_case deviceType "windowcovering";
          [|type_case deviceType "lock";
            [|type_case deviceType "faucet";
              [|type_case deviceType "fan";
                [|type_case deviceType "stateful"]]]]]]]].

Ltac eqb_compute :=
  repeat match goal with
    | |- context [String.eqb (String ?c ?a) (String ?d ?b)] =>
        let v := eval vm_compute in (String.eqb (String c a) (String d b)) in
        change (String.eqb (String c a) (String d b)) with v
    end.

Lemma part_eqb_refl (p : OthersAccessory.part) : OthersAccessory.part_eqb p p = true.
Proof. destruct p; reflexivity. Qed.

Lemma Others_OnSet_target_member (deviceType : string) (value : jsval) :
  deviceType <> "switch" -> deviceType <> "fan" ->
  fst (OthersAccessory.OnSet_target deviceType value) =
  OthersAccessory.member_of deviceType.
Proof.
  intros Hs Hf.
  unfold OthersAccessory.OnSet_target, OthersAccessory.member_of.
  type_cases deviceType; try reflexivity; congruence.
Qed.

Lemma Others_updateHomeKit_snd (w : world OthersAccessory.t) :
  snd (OthersAccessory.updateHomeKitCharacteristics w) =
  snd w ++ [Call Method.updateHomeKitCharacteristics].
Proof.
  unfold OthersAccessory.updateHomeKitCharacteristics, OthersAccessory.with_member,
    OthersAccessory.updatePosition, OthersAccessory.updateCharacteristic,
    seq, assign, emit, skip.
  cbn [fst snd].
  repeat match goal with
    | |- context [String.eqb ?a ?b] => destruct (String.eqb a b)
    end;
    match goal with
    | |- context [OthersAccessory.members ?o ?p] =>
        destruct (OthersAccessory.members o p) as [on|]; [|reflexivity]
    end;
    destruct (strict_eq on JUndefined); try reflexivity;
    destruct (truthy on); reflexivity.
Qed.

Lemma Others_apiError_snd (e : string) (w : world OthersAccessory.t) :
  snd (OthersAccessory.apiError e w) = snd w ++ [Call Method.apiError].
Proof.
  unfold OthersAccessory.apiError, OthersAccessory.with_member,
    OthersAccessory.updateCharacteristicError, seq, assign, emit, skip.
  cbn [fst snd].
  repeat match goal with
    | |- context [String.eqb ?a ?b] => destruct (String.eqb a b)
    end;
    match goal with
    | |- context [OthersAccessory.members ?o ?p] =>
        destruct (OthersAccessory.members o p) as [on|]; reflexivity
    end.
Qed.

Lemma Others_pushChanges_dispatches cfg command parameter commandType r
    (w : world OthersAccessory.t) :
  dispatches
    (snd (Others.pushChanges (OthersAccessory.connectionType cfg)
            OthersAccessory.updateHomeKitCharacteristics OthersAccessory.apiError
            command parameter commandType r w)) =
  dispatches (snd w) ++
  (if String.eqb (OthersAccessory.connectionType cfg) "OpenAPI"
   then [PostCommand command parameter commandType] else []).
Proof.
  unfold Others.pushChanges, statusCode, seq.
  destruct (String.eqb (OthersAccessory.connectionType cfg) "OpenAPI").
  - destruct r as [sc ds|e]; [destruct (dualStatusOk sc ds)|];
      rewrite ?Others_updateHomeKit_snd, ?Others_apiError_snd;
      unfold emit, skip; cbn [fst snd];
      repeat first [rewrite dispatches_app | rewrite dispatches_cons];
      cbn [is_dispatch app dispatches filter]; rewrite ?app_nil_r; reflexivity.
  - unfold emit, skip. cbn [fst snd]. rewrite dispatches_app. reflexivity.
Qed.

(** X17.  An [Others] accessory displayed as a switch or as a fan cannot
    be operated: [OnSet] falls through to the branch of the outlet,
    which writes [this.Outlet.On] while the constructor has initialised
    [Switch] or [Fan] only.  The call is rejected with a TypeError;
    nothing is stored, sent or published. *)
Theorem others_switch_and_fan_reject_OnSet :
  forall (cfg : OthersAccessory.config) (base : OthersAccessory.irdeviceBase)
         (r : reply) (deviceType : string) (context_On value : jsval)
         (tr : list effect),
    deviceType = "switch" \/ deviceType = "fan" ->
    OthersAccessory.OnSet cfg base r value
      (OthersAccessory.construct deviceType context_On, tr) =
    (OthersAccessory.Rejected "TypeError",
     (OthersAccessory.construct deviceType context_On, tr)).
Proof.
  intros cfg base r deviceType context_On value tr [-> | ->]; reflexivity.
Qed.

Lemma others_switch_and_fan_reject_OnSet_witness :
  OthersAccessory.OnSet othersConfig irBase
    (Replied 200 (Sample.answer 100 Sample.emptyBody)) (JBool true)
    (OthersAccessory.construct "switch" JUndefined, []) =
  (OthersAccessory.Rejected "TypeError",
   (OthersAccessory.construct "switch" JUndefined, [])).
Proof.
  apply (others_switch_and_fan_reject_OnSet othersConfig irBase
           (Replied 200 (Sample.answer 100 Sample.emptyBody)) "switch"
           JUndefined (JBool true) []).
  left. reflexivity.
Defined.

(** X18.  For every other device type, [OnSet] returns and sends at
    most one command, whatever the cloud answers: the on-command when
    the value switches the device on and the off-command otherwise,
    with parameter "default", and only when [device.customize] is set,
    the connection type is OpenAPI and the push in that direction is
    not disabled.  Without [customize] nothing is ever sent. *)
Theorem others_OnSet_sends_at_most_one_command :
  forall (cfg : OthersAccessory.config) (base : OthersAccessory.irdeviceBase)
         (r : reply) (deviceType : string) (context_On value : jsval),
    deviceType <> "switch" -> deviceType <> "fan" ->
    fst (OthersAccessory.OnSet cfg base r value
           (OthersAccessory.construct deviceType context_On, [])) =
      OthersAccessory.Returned /\
    dispatches
      (snd (snd (OthersAccessory.OnSet cfg base r value
                   (OthersAccessory.construct deviceType context_On, [])))) =
      (if posts_command cfg base
            (truthy (snd (OthersAccessory.OnSet_target deviceType value)))
       then [PostCommand
               (if truthy (snd (OthersAccessory.OnSet_target deviceType value))
                then OthersAccessory.commandOn base
                else OthersAccessory.commandOff base)
               "default" (OthersAccessory.commandType base)]
       else []).
Proof.
  intros cfg base r deviceType context_On value Hs Hf.
  pose proof (Others_OnSet_target_member deviceType value Hs Hf) as Hm.
  unfold OthersAccessory.OnSet. cbn [fst OthersAccessory.construct
    OthersAccessory.otherDeviceType OthersAccessory.members].
  destruct (OthersAccessory.OnSet_target deviceType value) as [p stored].
  cbn [fst snd] in *. subst p. rewrite part_eqb_refl. cbn [fst snd].
  split; [reflexivity|].
  unfold posts_command, OthersAccessory.pushOnChanges, OthersAccessory.pushOffChanges.
  destruct (truthy stored); cbn [negb andb];
    destruct (OthersAccessory.customize cfg); cbn [andb];
    try (rewrite andb_false_r || idtac); try reflexivity.
  - destruct (OthersAccessory.disablePushOn base); cbn [negb andb].
    + rewrite andb_false_r. reflexivity.
    + rewrite Others_pushChanges_dispatches, andb_true_r.
      destruct (String.eqb (OthersAccessory.connectionType cfg) "OpenAPI");
        reflexivity.
  - destruct (OthersAccessory.disablePushOff base); cbn [negb andb].
    + rewrite andb_false_r. reflexivity.
    + rewrite Others_pushChanges_dispatches, andb_true_r.
      destruct (String.eqb (OthersAccessory.connectionType cfg) "OpenAPI");
        reflexivity.
Qed.

Lemma others_OnSet_sends_at_most_one_command_witness :
  "lock" <> "switch" /\ "lock" <> "fan" /\
  dispatches
    (snd (snd (OthersAccessory.OnSet othersConfig irBase
                 (Replied 200 (Sample.answer 100 Sample.emptyBody))
                 OthersAccessory.LockTargetState_UNSECURED
                 (OthersAccessory.construct "lock" JUndefined, [])))) =
    [PostCommand "On" "default" "customize"].
Proof.
  split; [discriminate|]. split; [discriminate|].
  apply (others_OnSet_sends_at_most_one_command othersConfig irBase
           (Replied 200 (Sample.answer 100 Sample.emptyBody)) "lock" JUndefined
           OthersAccessory.LockTargetState_UNSECURED); discriminate.
Defined.
Lemma strict_eq_num_other (v : jsval) (a b : Z) :
  a <> b -> strict_eq v (num a) = true -> strict_eq v (num b) = false.
Proof.
  intros Hab Ha. apply strict_eq_num in Ha. destruct Ha as (q & -> & Hq).
  cbn. apply not_true_is_false. intros Hb. apply Qeq_bool_iff in Hb.
  rewrite Hq in Hb. apply Hab. unfold Qeq in Hb. cbn in Hb. lia.
Qed.

Lemma strict_eq_num_sym (v : jsval) (a : Z) :
  strict_eq v (num a) = true -> strict_eq (num a) v = true.
Proof.
  intros Ha. apply strict_eq_num in Ha. destruct Ha as (q & -> & Hq).
  cbn. apply Qeq_bool_iff. now symmetry.
Qed.

Lemma Others_accepted_updates cfg base sc ds deviceType context_On value :
  deviceType <> "switch" -> deviceType <> "fan" ->
  posts_command cfg base
    (truthy (snd (OthersAccessory.OnSet_target deviceType value))) = true ->
  dualStatusOk sc ds = true ->
  OthersAccessory.updates
    (fst (snd (OthersAccessory.OnSet cfg base (Replied sc ds) value
                 (OthersAccessory.construct deviceType context_On, [])))) =
  OthersAccessory.updates
    (fst (OthersAccessory.updateHomeKitCharacteristics
            (OthersAccessory.set_member (OthersAccessory.member_of deviceType)
               (snd (OthersAccessory.OnSet_target deviceType value))
               (OthersAccessory.construct deviceType context_On),
             [Call Method.pushChanges;
              PostCommand
                (if truthy (snd (OthersAccessory.OnSet_target deviceType value))
                 then OthersAccessory.commandOn base
                 else OthersAccessory.commandOff base)
                "default" (OthersAccessory.commandType base)]))).
Proof.
  intros Hs Hf Hp Hok.
  pose proof (Others_OnSet_target_member deviceType value Hs Hf) as Hm.
  unfold OthersAccessory.OnSet. cbn [fst OthersAccessory.construct
    OthersAccessory.otherDeviceType OthersAccessory.members].
  destruct (OthersAccessory.OnSet_target deviceType value) as [p stored].
  cbn [fst snd] in *. subst p. rewrite part_eqb_refl. cbn [fst snd].
  unfold posts_command in Hp.
  apply andb_true_iff in Hp. destruct Hp as [Hp Hd].
  apply andb_true_iff in Hp. destruct Hp as [Hc Ho].
  unfold OthersAccessory.pushOnChanges, OthersAccessory.pushOffChanges,
    Others.pushChanges, seq.
  rewrite Hc, Ho, Hok.
  destruct (truthy stored); cbn [negb andb] in *; rewrite Hd; reflexivity.
Qed.

(** X19.  When the command is accepted, the value HomeKit has set comes
    back to it unchanged for the values that name a state of the device:
    0 and 1 of the target door state, the lock target state, Active and
    the output state, 0 and 100 of a target position, and the booleans of
    an outlet.  The registry receives the target characteristic of the
    device type with a value that is strictly equal to the one set. *)
Theorem others_accepted_command_publishes_target :
  forall (cfg : OthersAccessory.config) (base : OthersAccessory.irdeviceBase)
         (sc : Z) (ds : deviceStatus) (deviceType : string)
         (context_On value : jsval),
    posts_command cfg base
      (truthy (snd (OthersAccessory.OnSet_target deviceType value))) = true ->
    bothStatusesOk sc ds ->
    end_value deviceType value = true ->
    exists v,
      In (OthersAccessory.Update (OthersAccessory.member_of deviceType)
            (target_of deviceType) v)
         (OthersAccessory.updates
            (fst (snd (OthersAccessory.OnSet cfg base (Replied sc ds) value
                         (OthersAccessory.construct deviceType context_On, []))))) /\
      strict_eq v value = true.
Proof.
  intros cfg base sc ds deviceType context_On value Hp Hok Hv.
  apply dualStatusOk_iff in Hok.
  assert (Hs : deviceType <> "switch")
    by (intros ->; discriminate Hv).
  assert (Hf : deviceType <> "fan")
    by (intros ->; discriminate Hv).
  rewrite (Others_accepted_updates cfg base sc ds deviceType context_On value
             Hs Hf Hp Hok).
  clear Hp.
  unfold end_value in Hv.
  unfold OthersAccessory.updateHomeKitCharacteristics, OthersAccessory.with_member,
    OthersAccessory.updatePosition, OthersAccessory.updateCharacteristic,
    OthersAccessory.OnSet_target, OthersAccessory.member_of, target_of,
    seq, assign, emit, skip.
  cbn [fst snd OthersAccessory.set_member OthersAccessory.construct
       OthersAccessory.otherDeviceType OthersAccessory.members
       OthersAccessory.updates].
  unfold OthersAccessory.TargetDoorState_CLOSED,
    OthersAccessory.LockTargetState_SECURED, HAP.Active_INACTIVE.
  revert Hv.
  type_cases deviceType; try congruence;
    eqb_compute; cbn [orb fst snd OthersAccessory.part_eqb]; intros Hv;
    apply orb_true_iff in Hv; destruct Hv as [Hv|Hv].
  - (* garagedoor, 0 *)
    rewrite (strict_eq_num_other value 0 1) by (lia || assumption).
    exists OthersAccessory.TargetDoorState_OPEN.
    split; [cbn; tauto|now apply strict_eq_num_sym].
  - rewrite Hv.
    exists OthersAccessory.TargetDoorState_CLOSED.
    split; [cbn; tauto|now apply strict_eq_num_sym].
  - (* door *)
    rewrite Hv. exists (num 0).
    split; [cbn; tauto|now apply strict_eq_num_sym].
  - rewrite (strict_eq_num_other value 100 0) by (lia || assumption).
    exists (num 100).
    split; [cbn; tauto|now apply strict_eq_num_sym].
  - (* window *)
    rewrite Hv. exists (num 0).
    split; [cbn; tauto|now apply strict_eq_num_sym].
  - rewrite (strict_eq_num_other value 100 0) by (lia || assumption).
    exists (num 100).
    split; [cbn; tauto|now apply strict_eq_num_sym].
  - (* windowcovering *)
    rewrite Hv. exists (num 0).
    split; [cbn; tauto|now apply strict_eq_num_sym].
  - rewrite (strict_eq_num_other value 100 0) by (lia || assumption).
    exists (num 100).
    split; [cbn; tauto|now apply strict_eq_num_sym].
  - (* lock *)
    rewrite (strict_eq_num_other value 0 1) by (lia || assumption).
    exists OthersAccessory.LockTargetState_UNSECURED.
    split; [cbn; tauto|now apply strict_eq_num_sym].
  - rewrite Hv.
    exists OthersAccessory.LockTargetState_SECURED.
    split; [cbn; tauto|now apply strict_eq_num_sym].
  - (* faucet *)
    rewrite Hv.
    exists HAP.Active_INACTIVE.
    split; [cbn; tauto|now apply strict_eq_num_sym].
  - rewrite (strict_eq_num_other value 1 0) by (lia || assumption).
    exists HAP.Active_ACTIVE.
    split; [cbn; tauto|now apply strict_eq_num_sym].
  - (* stateful *)
    rewrite Hv. exists (num 0).
    split; [cbn; tauto|now apply strict_eq_num_sym].
  - rewrite (strict_eq_num_other value 1 0) by (lia || assumption).
    exists (num 1).
    split; [cbn; tauto|now apply strict_eq_num_sym].
  - (* outlet *)
    destruct value as [| |[|]| |]; try discriminate Hv.
    exists (JBool true). split; [cbn; tauto|reflexivity].
  - destruct value as [| |[|]| |]; try discriminate Hv.
    exists (JBool false). split; [cbn; tauto|reflexivity].
Qed.
Lemma others_accepted_command_publishes_target_witness :
  posts_command othersConfig irBase
    (truthy (snd (OthersAccessory.OnSet_target "garagedoor"
                    OthersAccessory.TargetDoorState_CLOSED))) = true /\
  bothStatusesOk 200 (Sample.answer 100 Sample.emptyBody) /\
  end_value "garagedoor" OthersAccessory.TargetDoorState_CLOSED = true /\
  exists v,
    In (OthersAccessory.Update OthersAccessory.GarageDoor
          OthersAccessory.TargetDoorState v)
       (OthersAccessory.updates
          (fst (snd (OthersAccessory.OnSet othersConfig irBase
                       (Replied 200 (Sample.answer 100 Sample.emptyBody))
                       OthersAccessory.TargetDoorState_CLOSED
                       (OthersAccessory.construct "garagedoor" JUndefined, []))))) /\
    strict_eq v OthersAccessory.TargetDoorState_CLOSED = true.
Proof.
  split; [reflexivity|]. split; [apply dualStatusOk_iff; reflexivity|].
  split; [reflexivity|].
  apply (others_accepted_command_publishes_target othersConfig irBase 200
           (Sample.answer 100 Sample.emptyBody) "garagedoor" JUndefined
           OthersAccessory.TargetDoorState_CLOSED).
  - reflexivity.
  - apply dualStatusOk_iff. reflexivity.
  - reflexivity.
Defined.

(** X20.  [apiError] shows a failed request on at least one
    characteristic of the accessory's own service for every device type
    but the lock: its branch goes through [this.Door], which the
    constructor of a lock has not initialised, so the method throws in a
    promise nobody awaits and no characteristic learns of the error. *)
Theorem others_lock_error_is_not_shown :
  forall (deviceType : string) (context_On : jsval) (e : string)
         (tr : list effect),
    (deviceType = "lock" ->
     OthersAccessory.apiError e (OthersAccessory.construct deviceType context_On, tr) =
     (OthersAccessory.construct deviceType context_On, tr ++ [Call Method.apiError])) /\
    (deviceType <> "lock" ->
     exists c,
       In (OthersAccessory.UpdateError (OthersAccessory.member_of deviceType) c e)
          (OthersAccessory.updates
             (fst (OthersAccessory.apiError e
                     (OthersAccessory.construct deviceType context_On, tr))))).
Proof.
  intros deviceType context_On e tr. split.
  - intros ->. reflexivity.
  - unfold OthersAccessory.apiError, OthersAccessory.with_member,
      OthersAccessory.updateCharacteristicError, OthersAccessory.construct,
      OthersAccessory.member_of, seq, assign, emit.
    cbn [fst snd OthersAccessory.otherDeviceType OthersAccessory.members].
    type_cases deviceType; eqb_compute; cbn [fst snd OthersAccessory.part_eqb];
      intros Hl; try congruence; eexists; cbn; left; reflexivity.
Qed.
(** ** What a successful status answer decodes and publishes *)

Lemma pushed_app (c : Characteristic.t) (l1 l2 : list effect) :
  pushed c (l1 ++ l2) = pushed c l1 ++ pushed c l2.
Proof. unfold pushed. apply flat_map_app. Qed.

Lemma pushed_map_same (c : Characteristic.t) (l : list jsval) :
  same_characteristic c c = true ->
  pushed c (map (UpdateCharacteristic c) l) = l.
Proof.
  intros H. induction l as [|v l IH]; [reflexivity|].
  cbn. rewrite H. cbn. f_equal. exact IH.
Qed.

Lemma pushed_map_other (c c' : Characteristic.t) (l : list jsval) :
  same_characteristic c c' = false ->
  pushed c (map (UpdateCharacteristic c') l) = [].
Proof.
  intros H. induction l as [|v l IH]; [reflexivity|].
  cbn. rewrite H. exact IH.
Qed.

Lemma pushed_emit {O : Type} (c : Characteristic.t) (e : effect) (w : world O) :
  pushed c (snd (emit e w)) = pushed c (snd w) ++ pushed c [e].
Proof. unfold emit. cbn [snd]. apply pushed_app. Qed.


(** One publish block of the fan: what it pushes, and what it keeps. *)
Lemma Fan_publish_pushed c c' get set (w : world Fan.t) :
  pushed c (snd (Fan.publish c' get set w)) =
  pushed c (snd w) ++
  (if same_characteristic c c' then push_of (get (fst w)) else []).
Proof.
  unfold Fan.publish, push_of. cbv zeta.
  destruct (strict_eq (get (fst w)) JUndefined).
  - destruct (same_characteristic c c'); now rewrite app_nil_r.
  - unfold seq, assign. rewrite pushed_emit. cbn [snd pushed flat_map].
    destruct (same_characteristic c c'); reflexivity.
Qed.

Lemma Fan_publish_keeps {A : Type} (g : Fan.t -> A) c get set :
  (forall v o, g (set v o) = g o) ->
  forall w, g (fst (Fan.publish c get set w)) = g (fst w).
Proof.
  intros H w. unfold Fan.publish. cbv zeta.
  destruct (strict_eq (get (fst w)) JUndefined); [reflexivity|].
  unfold seq, assign, emit. cbn [fst]. apply H.
Qed.

Lemma Fan_publish_copies (g : Fan.t -> jsval) c get set :
  (forall v o, g (set v o) = v) ->
  forall w, g (fst (Fan.publish c get set w)) = published (get (fst w)) (g (fst w)).
Proof.
  intros H w. unfold Fan.publish, published. cbv zeta.
  destruct (strict_eq (get (fst w)) JUndefined); [reflexivity|].
  unfold seq, assign, emit. cbn [fst]. apply H.
Qed.

Ltac fan_publish_fields :=
  repeat match goal with
    | |- context [?g (fst (Fan.publish ?c ?get ?set ?w))] =>
        first
          [ rewrite (Fan_publish_keeps g c get set (fun v o => eq_refl) w)
          | rewrite (Fan_publish_copies g c get set (fun v o => eq_refl) w) ]
    end.


Section Decoding.
Variable StringToNumber : string -> number.


End Decoding.

Section ContactDecoding.
Variable StringToNumber : string -> number.
Variable cfg : Contact.config.











End ContactDecoding.

Section FanPolling.
Variable StringToNumber : string -> number.


End FanPolling.

(** ** The dual status check *)




(** ** What the constructor leaves *)

Lemma or_else_defined (c d : jsval) :
  strict_eq d JUndefined = false -> strict_eq (or_else c d) JUndefined = false.
Proof.
  intros Hd. unfold or_else. destruct (truthy c) eqn:E; [|exact Hd].
  destruct c; try reflexivity; discriminate E.
Qed.

Lemma truthy_strict_eq_refl (c : jsval) : truthy c = true -> strict_eq c c = true.
Proof.
  destruct c as [| |b|[| | |q]|s]; cbn; intros H; try discriminate H;
    try reflexivity.
  - apply Bool.eqb_reflx.
  - apply Qeq_bool_iff. reflexivity.
  - apply String.eqb_refl.
Qed.

Lemma or_else_strict_eq_refl (c d : jsval) :
  strict_eq d d = true -> strict_eq (or_else c d) (or_else c d) = true.
Proof.
  intros Hd. unfold or_else. destruct (truthy c) eqn:E; [|exact Hd].
  now apply truthy_strict_eq_refl.
Qed.

Lemma published_defined (v old : jsval) :
  strict_eq v JUndefined = false -> published v old = v.
Proof. intros H. unfold published. now rewrite H. Qed.

Lemma Vacuum_updateHomeKit_fst (w : world RobotVacuumCleaner.t) :
  fst (RobotVacuumCleaner.updateHomeKitCharacteristics w) = Vacuum_published (fst w).
Proof.
  destruct w as [o tr]. destruct o.
  unfold RobotVacuumCleaner.updateHomeKitCharacteristics, RobotVacuumCleaner.publish,
    Vacuum_published, published, seq, assign, emit.
  cbn.
  destruct (strict_eq On JUndefined); cbn;
    destruct (strict_eq Brightness JUndefined); cbn;
    destruct (strict_eq BatteryLevel JUndefined); cbn;
    destruct (strict_eq StatusLowBattery JUndefined); reflexivity.
Qed.

(** ** The fan on an accessory without a Battery service *)

Lemma Fan_updateHomeKit_on_true (w : world Fan.t) :
  Fan_updateHomeKitCharacteristics_on true w = Fan.updateHomeKitCharacteristics w.
Proof. reflexivity. Qed.

Lemma Fan_webhook_on_true (context : webhookContext) (w : world Fan.t) :
  Fan_webhookEventHandler_on true context w = Fan.webhookEventHandler context w.
Proof. reflexivity. Qed.

(** The blocks of the Fan service. *)
Lemma Fan_publishFan_fst (w : world Fan.t) :
  let o := fst w in
  let o' := fst (Fan_publishFan w) in
  (Fan.Active o' = Fan.Active o /\ Fan.SwingMode o' = Fan.SwingMode o /\
   Fan.RotationSpeed o' = Fan.RotationSpeed o /\
   Fan.BatteryLevel o' = Fan.BatteryLevel o /\
   Fan.StatusLowBattery o' = Fan.StatusLowBattery o /\
   Fan.ChargingState o' = Fan.ChargingState o /\
   Fan.plugUpdateInProgress o' = Fan.plugUpdateInProgress o) /\
  (Fan.context_Active o' = published (Fan.Active o) (Fan.context_Active o) /\
   Fan.context_SwingMode o' = published (Fan.SwingMode o) (Fan.context_SwingMode o) /\
   Fan.context_RotationSpeed o' =
     published (Fan.RotationSpeed o) (Fan.context_RotationSpeed o)) /\
  (Fan.context_BatteryLevel o' = Fan.context_BatteryLevel o /\
   Fan.context_ChargingState o' = Fan.context_ChargingState o /\
   Fan.context_StatusLowBattery o' = Fan.context_StatusLowBattery o).
Proof.
  cbv zeta. unfold Fan_publishFan, seq. fan_publish_fields.
  cbn [fst emit]. repeat split; reflexivity.
Qed.

Lemma Fan_publishFan_pushed c (w : world Fan.t) :
  pushed c (snd (Fan_publishFan w)) =
  pushed c (snd w) ++
  (if same_characteristic c Characteristic.Active
   then push_of (Fan.Active (fst w)) else []) ++
  (if same_characteristic c Characteristic.RotationSpeed
   then push_of (Fan.RotationSpeed (fst w)) else []) ++
  (if same_characteristic c Characteristic.SwingMode
   then push_of (Fan.SwingMode (fst w)) else []).
Proof.
  unfold Fan_publishFan, seq.
  rewrite !Fan_publish_pushed. fan_publish_fields.
  rewrite pushed_emit. cbn [fst emit pushed flat_map app].
  rewrite app_nil_r, <- !app_assoc. reflexivity.
Qed.

(** The battery blocks, with the service and without. *)
Lemma Fan_publishBattery_fst (w : world Fan.t) :
  let o := fst w in
  let o' := fst (Fan_publishBattery w) in
  (Fan.Active o' = Fan.Active o /\ Fan.SwingMode o' = Fan.SwingMode o /\
   Fan.RotationSpeed o' = Fan.RotationSpeed o /\
   Fan.BatteryLevel o' = Fan.BatteryLevel o /\
   Fan.StatusLowBattery o' = Fan.StatusLowBattery o /\
   Fan.ChargingState o' = Fan.ChargingState o /\
   Fan.plugUpdateInProgress o' = Fan.plugUpdateInProgress o) /\
  (Fan.context_Active o' = Fan.context_Active o /\
   Fan.context_SwingMode o' = Fan.context_SwingMode o /\
   Fan.context_RotationSpeed o' = Fan.context_RotationSpeed o) /\
  (Fan.context_BatteryLevel o' =
     published (Fan.BatteryLevel o) (Fan.context_BatteryLevel o) /\
   Fan.context_ChargingState o' =
     published (Fan.ChargingState o) (Fan.context_ChargingState o) /\
   Fan.context_StatusLowBattery o' =
     published (Fan.StatusLowBattery o) (Fan.context_StatusLowBattery o)).
Proof.
  cbv zeta. unfold Fan_publishBattery, seq. fan_publish_fields.
  repeat split; reflexivity.
Qed.

Lemma Fan_publishBattery_pushed c (w : world Fan.t) :
  pushed c (snd (Fan_publishBattery w)) =
  pushed c (snd w) ++
  (if same_characteristic c Characteristic.BatteryLevel
   then push_of (Fan.BatteryLevel (fst w)) else []) ++
  (if same_characteristic c Characteristic.ChargingState
   then push_of (Fan.ChargingState (fst w)) else []) ++
  (if same_characteristic c Characteristic.StatusLowBattery
   then push_of (Fan.StatusLowBattery (fst w)) else []).
Proof.
  unfold Fan_publishBattery, seq.
  rewrite !Fan_publish_pushed. fan_publish_fields.
  rewrite <- !app_assoc. reflexivity.
Qed.

Lemma Fan_publishBattery_throws_fst (w : world Fan.t) :
  let o := fst w in
  let o' := fst (Fan_publishBattery_throws w) in
  (Fan.Active o' = Fan.Active o /\ Fan.SwingMode o' = Fan.SwingMode o /\
   Fan.RotationSpeed o' = Fan.RotationSpeed o /\
   Fan.BatteryLevel o' = Fan.BatteryLevel o /\
   Fan.StatusLowBattery o' = Fan.StatusLowBattery o /\
   Fan.ChargingState o' = Fan.ChargingState o /\
   Fan.plugUpdateInProgress o' = Fan.plugUpdateInProgress o) /\
  (Fan.context_Active o' = Fan.context_Active o /\
   Fan.context_SwingMode o' = Fan.context_SwingMode o /\
   Fan.context_RotationSpeed o' = Fan.context_RotationSpeed o) /\
  (Fan.context_BatteryLevel o' =
     published (Fan.BatteryLevel o) (Fan.context_BatteryLevel o) /\
   Fan.context_ChargingState o' =
     (if strict_eq (Fan.BatteryLevel o) JUndefined
      then published (Fan.ChargingState o) (Fan.context_ChargingState o)
      else Fan.context_ChargingState o) /\
   Fan.context_StatusLowBattery o' =
     (if strict_eq (Fan.BatteryLevel o) JUndefined &&
         strict_eq (Fan.ChargingState o) JUndefined
      then published (Fan.StatusLowBattery o) (Fan.context_StatusLowBattery o)
      else Fan.context_StatusLowBattery o)) /\
  snd (Fan_publishBattery_throws w) = snd w.
Proof.
  cbv zeta. unfold Fan_publishBattery_throws, published, assign. cbv zeta.
  destruct (strict_eq (Fan.BatteryLevel (fst w)) JUndefined);
    [destruct (strict_eq (Fan.ChargingState (fst w)) JUndefined);
     [destruct (strict_eq (Fan.StatusLowBattery (fst w)) JUndefined)|]|];
    cbn [fst snd andb]; repeat split; reflexivity.
Qed.

(** The object [updateHomeKitCharacteristics()] leaves, and what it
    pushes. *)
Lemma Fan_updateHomeKit_on_fst (service : bool) (w : world Fan.t) :
  let o := fst w in
  let o' := fst (Fan_updateHomeKitCharacteristics_on service w) in
  (Fan.Active o' = Fan.Active o /\ Fan.SwingMode o' = Fan.SwingMode o /\
   Fan.RotationSpeed o' = Fan.RotationSpeed o /\
   Fan.BatteryLevel o' = Fan.BatteryLevel o /\
   Fan.StatusLowBattery o' = Fan.StatusLowBattery o /\
   Fan.ChargingState o' = Fan.ChargingState o /\
   Fan.plugUpdateInProgress o' = Fan.plugUpdateInProgress o) /\
  (Fan.context_Active o' = published (Fan.Active o) (Fan.context_Active o) /\
   Fan.context_SwingMode o' = published (Fan.SwingMode o) (Fan.context_SwingMode o) /\
   Fan.context_RotationSpeed o' =
     published (Fan.RotationSpeed o) (Fan.context_RotationSpeed o) /\
   Fan.context_BatteryLevel o' =
     published (Fan.BatteryLevel o) (Fan.context_BatteryLevel o)) /\
  Fan.context_ChargingState o' =
    (if service || strict_eq (Fan.BatteryLevel o) JUndefined
     then published (Fan.ChargingState o) (Fan.context_ChargingState o)
     else Fan.context_ChargingState o) /\
  Fan.context_StatusLowBattery o' =
    (if service || (strict_eq (Fan.BatteryLevel o) JUndefined &&
                    strict_eq (Fan.ChargingState o) JUndefined)
     then published (Fan.StatusLowBattery o) (Fan.context_StatusLowBattery o)
     else Fan.context_StatusLowBattery o).
Proof.
  cbv zeta. unfold Fan_updateHomeKitCharacteristics_on, seq.
  destruct (Fan_publishFan_fst w)
    as ((A1 & A2 & A3 & A4 & A5 & A6 & A7) & (B1 & B2 & B3) & (C1 & C2 & C3)).
  destruct service; cbn [orb].
  - destruct (Fan_publishBattery_fst (Fan_publishFan w))
      as ((D1 & D2 & D3 & D4 & D5 & D6 & D7) & (E1 & E2 & E3) & (F1 & F2 & F3)).
    rewrite D1, D2, D3, D4, D5, D6, D7, E1, E2, E3, F1, F2, F3.
    rewrite A1, A2, A3, A4, A5, A6, A7, B1, B2, B3, C1, C2, C3.
    repeat split; reflexivity.
  - destruct (Fan_publishBattery_throws_fst (Fan_publishFan w))
      as ((D1 & D2 & D3 & D4 & D5 & D6 & D7) & (E1 & E2 & E3) & (F1 & F2 & F3) & _).
    rewrite D1, D2, D3, D4, D5, D6, D7, E1, E2, E3, F1, F2, F3.
    rewrite A1, A2, A3, A4, A5, A6, A7, B1, B2, B3, C1, C2, C3.
    repeat split; reflexivity.
Qed.

Lemma Fan_updateHomeKit_on_pushed (service : bool) c (w : world Fan.t) :
  pushed c (snd (Fan_updateHomeKitCharacteristics_on service w)) =
  pushed c (snd w) ++
  (if same_characteristic c Characteristic.Active
   then push_of (Fan.Active (fst w)) else []) ++
  (if same_characteristic c Characteristic.RotationSpeed
   then push_of (Fan.RotationSpeed (fst w)) else []) ++
  (if same_characteristic c Characteristic.SwingMode
   then push_of (Fan.SwingMode (fst w)) else []) ++
  (if service
   then (if same_characteristic c Characteristic.BatteryLevel
         then push_of (Fan.BatteryLevel (fst w)) else []) ++
        (if same_characteristic c Characteristic.ChargingState
         then push_of (Fan.ChargingState (fst w)) else []) ++
        (if same_characteristic c Characteristic.StatusLowBattery
         then push_of (Fan.StatusLowBattery (fst w)) else [])
   else []).
Proof.
  unfold Fan_updateHomeKitCharacteristics_on, seq.
  destruct (Fan_publishFan_fst w) as ((_ & _ & _ & A4 & A5 & A6 & _) & _).
  destruct service.
  - rewrite Fan_publishBattery_pushed, Fan_publishFan_pushed, A4, A5, A6.
    rewrite <- !app_assoc. reflexivity.
  - destruct (Fan_publishBattery_throws_fst (Fan_publishFan w)) as (_ & _ & _ & ->).
    rewrite Fan_publishFan_pushed, app_nil_r. reflexivity.
Qed.

(** X21.  The constructor of a fan and of a vacuum cleaner fills every
    capability field from the accessory cache or with its default, so
    that none is [undefined].  Its [updateHomeKitCharacteristics()]
    pushes the power, the rotation speed and the swing mode of the fan
    and copies them, and the battery level, to the accessory context.  On
    an accessory with a Battery service the three battery fields are
    pushed and copied as well; on one without (the class never adds the
    service) none of them is pushed, and the cached charging state and
    low-battery flag stay in the context as they were.  Either way, and
    for the vacuum cleaner, a push that follows without a write in
    between sends nothing. *)
Theorem constructor_first_publish :
  forall (service : bool) (cA cS cR cB cL cC cO cBr : jsval) (r r1 r2 : reply)
         (vcfg : RobotVacuumCleaner.config),
    let f := result (Fan_updateHomeKitCharacteristics_on service)
               (Fan.construct cA cS cR cB cL cC) in
    let tr := effects (Fan_updateHomeKitCharacteristics_on service)
                (Fan.construct cA cS cR cB cL cC) in
    (Fan.context_Active f = or_else cA HAP.Active_INACTIVE /\
     Fan.context_SwingMode f = or_else cS HAP.SwingMode_SWING_DISABLED /\
     Fan.context_RotationSpeed f = or_else cR (num 0) /\
     Fan.context_BatteryLevel f = or_else cB (num 100) /\
     Fan.context_ChargingState f =
       (if service then or_else cC HAP.ChargingState_NOT_CHARGING else cC) /\
     Fan.context_StatusLowBattery f =
       (if service then or_else cL HAP.StatusLowBattery_BATTERY_LEVEL_NORMAL
        else cL)) /\
    (pushed Characteristic.Active tr = [or_else cA HAP.Active_INACTIVE] /\
     pushed Characteristic.SwingMode tr = [or_else cS HAP.SwingMode_SWING_DISABLED] /\
     pushed Characteristic.RotationSpeed tr = [or_else cR (num 0)] /\
     pushed Characteristic.BatteryLevel tr =
       (if service then [or_else cB (num 100)] else []) /\
     pushed Characteristic.ChargingState tr =
       (if service then [or_else cC HAP.ChargingState_NOT_CHARGING] else []) /\
     pushed Characteristic.StatusLowBattery tr =
       (if service then [or_else cL HAP.StatusLowBattery_BATTERY_LEVEL_NORMAL]
        else [])) /\
    dispatches (effects (Fan.openAPIpushChanges r) f) = [] /\
    dispatches
      (effects (RobotVacuumCleaner.debounced vcfg r1 r2)
         (result RobotVacuumCleaner.updateHomeKitCharacteristics
            (RobotVacuumCleaner.construct cO cBr cB cL))) = [].
Proof.
  intros service cA cS cR cB cL cC cO cBr r r1 r2 vcfg f tr.
  destruct (Fan_updateHomeKit_on_fst service (Fan.construct cA cS cR cB cL cC, []))
    as ((HA & _) & (H1 & H2 & H3 & H4) & H5 & H6).
  change (fst (Fan_updateHomeKitCharacteristics_on service
                 (Fan.construct cA cS cR cB cL cC, []))) with f
    in HA, H1, H2, H3, H4, H5, H6.
  cbn [fst Fan.construct Fan.Active Fan.SwingMode Fan.RotationSpeed
       Fan.BatteryLevel Fan.StatusLowBattery Fan.ChargingState Fan.context_Active
       Fan.context_SwingMode Fan.context_RotationSpeed Fan.context_BatteryLevel
       Fan.context_StatusLowBattery Fan.context_ChargingState]
    in HA, H1, H2, H3, H4, H5, H6.
  rewrite !or_else_defined in H5, H6 by reflexivity.
  rewrite published_defined in H1, H2, H3, H4 by (apply or_else_defined; reflexivity).
  split; [|split; [|split]].
  - rewrite H1, H2, H3, H4, H5, H6.
    destruct service; cbn [orb andb];
      rewrite ?published_defined by (apply or_else_defined; reflexivity);
      repeat split; reflexivity.
  - subst tr. unfold effects. rewrite !Fan_updateHomeKit_on_pushed.
    cbn [fst snd Fan.construct Fan.Active Fan.SwingMode Fan.RotationSpeed
         Fan.BatteryLevel Fan.StatusLowBattery Fan.ChargingState
         same_characteristic pushed flat_map app].
    unfold push_of. rewrite !or_else_defined by reflexivity.
    destruct service; cbn [app]; repeat split; reflexivity.
  - destruct (Fan_openAPIpushChanges_dispatches r f) as [Hd _].
    rewrite Hd, HA, H1.
    now rewrite or_else_strict_eq_refl by reflexivity.
  - destruct (Vacuum_debounced_frame vcfg r1 r2
                (result RobotVacuumCleaner.updateHomeKitCharacteristics
                   (RobotVacuumCleaner.construct cO cBr cB cL))) as [-> _].
    unfold result. rewrite Vacuum_updateHomeKit_fst.
    unfold Vacuum_published, published.
    cbn [fst RobotVacuumCleaner.construct RobotVacuumCleaner.On
         RobotVacuumCleaner.Brightness RobotVacuumCleaner.context_On
         RobotVacuumCleaner.context_Brightness].
    rewrite !or_else_defined by reflexivity.
    rewrite !or_else_strict_eq_refl by reflexivity.
    cbn [negb]. rewrite !andb_false_r. reflexivity.
Qed.

(** ** When a refresh asks the cloud *)

Lemma no_request_not_In (tr : list effect) :
  forallb no_request tr = true -> ~ In GetStatus tr.
Proof.
  intros H Hin. rewrite forallb_forall in H. specialize (H _ Hin). discriminate H.
Qed.

Lemma adds_no_request {O : Type} (a : action O) (o : O) :
  adds no_request a -> ~ In GetStatus (effects a o).
Proof.
  intros Ha. apply no_request_not_In. unfold effects.
  apply (adds_all no_request a (o, []) Ha). reflexivity.
Qed.

Section Routing.
Variable StringToNumber : string -> number.

Lemma Fan_publish_silent c get set : adds no_request (Fan.publish c get set).
Proof.
  intros w. unfold Fan.publish.
  destruct (strict_eq (get (fst w)) JUndefined).
  - exists []. split; [now rewrite app_nil_r|reflexivity].
  - eexists. unfold seq, assign, emit. cbn [fst snd]. split; reflexivity.
Qed.

Lemma Contact_publish_silent c get set : adds no_request (Contact.publish c get set).
Proof.
  intros w. unfold Contact.publish.
  destruct (strict_eq (get (fst w)) JUndefined).
  - exists []. split; [now rewrite app_nil_r|reflexivity].
  - eexists. unfold seq, assign, emit. cbn [fst snd]. split; reflexivity.
Qed.

Lemma Fan_openAPIRefreshStatus_requests r w :
  In GetStatus (snd (Fan.openAPIRefreshStatus StringToNumber r w)).
Proof.
  unfold Fan.openAPIRefreshStatus.
  match goal with
  | |- In _ (snd ((emit ?c ;; emit ?e ;; ?rest) w)) =>
      change (In e (snd (rest (emit e (emit c w)))));
      apply In_extends; [|unfold emit; cbn [snd]; apply in_or_app; right; now left]
  end.
  destruct r as [sc ds|e]; unfold statusCode;
    repeat first
      [ apply Fan_parse_extends | apply Fan_updateHomeKit_extends
      | apply Fan_apiError_extends | extends_tac ].
Qed.

Lemma Contact_offlineOff_extends cfg : extends (Contact.offlineOff cfg).
Proof. unfold Contact.offlineOff. extends_tac. Qed.

Lemma Contact_apiError_extends cfg e : extends (Contact.apiError cfg e).
Proof. unfold Contact.apiError. extends_tac. Qed.

Lemma Contact_head_extends cfg ds : extends (Contact.openAPIparseStatus_head cfg ds).
Proof. unfold Contact.openAPIparseStatus_head. extends_tac. Qed.

Lemma Contact_openAPIRefreshStatus_requests cfg r w :
  In GetStatus (snd (Contact.openAPIRefreshStatus StringToNumber cfg r w)).
Proof.
  unfold Contact.openAPIRefreshStatus.
  match goal with
  | |- In _ (snd ((emit ?c ;; emit ?e ;; ?rest) w)) =>
      change (In e (snd (rest (emit e (emit c w)))));
      apply In_extends; [|unfold emit; cbn [snd]; apply in_or_app; right; now left]
  end.
  destruct r as [sc ds|e]; unfold statusCode;
    repeat first
      [ apply Contact_head_extends | apply Contact_updateHomeKit_extends
      | apply Contact_light_extends | apply Contact_tail_extends
      | apply Contact_offlineOff_extends | apply Contact_apiError_extends
      | extends_tac ].
Qed.

Lemma Vacuum_openAPIRefreshStatus_requests r w :
  In GetStatus (snd (RobotVacuumCleaner.openAPIRefreshStatus StringToNumber r w)).
Proof.
  unfold RobotVacuumCleaner.openAPIRefreshStatus, seq.
  destruct r as [sc ds|e]; [destruct (dualStatusOk sc ds)|].
  - unfold RobotVacuumCleaner.updateHomeKitCharacteristics,
      RobotVacuumCleaner.openAPIparseStatus, seq. cbv zeta.
    repeat match goal with
      | |- In _ (snd (RobotVacuumCleaner.publish ?c ?g ?s ?W)) =>
          unfold RobotVacuumCleaner.publish at 1;
          destruct (strict_eq (g (fst W)) JUndefined);
          [|unfold seq at 1; unfold emit at 1; cbn [snd];
            apply in_or_app; left; unfold assign at 1; cbn [snd]]
      end.
    all: unfold emit at 1; cbn [snd]; apply in_or_app; left.
    all: unfold firmwareVersion, seq, assign, emit, skip; cbn [fst snd].
    all: repeat match goal with
           | |- context [if ?c then _ else _] => destruct c
           end; cbn [fst snd]; rewrite ?in_app_iff; cbn; tauto.
  - unfold statusCode, seq, emit. cbn [fst snd]. rewrite !in_app_iff. cbn. tauto.
  - unfold RobotVacuumCleaner.apiError, seq, emit. cbn [fst snd].
    rewrite !in_app_iff. cbn. tauto.
Qed.

End Routing.
Section RoutingSilent.
Variable StringToNumber : string -> number.

Lemma Fan_refreshStatus_silent cfg switchbot r :
  fanPolls cfg switchbot = false ->
  adds no_request (Fan.refreshStatus StringToNumber cfg switchbot r).
Proof.
  unfold fanPolls, Fan.refreshStatus, Fan.BLERefreshStatus, Fan.BLERefreshConnection,
    Fan.BLEparseStatus, Fan.updateHomeKitCharacteristics, Fan.offlineOff.
  destruct (negb (Fan.enableCloudService cfg) && Fan.OpenAPI cfg); cbn [negb andb].
  - intros _. adds_tac.
  - destruct (Fan.BLE cfg).
    + destruct switchbot as [| |[sd|]]; intros H; try rewrite H;
        repeat first [apply Fan_publish_silent | adds_tac].
    + intros ->. repeat first [apply Fan_publish_silent | adds_tac].
Qed.

Lemma Contact_refreshStatus_silent cfg switchbot r :
  contactPolls cfg switchbot = false ->
  adds no_request (Contact.refreshStatus StringToNumber cfg switchbot r).
Proof.
  unfold contactPolls, Contact.refreshStatus, Contact.BLERefreshStatus,
    Contact.BLERefreshConnection, Contact.BLEparseStatus, Contact.parseBattery,
    Contact.updateHomeKitCharacteristics, Contact.offlineOff.
  cbv zeta.
  destruct (negb (Contact.enableCloudService cfg) && Contact.OpenAPI cfg);
    cbn [negb andb].
  - intros _. adds_tac.
  - destruct (Contact.BLE cfg).
    + destruct switchbot as [| |[sd|]]; intros H; try rewrite H;
        repeat first [apply Contact_publish_silent | adds_tac].
    + intros ->. repeat first [apply Contact_publish_silent | adds_tac].
Qed.

Lemma Vacuum_refreshStatus_silent cfg r :
  vacuumOverOpenAPI cfg = false ->
  adds no_request (RobotVacuumCleaner.refreshStatus StringToNumber cfg r).
Proof.
  unfold vacuumOverOpenAPI, RobotVacuumCleaner.refreshStatus,
    RobotVacuumCleaner.offlineOff.
  destruct (negb (RobotVacuumCleaner.enableCloudService cfg) &&
            RobotVacuumCleaner.OpenAPI cfg); cbn [negb andb].
  - intros _. adds_tac.
  - intros ->. adds_tac.
Qed.

End RoutingSilent.

(** X22.  [refreshStatus()] asks the cloud for the status in these cases
    only: the cloud service is not disabled for an OpenAPI device, and
    either the device is not on BLE and OpenAPI is on, or it is on BLE,
    [connectBLE()] gave [undefined] and the connection type is
    "BLE/OpenAPI" with a token.  The fan and the vacuum cleaner also
    require a token before they poll over OpenAPI; the contact sensor
    polls without one. *)
Theorem refresh_asks_the_cloud_exactly_when_routed :
  forall (StringToNumber : string -> number) (fcfg : Fan.config)
         (ccfg : Contact.config) (vcfg : RobotVacuumCleaner.config)
         (switchbot : driver) (r : reply)
         (f : Fan.t) (c : Contact.t) (v : RobotVacuumCleaner.t),
    (In GetStatus (effects (Fan.refreshStatus StringToNumber fcfg switchbot r) f) <->
     fanPolls fcfg switchbot = true) /\
    (In GetStatus
        (effects (Contact.refreshStatus StringToNumber ccfg switchbot r) c) <->
     contactPolls ccfg switchbot = true) /\
    (In GetStatus
        (effects (RobotVacuumCleaner.refreshStatus StringToNumber vcfg r) v) <->
     vacuumOverOpenAPI vcfg = true).
Proof.
  intros S2N fcfg ccfg vcfg switchbot r f c v.
  split; [|split].
  - destruct (fanPolls fcfg switchbot) eqn:E.
    + split; [reflexivity|intros _].
      revert E.
      unfold fanPolls, effects, Fan.refreshStatus, Fan.BLERefreshStatus,
        Fan.BLERefreshConnection, seq.
      destruct (negb (Fan.enableCloudService fcfg) && Fan.OpenAPI fcfg);
        cbn [negb andb]; [discriminate|].
      destruct (Fan.BLE fcfg).
      * destruct switchbot as [| |[sd|]]; try discriminate.
        intros ->. apply Fan_openAPIRefreshStatus_requests.
      * intros ->. apply Fan_openAPIRefreshStatus_requests.
    + split; [|discriminate]. intros Hin. exfalso.
      exact (adds_no_request _ f (Fan_refreshStatus_silent S2N fcfg switchbot r E) Hin).
  - destruct (contactPolls ccfg switchbot) eqn:E.
    + split; [reflexivity|intros _].
      revert E.
      unfold contactPolls, effects, Contact.refreshStatus, Contact.BLERefreshStatus,
        Contact.BLERefreshConnection, seq.
      destruct (negb (Contact.enableCloudService ccfg) && Contact.OpenAPI ccfg);
        cbn [negb andb]; [discriminate|].
      destruct (Contact.BLE ccfg).
      * destruct switchbot as [| |[sd|]]; try discriminate.
        intros ->. apply Contact_openAPIRefreshStatus_requests.
      * intros ->. apply Contact_openAPIRefreshStatus_requests.
    + split; [|discriminate]. intros Hin. exfalso.
      exact (adds_no_request _ c
               (Contact_refreshStatus_silent S2N ccfg switchbot r E) Hin).
  - destruct (vacuumOverOpenAPI vcfg) eqn:E.
    + split; [reflexivity|intros _].
      revert E.
      unfold vacuumOverOpenAPI, effects, RobotVacuumCleaner.refreshStatus, seq.
      destruct (negb (RobotVacuumCleaner.enableCloudService vcfg) &&
                RobotVacuumCleaner.OpenAPI vcfg);
        cbn [negb andb]; [discriminate|].
      intros ->. apply Vacuum_openAPIRefreshStatus_requests.
    + split; [|discriminate]. intros Hin. exfalso.
      exact (adds_no_request _ v (Vacuum_refreshStatus_silent S2N vcfg r E) Hin).
Qed.
(** ** What the contact sensor and the vacuum cleaner publish *)

Lemma defined_publish_In (tr : list effect) (c : Characteristic.t) (v : jsval) :
  forallb defined_publish tr = true ->
  In (UpdateCharacteristic c v) tr -> v <> JUndefined.
Proof.
  intros H Hin. rewrite forallb_forall in H. specialize (H _ Hin). cbn in H.
  intros ->. discriminate H.
Qed.

Section DefinedPublish.
Variable StringToNumber : string -> number.

Lemma Contact_publish_defined c get set :
  adds defined_publish (Contact.publish c get set).
Proof.
  intros w. unfold Contact.publish.
  destruct (strict_eq (get (fst w)) JUndefined) eqn:E.
  - exists []. split; [now rewrite app_nil_r|reflexivity].
  - eexists. unfold seq, assign, emit. cbn [fst snd].
    split; [reflexivity|]. cbn. now rewrite E.
Qed.

Lemma Vacuum_publish_defined c get set :
  adds defined_publish (RobotVacuumCleaner.publish c get set).
Proof.
  intros w. unfold RobotVacuumCleaner.publish.
  destruct (strict_eq (get (fst w)) JUndefined) eqn:E.
  - exists []. split; [now rewrite app_nil_r|reflexivity].
  - eexists. unfold seq, assign, emit. cbn [fst snd].
    split; [reflexivity|]. cbn. now rewrite E.
Qed.

Ltac defined_tac :=
  repeat first
    [ apply Contact_publish_defined
    | apply Vacuum_publish_defined
    | adds_tac ].

Lemma Contact_openAPIRefreshStatus_defined cfg r :
  adds defined_publish (Contact.openAPIRefreshStatus StringToNumber cfg r).
Proof.
  unfold Contact.openAPIRefreshStatus, Contact.openAPIparseStatus_head,
    Contact.openAPIparseStatus_light, Contact.openAPIparseStatus_tail,
    Contact.parseBattery, Contact.updateHomeKitCharacteristics, Contact.offlineOff,
    Contact.apiError, firmwareVersion, statusCode.
  cbv zeta. destruct r as [sc ds|e]; defined_tac.
Qed.

Lemma Contact_refreshStatus_defined cfg switchbot r :
  adds defined_publish (Contact.refreshStatus StringToNumber cfg switchbot r).
Proof.
  unfold Contact.refreshStatus, Contact.BLERefreshStatus, Contact.BLERefreshConnection,
    Contact.BLEparseStatus, Contact.parseBattery.
  cbv zeta.
  destruct switchbot as [| |[sd|]];
    repeat first
      [ apply Contact_openAPIRefreshStatus_defined
      | progress (unfold Contact.updateHomeKitCharacteristics, Contact.offlineOff)
      | defined_tac ].
Qed.

Lemma Contact_webhook_defined cfg context :
  adds defined_publish (Contact.webhookEventHandler cfg context).
Proof.
  unfold Contact.webhookEventHandler, Contact.updateHomeKitCharacteristics.
  defined_tac.
Qed.

Lemma Vacuum_refreshStatus_defined cfg r :
  adds defined_publish (RobotVacuumCleaner.refreshStatus StringToNumber cfg r).
Proof.
  unfold RobotVacuumCleaner.refreshStatus, RobotVacuumCleaner.openAPIRefreshStatus,
    RobotVacuumCleaner.openAPIparseStatus,
    RobotVacuumCleaner.updateHomeKitCharacteristics, RobotVacuumCleaner.offlineOff,
    RobotVacuumCleaner.apiError, firmwareVersion, statusCode.
  cbv zeta. destruct r as [sc ds|e]; defined_tac.
Qed.

Lemma Vacuum_webhook_defined context :
  adds defined_publish (RobotVacuumCleaner.webhookEventHandler context).
Proof.
  unfold RobotVacuumCleaner.webhookEventHandler,
    RobotVacuumCleaner.updateHomeKitCharacteristics.
  defined_tac.
Qed.

Lemma Vacuum_handleCommandReply_defined r :
  adds defined_publish (RobotVacuumCleaner.handleCommandReply r).
Proof.
  unfold RobotVacuumCleaner.handleCommandReply, RobotVacuumCleaner.apiError,
    statusCode.
  destruct r as [sc ds|e]; defined_tac.
Qed.

Lemma Vacuum_debounced_defined cfg r1 r2 :
  adds defined_publish (RobotVacuumCleaner.debounced cfg r1 r2).
Proof.
  unfold RobotVacuumCleaner.debounced.
  apply adds_seq; [|apply adds_seq; [|apply adds_assign]].
  - apply (adds_guard defined_publish
             (fun o => negb (strict_eq (RobotVacuumCleaner.On o)
                               (RobotVacuumCleaner.context_On o)))).
    unfold RobotVacuumCleaner.pushChanges, RobotVacuumCleaner.offlineOff.
    apply adds_seq; [adds_tac|]. apply adds_seq; [|adds_tac].
    destruct (negb (RobotVacuumCleaner.enableCloudService cfg) &&
              RobotVacuumCleaner.OpenAPI cfg); [apply adds_skip|].
    destruct (RobotVacuumCleaner.OpenAPI cfg && RobotVacuumCleaner.token cfg);
      [|adds_tac].
    unfold RobotVacuumCleaner.openAPIpushChanges.
    apply adds_seq; [adds_tac|].
    apply (adds_guard defined_publish
             (fun o => negb (strict_eq (RobotVacuumCleaner.On o)
                               (RobotVacuumCleaner.context_On o)))
             (fun w => let '(command, parameter) :=
                         RobotVacuumCleaner.commands (fst w) in
                       (emit (PostCommand command parameter "command") ;;
                        RobotVacuumCleaner.handleCommandReply r1) w)).
    intros w. destruct (RobotVacuumCleaner.commands (fst w)) as [cm pa].
    apply adds_seq; [adds_tac|apply Vacuum_handleCommandReply_defined].
  - apply (adds_guard defined_publish
             (fun o => truthy (RobotVacuumCleaner.On o) &&
                       negb (strict_eq (RobotVacuumCleaner.Brightness o)
                               (RobotVacuumCleaner.context_Brightness o)))).
    unfold RobotVacuumCleaner.openAPIpushBrightnessChanges.
    apply adds_seq; [adds_tac|].
    intros w. destruct (RobotVacuumCleaner.brightnessCommands (fst w)) as [cm pa].
    apply adds_seq; [adds_tac|apply Vacuum_handleCommandReply_defined].
Qed.

End DefinedPublish.

(** X23.  Neither the contact sensor nor the vacuum cleaner ever pushes
    [undefined] to a characteristic: not on a refresh, whatever the
    transport and its answer, not on a webhook event, whatever the
    payload, and not when the vacuum cleaner pushes its changes. *)
Theorem contact_and_vacuum_never_publish_undefined :
  forall (StringToNumber : string -> number) (ccfg : Contact.config)
         (vcfg : RobotVacuumCleaner.config) (switchbot : driver)
         (r r1 r2 : reply) (context : webhookContext)
         (c : Contact.t) (v : RobotVacuumCleaner.t)
         (ch : Characteristic.t) (val : jsval),
    In (UpdateCharacteristic ch val)
       (effects (Contact.refreshStatus StringToNumber ccfg switchbot r) c ++
        effects (Contact.webhookEventHandler ccfg context) c ++
        effects (RobotVacuumCleaner.refreshStatus StringToNumber vcfg r) v ++
        effects (RobotVacuumCleaner.webhookEventHandler context) v ++
        effects (RobotVacuumCleaner.debounced vcfg r1 r2) v) ->
    val <> JUndefined.
Proof.
  intros S2N ccfg vcfg switchbot r r1 r2 context c v ch val.
  apply defined_publish_In. unfold effects.
  rewrite !forallb_app.
  rewrite (adds_all _ _ (c, []) (Contact_refreshStatus_defined S2N ccfg switchbot r))
    by reflexivity.
  rewrite (adds_all _ _ (c, []) (Contact_webhook_defined ccfg context))
    by reflexivity.
  rewrite (adds_all _ _ (v, []) (Vacuum_refreshStatus_defined S2N vcfg r))
    by reflexivity.
  rewrite (adds_all _ _ (v, []) (Vacuum_webhook_defined context)) by reflexivity.
  rewrite (adds_all _ _ (v, []) (Vacuum_debounced_defined vcfg r1 r2))
    by reflexivity.
  reflexivity.
Qed.

Lemma contact_and_vacuum_never_publish_undefined_witness :
  In (UpdateCharacteristic Characteristic.ContactSensorState
        HAP.ContactSensorState_CONTACT_NOT_DETECTED)
     (effects (Contact.refreshStatus digitsToNumber Sample.contactConfig DriverFalse
                 (Replied 200
                    (Sample.answer 100
                       (Sample.contactBody (str "open") (str "dim") (JBool false)
                          (num 80)))))
        Sample.contact0 ++
      effects (Contact.webhookEventHandler Sample.contactConfig
                 (Sample.contactEvent JUndefined JUndefined JUndefined))
        Sample.contact0 ++
      effects (RobotVacuumCleaner.refreshStatus digitsToNumber Sample.vacuumConfig
                 (Threw "offline"))
        (fst Sample.vacuum0) ++
      effects (RobotVacuumCleaner.webhookEventHandler
                 (Sample.contactEvent JUndefined JUndefined JUndefined))
        (fst Sample.vacuum0) ++
      effects (RobotVacuumCleaner.debounced Sample.vacuumConfig (Threw "offline")
                 (Threw "offline"))
        (fst Sample.vacuum0)) /\
  HAP.ContactSensorState_CONTACT_NOT_DETECTED <> JUndefined.
Proof.
  split; [vm_compute; tauto|].
  apply (contact_and_vacuum_never_publish_undefined digitsToNumber
           Sample.contactConfig Sample.vacuumConfig DriverFalse
           (Replied 200
              (Sample.answer 100
                 (Sample.contactBody (str "open") (str "dim") (JBool false) (num 80))))
           (Threw "offline") (Threw "offline")
           (Sample.contactEvent JUndefined JUndefined JUndefined)
           Sample.contact0 (fst Sample.vacuum0) Characteristic.ContactSensorState).
  vm_compute. tauto.
Defined.
(** ** The low-battery flag under webhook events *)

Lemma Fan_webhook_store_fst (context : webhookContext) (w : world Fan.t) :
  let o' := fst (Fan_webhook_store context w) in
  Fan.BatteryLevel o' = wh_battery context /\
  strict_eq (Fan.ChargingState o') JUndefined = false /\
  Fan.StatusLowBattery o' = Fan.StatusLowBattery (fst w) /\
  Fan.context_StatusLowBattery o' = Fan.context_StatusLowBattery (fst w).
Proof.
  unfold Fan_webhook_store, seq, assign, emit, skip.
  destruct (truthy (wh_version context));
    destruct (strict_eq (wh_chargingStatus context) (str "charging"));
    repeat split; reflexivity.
Qed.

Lemma Vacuum_webhook_battery context (w : world RobotVacuumCleaner.t) :
  RobotVacuumCleaner.BatteryLevel
    (fst (RobotVacuumCleaner.webhookEventHandler context w)) = wh_battery context /\
  RobotVacuumCleaner.StatusLowBattery
    (fst (RobotVacuumCleaner.webhookEventHandler context w)) =
    RobotVacuumCleaner.StatusLowBattery (fst w) /\
  RobotVacuumCleaner.context_StatusLowBattery
    (fst (RobotVacuumCleaner.webhookEventHandler context w)) =
    published (RobotVacuumCleaner.StatusLowBattery (fst w))
      (RobotVacuumCleaner.context_StatusLowBattery (fst w)).
Proof.
  unfold RobotVacuumCleaner.webhookEventHandler.
  match goal with
  | |- context [(emit ?e ;; ?f ;; ?d ;;
                 RobotVacuumCleaner.updateHomeKitCharacteristics) w] =>
      change ((emit e ;; f ;; d ;;
               RobotVacuumCleaner.updateHomeKitCharacteristics) w)
        with (RobotVacuumCleaner.updateHomeKitCharacteristics
                (d ((emit e ;; f) w)));
      assert (Hl : preserves RobotVacuumCleaner.StatusLowBattery (emit e ;; f ;; d))
        by preserves_tac;
      assert (Hc : preserves RobotVacuumCleaner.context_StatusLowBattery
                     (emit e ;; f ;; d))
        by preserves_tac;
      specialize (Hl w); specialize (Hc w);
      change ((emit e ;; f ;; d) w) with (d ((emit e ;; f) w)) in Hl, Hc
  end.
  rewrite Vacuum_updateHomeKit_fst. unfold Vacuum_published.
  cbn [RobotVacuumCleaner.BatteryLevel RobotVacuumCleaner.StatusLowBattery
       RobotVacuumCleaner.context_StatusLowBattery].
  rewrite Hl, Hc. repeat split; reflexivity.
Qed.

(** X24.  A webhook event of a fan or of a vacuum cleaner stores the
    battery value of the payload as it comes, and never recomputes the
    low-battery flag: whatever the payload and the state before, the
    flag after the event is the flag before it.  What is pushed to the
    registry and copied to the accessory context is that old flag (or
    nothing, when the flag is [undefined]); a fan whose accessory has no
    Battery service pushes no flag at all and leaves the context copy as
    it was.  Only the parsers of a refresh set the flag. *)
Theorem webhook_stores_battery_but_not_low_flag :
  forall (service : bool) (context : webhookContext) (o : Fan.t)
         (v : RobotVacuumCleaner.t),
    (Fan.BatteryLevel (result (Fan_webhookEventHandler_on service context) o) =
       wh_battery context /\
     Fan.StatusLowBattery (result (Fan_webhookEventHandler_on service context) o) =
       Fan.StatusLowBattery o /\
     Fan.context_StatusLowBattery
       (result (Fan_webhookEventHandler_on service context) o) =
       (if service
        then published (Fan.StatusLowBattery o) (Fan.context_StatusLowBattery o)
        else Fan.context_StatusLowBattery o) /\
     pushed Characteristic.StatusLowBattery
       (effects (Fan_webhookEventHandler_on service context) o) =
       (if service then push_of (Fan.StatusLowBattery o) else [])) /\
    (RobotVacuumCleaner.BatteryLevel
       (result (RobotVacuumCleaner.webhookEventHandler context) v) =
       wh_battery context /\
     RobotVacuumCleaner.StatusLowBattery
       (result (RobotVacuumCleaner.webhookEventHandler context) v) =
       RobotVacuumCleaner.StatusLowBattery v /\
     RobotVacuumCleaner.context_StatusLowBattery
       (result (RobotVacuumCleaner.webhookEventHandler context) v) =
       published (RobotVacuumCleaner.StatusLowBattery v)
         (RobotVacuumCleaner.context_StatusLowBattery v)).
Proof.
  intros service context o v. split.
  - unfold result, effects, Fan_webhookEventHandler_on, seq.
    destruct (Fan_webhook_store_fst context (o, [])) as (Hb & Hc & Hl & Hx).
    destruct (Fan_updateHomeKit_on_fst service (Fan_webhook_store context (o, [])))
      as ((_ & _ & _ & H4 & H5 & _) & _ & _ & H6).
    cbn [fst] in Hl, Hx.
    rewrite H4, H5, H6, Hb, Hc, Hl, Hx, andb_false_r, orb_false_r.
    split; [reflexivity|]. split; [reflexivity|]. split; [reflexivity|].
    rewrite Fan_updateHomeKit_on_pushed.
    assert (Hs : pushed Characteristic.StatusLowBattery
                   (snd (Fan_webhook_store context (o, []))) = []).
    { unfold Fan_webhook_store, seq, assign, emit, skip.
      destruct (truthy (wh_version context)); reflexivity. }
    rewrite Hs, Hl. cbn [same_characteristic app].
    destruct service; rewrite ?app_nil_r; reflexivity.
  - exact (Vacuum_webhook_battery context (v, [])).
Qed.
